(** * MP3 Reduce Tool, v0.3.0: a shallow embedding of [reduce-v0.3.0.py]

    The development follows the Python source section by section:
    utility and string helpers, the ffprobe wrapper, the reduction worker,
    the safe-deletion check, the CSV writer and [main] with its preview
    loop, parallel reduction and deletion phases.

    Conventions of the embedding.
    - Python [int] is [Z]; Python [float] is IEEE binary64, modelled by the
      Standard Library's [spec_float] with precision 53 and [emax] 1024 and
      its specification-level operations, which compute.
    - Python [str] is [string]; [str.lower] and [str.strip] act on the ASCII
      range (bytes above 127 are left alone).
    - A [Path] is the text of the path; [name], [stem], [suffix] and
      [with_name] follow [pathlib].
    - A Python exception is a value of [exn]; an expression that can raise
      has type [result A]; code with side effects is a function
      [State -> result A * State] (the side effects that happened before an
      exception stay in the state).
    - What the program asks of its surroundings (the clock, [shutil.which],
      the two external processes, [json.loads], the directory walk, the
      order in which futures complete) is a field of [Runtime]. *)

From Stdlib Require Import ZArith String Ascii List Bool Lia Permutation.
From Stdlib Require Import Floats.SpecFloat.
From Stdlib Require Import Decimal DecimalString DecimalPos DecimalN.
From stdpp Require Import base option gmap strings list.

Local Open Scope string_scope.
Local Open Scope Z_scope.
Local Set Warnings "-register-all".

(* ------------------------------------------------------------ *)
(** ** Exceptions *)
(* ------------------------------------------------------------ *)

Inductive exn : Type :=
  | OSError | ValueError | TypeError | KeyError | IndexError
  | AttributeError | ZeroDivisionError | OverflowError | EOFError
  | RuntimeError | BrokenProcessPool.

Inductive result (A : Type) : Type :=
  | Ok (a : A)
  | Raise (e : exn).
Arguments Ok {A} a.
Arguments Raise {A} e.

Definition rbind {A B} (r : result A) (k : A -> result B) : result B :=
  match r with
  | Ok a => k a
  | Raise e => Raise e
  end.

Declare Scope exc_scope.
Delimit Scope exc_scope with exc.
Notation "'let?' x ':=' c 'in' k" := (rbind c (fun x => k))
  (at level 10, x pattern, c at level 100, k at level 200) : exc_scope.

Definition is_ok {A} (r : result A) : bool :=
  match r with Ok _ => true | Raise _ => false end.

(* ------------------------------------------------------------ *)
(** ** Python floats (binary64) *)
(* ------------------------------------------------------------ *)

Module F64.

Definition prec : Z := 53.
Definition emax : Z := 1024.

Abbreviation float := spec_float.

Definition mul : float -> float -> float := SFmul prec emax.
Definition div : float -> float -> float := SFdiv prec emax.
Definition sub : float -> float -> float := SFsub prec emax.
Definition ltb : float -> float -> bool := SFltb.
Definition leb : float -> float -> bool := SFleb.

Definition is_finite (f : float) : bool :=
  match f with
  | S754_zero _ | S754_finite _ _ _ => true
  | S754_infinity _ | S754_nan => false
  end.

(** The nearest double of an integer (round half to even). *)
Definition of_Z (z : Z) : float := binary_normalize prec emax z 0 false.

(** [float(n)] for a Python int: an int beyond the double range raises. *)
Definition of_int (z : Z) : result float :=
  let f := of_Z z in
  if is_finite f then Ok f else Raise OverflowError.

(** [a / b] on two Python ints: true division, correctly rounded from
    the exact quotient. *)
Definition raw (z : Z) : float :=
  match z with
  | Z0 => S754_zero false
  | Zpos p => S754_finite false p 0
  | Zneg p => S754_finite true p 0
  end.

Definition int_truediv (a b : Z) : result float :=
  if b =? 0 then Raise ZeroDivisionError
  else
    let q := div (raw a) (raw b) in
    if is_finite q then Ok q else Raise OverflowError.

(** [int(x)]: truncation toward zero; [nan] and the infinities raise. *)
Definition to_int (f : float) : result Z :=
  match f with
  | S754_zero _ => Ok 0
  | S754_nan => Raise ValueError
  | S754_infinity _ => Raise OverflowError
  | S754_finite s m e =>
      let v := if s then Zneg m else Zpos m in
      Ok (if 0 <=? e then v * 2 ^ e else Z.quot v (2 ^ (- e)))
  end.

(** [math.floor(x)], the largest integer not above [x]. *)
Definition floor (f : float) : result Z :=
  match f with
  | S754_zero _ => Ok 0
  | S754_nan => Raise ValueError
  | S754_infinity _ => Raise OverflowError
  | S754_finite s m e =>
      let v := if s then Zneg m else Zpos m in
      Ok (if 0 <=? e then v * 2 ^ e else Z.div v (2 ^ (- e)))
  end.

End F64.

Abbreviation float := spec_float.

(* ------------------------------------------------------------ *)
(** ** Strings *)
(* ------------------------------------------------------------ *)

Definition lower_ascii (c : ascii) : ascii :=
  let n := N_of_ascii c in
  if ((65 <=? n) && (n <=? 90))%N then ascii_of_N (n + 32) else c.

(** [s.lower()] *)
Fixpoint lower (s : string) : string :=
  match s with
  | EmptyString => EmptyString
  | String c t => String (lower_ascii c) (lower t)
  end.

(** [needle in hay] on two strings *)
Fixpoint contains (needle hay : string) : bool :=
  String.prefix needle hay ||
  match hay with
  | EmptyString => false
  | String _ t => contains needle t
  end.

(** The ASCII white space; [str.strip] removes the Unicode white space as
    well, so the text of the program is never longer than the one here. *)
Definition is_space (c : ascii) : bool :=
  let n := N_of_ascii c in
  (((9 <=? n) && (n <=? 13)) || ((28 <=? n) && (n <=? 32)))%N.

Fixpoint lstrip_by (p : ascii -> bool) (s : string) : string :=
  match s with
  | EmptyString => EmptyString
  | String c t => if p c then lstrip_by p t else s
  end.

Fixpoint rstrip_by (p : ascii -> bool) (s : string) : string :=
  match s with
  | EmptyString => EmptyString
  | String c t =>
      match rstrip_by p t with
      | EmptyString => if p c then EmptyString else String c EmptyString
      | t' => String c t'
      end
  end.

Definition strip_by (p : ascii -> bool) (s : string) : string :=
  rstrip_by p (lstrip_by p s).

(** [s.strip()] *)
Definition strip : string -> string := strip_by is_space.

(** [s.strip(q)] where [q] is the double-quote character (code 34) *)
Definition strip_quotes : string -> string :=
  strip_by (fun c => Ascii.eqb c (ascii_of_N 34)).

(** [s.replace(b, "/")] where [b] is the backslash (code 92) *)
Fixpoint replace_backslash (s : string) : string :=
  match s with
  | EmptyString => EmptyString
  | String c t =>
      String (if Ascii.eqb c (ascii_of_N 92) then ascii_of_N 47 else c)
             (replace_backslash t)
  end.

(** [str(n)] for an int *)
Definition str_of_N (n : N) : string := NilEmpty.string_of_uint (N.to_uint n).

Definition str_of_Z (z : Z) : string :=
  match z with
  | Zneg p => "-" +:+ str_of_N (Npos p)
  | _ => str_of_N (Z.to_N z)
  end.

(** [f"{x:.2f}"]: the exact binary value rounded to two decimals, half to
    even, with the sign kept. *)
Definition round_half_even_div (num den : Z) : Z :=
  let q := num / den in
  let r := num mod den in
  match 2 * r ?= den with
  | Lt => q
  | Gt => q + 1
  | Eq => if Z.even q then q else q + 1
  end.

Definition hundredths (m : positive) (e : Z) : Z :=
  if 0 <=? e then 100 * Zpos m * 2 ^ e
  else round_half_even_div (100 * Zpos m) (2 ^ (- e)).

Definition two_digits (n : Z) : string :=
  str_of_N (Z.to_N (n / 10)) +:+ str_of_N (Z.to_N (n mod 10)).

Definition fixed2 (h : Z) : string :=
  str_of_N (Z.to_N (h / 100)) +:+ "." +:+ two_digits (h mod 100).

Definition format_2f (f : float) : string :=
  match f with
  | S754_nan => "nan"
  | S754_infinity s => if s then "-inf" else "inf"
  | S754_zero s => (if s then "-" else "") +:+ "0.00"
  | S754_finite s m e => (if s then "-" else "") +:+ fixed2 (hundredths m e)
  end.

(** What "a two-decimal string" means: an optional sign, at least one
    digit, a point, exactly two digits. *)
Definition is_digit (c : ascii) : bool :=
  let n := N_of_ascii c in ((48 <=? n) && (n <=? 57))%N.

Fixpoint all_digits (s : string) : bool :=
  match s with
  | EmptyString => true
  | String c t => is_digit c && all_digits t
  end.

Fixpoint unsigned_two_decimal (s : string) : bool :=
  match s with
  | EmptyString => false
  | String c t =>
      is_digit c &&
      match t with
      | String p (String d1 (String d2 EmptyString)) =>
          (Ascii.eqb p "."%char && is_digit d1 && is_digit d2)
          || unsigned_two_decimal t
      | _ => unsigned_two_decimal t
      end
  end.

Definition two_decimal (s : string) : bool :=
  match s with
  | String "-"%char t => unsigned_two_decimal t
  | _ => unsigned_two_decimal s
  end.


(* ------------------------------------------------------------ *)
(** ** Paths and the file system *)
(* ------------------------------------------------------------ *)

Abbreviation Path := string.

Definition is_sep (c : ascii) : bool :=
  let n := N_of_ascii c in ((n =? 47) || (n =? 92))%N.

(** The path text cut after its last separator: the directory part (with
    the separator) and the final component. *)
Fixpoint split_last (s : string) : string * string :=
  match s with
  | EmptyString => (EmptyString, EmptyString)
  | String c t =>
      let '(d, n) := split_last t in
      match d with
      | EmptyString =>
          if is_sep c then (String c EmptyString, n)
          else (EmptyString, String c n)
      | _ => (String c d, n)
      end
  end.

(** [path.name], for a path with a final component, as the directory walk
    yields them ([pathlib] gives the paths [.] and [..] an empty name). *)
Definition name (p : Path) : string := snd (split_last p).

(** [s.rfind(c)] *)
Fixpoint rfind (c : ascii) (s : string) : option nat :=
  match s with
  | EmptyString => None
  | String a t =>
      match rfind c t with
      | Some i => Some (S i)
      | None => if Ascii.eqb a c then Some O else None
      end
  end.

(** The index at which [pathlib] cuts the suffix off a name: the last dot,
    unless it is the first or the last character. *)
Definition suffix_index (n : string) : option nat :=
  match rfind "."%char n with
  | Some i =>
      if ((0 <? i) && (i <? String.length n - 1))%nat then Some i else None
  | None => None
  end.

(** [path.suffix] *)
Definition suffix (p : Path) : string :=
  let n := name p in
  match suffix_index n with
  | Some i => substring i (String.length n - i) n
  | None => EmptyString
  end.

(** [path.stem] *)
Definition stem (p : Path) : string :=
  let n := name p in
  match suffix_index n with
  | Some i => substring 0 i n
  | None => n
  end.

(** [path.with_name(n)]; a path without a final component raises. *)
Definition with_name (p : Path) (n : string) : result Path :=
  match name p with
  | EmptyString => Raise ValueError
  | _ => Ok (fst (split_last p) +:+ n)
  end.

Record FileMeta : Type := {
  st_size : Z;
  st_mtime : float;
}.

Abbreviation FS := (gmap string FileMeta).

(** [path.exists()], for the errors that the call answers with [False] (no
    such file or directory). Another [OSError], such as a name that is too
    long for the file system, makes the call of the program raise and is
    outside this model. *)
Definition exists_ (fs : FS) (p : Path) : bool := bool_decide (is_Some (fs !! p)).

(** [path.stat()] *)
Definition stat (fs : FS) (p : Path) : result FileMeta :=
  match fs !! p with
  | Some m => Ok m
  | None => Raise OSError
  end.

(* ------------------------------------------------------------ *)
(** ** JSON values as Python sees them *)
(* ------------------------------------------------------------ *)

Inductive json : Type :=
  | JNull
  | JBool (b : bool)
  | JInt (z : Z)
  | JFloat (f : float)
  | JStr (s : string)
  | JArr (l : list json)
  | JObj (kv : list (string * json)).

Fixpoint assoc (k : string) (kv : list (string * json)) : option json :=
  match kv with
  | [] => None
  | (k', v) :: rest => if String.eqb k k' then Some v else assoc k rest
  end.

Definition is_jstr (k : string) (v : json) : bool :=
  match v with
  | JStr s => String.eqb k s
  | _ => false
  end.

(** [k in v] for a string [k] *)
Definition py_in (k : string) (v : json) : result bool :=
  match v with
  | JObj kv => Ok (bool_decide (is_Some (assoc k kv)))
  | JArr l => Ok (existsb (is_jstr k) l)
  | JStr s => Ok (contains k s)
  | _ => Raise TypeError
  end.

(** [v[k]] for a string [k] *)
Definition py_getitem (v : json) (k : string) : result json :=
  match v with
  | JObj kv =>
      match assoc k kv with
      | Some x => Ok x
      | None => Raise KeyError
      end
  | _ => Raise TypeError
  end.

(** [v[0]] *)
Definition py_getitem0 (v : json) : result json :=
  match v with
  | JArr (x :: _) => Ok x
  | JArr [] => Raise IndexError
  | JStr (String c _) => Ok (JStr (String c EmptyString))
  | JStr EmptyString => Raise IndexError
  | JObj _ => Raise KeyError
  | _ => Raise TypeError
  end.

(** [v.get(k)]; a missing key gives [None], which is [JNull]. *)
Definition py_get (v : json) (k : string) : result json :=
  match v with
  | JObj kv => Ok (default JNull (assoc k kv))
  | _ => Raise AttributeError
  end.

(** Truth value of [v] *)
Definition truthy (v : json) : bool :=
  match v with
  | JNull => false
  | JBool b => b
  | JInt z => negb (z =? 0)
  | JFloat f =>
      match f with
      | S754_zero _ => false
      | _ => true
      end
  | JStr s => negb (String.eqb s EmptyString)
  | JArr l => negb (bool_decide (l = []))
  | JObj kv => negb (bool_decide (kv = []))
  end.

Definition is_none (v : json) : bool :=
  match v with
  | JNull => true
  | _ => false
  end.

(* ------------------------------------------------------------ *)
(** ** Records of the program *)
(* ------------------------------------------------------------ *)

(** A CSV cell: the row dictionaries hold strings and ints. *)
Inductive Cell : Type :=
  | CStr (s : string)
  | CInt (z : Z).

Definition cell_text (c : Cell) : string :=
  match c with
  | CStr s => s
  | CInt z => str_of_Z z
  end.

(** The dictionary appended to [csv_rows]. *)
Module Row.
Record t : Type := mk {
  filename : string;
  bitrate : Cell;
  size_bytes : Cell;
  estimated_size_bytes : Cell;
  savings_bytes : Cell;
  savings_percent : Cell;
  action : string;
  skip_reason : string;
}.
End Row.

(** The dictionary returned by [ffprobe_audio_info]. *)
Module Info.
Record t : Type := mk {
  bitrate : Z;
  duration : float;
  size : Z;
}.
End Info.

(** An entry of [reducible_files]. *)
Module Item.
Record t : Type := mk {
  path : Path;
  bitrate : Z;
  duration : float;
  size : Z;
  estimated_size : Z;
  savings_bytes : Z;
  savings_percent : float;
  ffmpeg_cmd : string;
}.
End Item.

(** A value of the [file_info] dictionary. *)
Module FileInfo.
Record t : Type := mk {
  bitrate : Z;
  size : Z;
  estimated_size : Z;
  savings_bytes : Z;
  savings_percent : float;
}.
End FileInfo.

(** The dictionary returned by [reduce_worker]. *)
Module Res.
Record t : Type := mk {
  src : string;
  dst : string;
  savings_bytes : Z;
  savings_percent : float;
  success : bool;
}.
End Res.

(** The parsed command line. *)
Module Args.
Record t : Type := mk {
  dir : option string;
  minutes : option Z;
  auto : bool;
  nocsv : bool;
}.
End Args.

(* ------------------------------------------------------------ *)
(** ** The surroundings of the program *)
(* ------------------------------------------------------------ *)

Record Runtime : Type := {
  (** [shutil.which] *)
  which : string -> option string;
  (** the standard output of [ffmpeg -version], or the exception of the launch *)
  run_version : list string -> result string;
  (** [os.path.expandvars] *)
  expandvars : string -> string;
  (** [str(Path(s).resolve())] *)
  resolve : string -> result string;
  (** the standard output of the probe process, or the exception of the launch *)
  run_ffprobe : FS -> list string -> result string;
  (** the encoder process: its return code and the file system it leaves,
      or the exception with which the worker's future fails *)
  run_ffmpeg : FS -> list string -> result (Z * FS);
  (** [json.loads]; [None] is a decoding error *)
  json_loads : string -> option json;
  (** [int(s)] and [float(s)] on a string; [None] is a [ValueError] *)
  str_to_int : string -> option Z;
  str_to_float : string -> option float;
  (** [datetime.now().strftime(...)] when logging is set up *)
  now_stamp : string;
  (** [time.time()] *)
  time_time : float;
  (** [os.getcwd()] *)
  getcwd : string;
  (** [Path(d).exists()] for the directory to scan *)
  dir_exists : string -> bool;
  (** what [Path(d).rglob(pattern)] yields for the pattern of MP3 files *)
  rglob_mp3 : string -> list Path;
  (** whether [unlink] is refused (permissions, locks) *)
  unlink_denied : Path -> bool;
  (** the order in which [as_completed] yields the submitted futures *)
  as_completed : list Item.t -> list Item.t;
  as_completed_perm : forall l, Permutation (as_completed l) l;
}.

(** The mutable world: the files, the lines appended to the log file (the
    time stamp in front of each line is left out), what was printed, what
    is still to be read from standard input, and the CSV files written. *)
Record State : Type := {
  fs : FS;
  logfile : list string;
  console : list string;
  stdin : list string;
  reports : gmap string (list (list string));
}.

Definition M (A : Type) : Type := State -> result A * State.

Definition ret {A} (a : A) : M A := fun st => (Ok a, st).

Definition bind {A B} (c : M A) (k : A -> M B) : M B :=
  fun st =>
    match c st with
    | (Ok a, st') => k a st'
    | (Raise e, st') => (Raise e, st')
    end.

Definition lift {A} (r : result A) : M A := fun st => (r, st).

Declare Scope prog_scope.
Delimit Scope prog_scope with prog.
Notation "'let!' x ':=' c 'in' k" := (bind c (fun x => k))
  (at level 10, x pattern, c at level 100, k at level 200) : prog_scope.
Notation "c ';;' k" := (bind c (fun _ => k))
  (at level 100, k at level 200, right associativity) : prog_scope.

(** [try: c except Exception: h] *)
Definition try_except {A} (c : M A) (h : exn -> M A) : M A :=
  fun st =>
    match c st with
    | (Ok a, st') => (Ok a, st')
    | (Raise e, st') => h e st'
    end.

Definition with_fs (f : FS) (st : State) : State :=
  {| fs := f; logfile := logfile st; console := console st;
     stdin := stdin st; reports := reports st |}.

Definition with_log (msg : string) (st : State) : State :=
  {| fs := fs st; logfile := logfile st ++ [msg]; console := console st;
     stdin := stdin st; reports := reports st |}.

Definition with_console (msg : string) (st : State) : State :=
  {| fs := fs st; logfile := logfile st; console := console st ++ [msg];
     stdin := stdin st; reports := reports st |}.

Definition with_stdin (rest : list string) (st : State) : State :=
  {| fs := fs st; logfile := logfile st; console := console st;
     stdin := rest; reports := reports st |}.

Definition with_report (path : Path) (content : list (list string)) (st : State) : State :=
  {| fs := fs st; logfile := logfile st; console := console st;
     stdin := stdin st; reports := <[path := content]> (reports st) |}.

Definition get_fs : M FS := fun st => (Ok (fs st), st).

Definition set_fs (f : FS) : M unit := fun st => (Ok tt, with_fs f st).

(** [print(msg)]. The console is taken to accept every line: a standard
    output that is closed, or that cannot encode the text, makes the call of
    the program raise, and that failure is outside this model. *)
Definition print (msg : string) : M unit := fun st => (Ok tt, with_console msg st).

(** [log(msg)], the closure of [main] that appends a line to the log file.
    The closure opens the file and writes the line at every call; the file
    is taken to accept it. A failure of that write (an [OSError], a name
    that the encoding of the file cannot hold) is outside this model: where
    a statement below gives the result of a step that logs, it is the
    result of the step whose log line was written. *)
Definition log (msg : string) : M unit := fun st => (Ok tt, with_log msg st).

(** [input(prompt)]: the prompt is printed, then a line is read; the end of
    standard input raises. *)
Definition input (prompt : string) : M string :=
  fun st =>
    match stdin st with
    | [] => (Raise EOFError, with_console prompt st)
    | l :: rest => (Ok l, with_stdin rest (with_console prompt st))
    end.

Definition nl : string := String (ascii_of_N 10) EmptyString.

Section Program.

Context (rt : Runtime).

Local Open Scope exc_scope.
Local Open Scope prog_scope.

(* ---------------------------------------------------------- *)
(** *** SECTION: ffmpeg/ffprobe Detection *)
(* ---------------------------------------------------------- *)

Definition nonempty (s : string) : bool := negb (String.eqb s EmptyString).

Definition detect_ffmpeg_windows_only : result (string * string) :=
  match which rt "ffmpeg", which rt "ffprobe" with
  | Some ffmpeg, Some ffprobe =>
      if nonempty ffmpeg && nonempty ffprobe then Ok (ffmpeg, ffprobe)
      else Raise RuntimeError
  | _, _ => Raise RuntimeError
  end.

Definition detect_message : string :=
  "ffmpeg/ffprobe not found on PATH." +:+ nl +:+
  "Please install ffmpeg and ensure both ffmpeg.exe and ffprobe.exe " +:+
  "are available in your system PATH.".

(* ---------------------------------------------------------- *)
(** *** SECTION: ffmpeg Version Detection *)
(* ---------------------------------------------------------- *)

Definition is_linebreak (c : ascii) : bool :=
  let n := N_of_ascii c in
  (((10 <=? n) && (n <=? 13)) || ((28 <=? n) && (n <=? 30)))%N.

(** [str.splitlines] also breaks at U+0085, U+2028 and U+2029: in a text
    kept as UTF-8 these are the bytes C2 85, E2 80 A8 and E2 80 A9. *)
Definition unicode_break (s : string) : bool :=
  match s with
  | String a (String b t) =>
      ((N_of_ascii a =? 194) && (N_of_ascii b =? 133))%N ||
      match t with
      | String c _ =>
          ((N_of_ascii a =? 226) && (N_of_ascii b =? 128) &&
           ((N_of_ascii c =? 168) || (N_of_ascii c =? 169)))%N
      | EmptyString => false
      end
  | _ => false
  end.

Fixpoint until_linebreak (s : string) : string :=
  match s with
  | EmptyString => EmptyString
  | String c t =>
      if is_linebreak c || unicode_break (String c t) then EmptyString
      else String c (until_linebreak t)
  end.

(** [s.splitlines()[0]] *)
Definition first_line (s : string) : result string :=
  match s with
  | EmptyString => Raise IndexError
  | _ => Ok (until_linebreak s)
  end.

Definition get_ffmpeg_version (ffmpeg_cmd : string) : string :=
  match (let? out := run_version rt [ffmpeg_cmd; "-version"] in first_line out) with
  | Ok first => first
  | Raise _ => "Unknown ffmpeg version"
  end.

(* ---------------------------------------------------------- *)
(** *** SECTION: Directory Input and Path Normalization *)
(* ---------------------------------------------------------- *)

Definition normalize_directory_input (raw : string) : string :=
  replace_backslash (strip raw).

Definition normalize_path (path : Path) : result string :=
  let expanded := expandvars rt path in
  let? resolved := resolve rt expanded in
  Ok (replace_backslash resolved).

(* ---------------------------------------------------------- *)
(** *** SECTION: Reduced File Detection *)
(* ---------------------------------------------------------- *)

Definition reduced_name (path : Path) : result Path :=
  with_name path (stem path +:+ "_reduced.mp3").

Definition reduced_exists (f : FS) (path : Path) : result bool :=
  if negb (String.eqb (lower (suffix path)) ".mp3") then Ok false
  else
    let? sibling := reduced_name path in
    Ok (exists_ f sibling).

(* ---------------------------------------------------------- *)
(** *** SECTION: CSV Writer *)
(* ---------------------------------------------------------- *)

Definition columns : list string :=
  ["filename"; "bitrate"; "size_bytes"; "estimated_size_bytes";
   "savings_bytes"; "savings_percent"; "action"; "skip_reason"].

Definition row_cells (row : Row.t) : list string :=
  [Row.filename row;
   cell_text (Row.bitrate row);
   cell_text (Row.size_bytes row);
   cell_text (Row.estimated_size_bytes row);
   cell_text (Row.savings_bytes row);
   cell_text (Row.savings_percent row);
   Row.action row;
   Row.skip_reason row].

(** The writer is taken to succeed and to write the file in one step: a
    failure of [open] or of a [writerow], which in the program can leave a
    file that is partly written, is outside this model. *)
Definition write_csv (rows : list Row.t) (path : Path) : M unit :=
  fun st =>
    match rows with
    | [] => (Ok tt, st)
    | _ =>
        (Ok tt, {| fs := fs st; logfile := logfile st; console := console st;
                   stdin := stdin st;
                   reports := <[path := columns :: map row_cells rows]> (reports st) |})
    end.

(* ---------------------------------------------------------- *)
(** *** SECTION: ffprobe Wrapper *)
(* ---------------------------------------------------------- *)

(** [int(v)] *)
Definition py_int (v : json) : result Z :=
  match v with
  | JInt z => Ok z
  | JBool b => Ok (if b then 1 else 0)
  | JFloat f => F64.to_int f
  | JStr s =>
      match str_to_int rt s with
      | Some z => Ok z
      | None => Raise ValueError
      end
  | _ => Raise TypeError
  end.

(** [float(v)] *)
Definition py_float (v : json) : result float :=
  match v with
  | JInt z => F64.of_int z
  | JBool b => Ok (F64.of_Z (if b then 1 else 0))
  | JFloat f => Ok f
  | JStr s =>
      match str_to_float rt s with
      | Some f => Ok f
      | None => Raise ValueError
      end
  | _ => Raise TypeError
  end.

Definition probe_cmd (ffprobe_cmd npath : string) : list string :=
  [ffprobe_cmd; "-v"; "error"; "-select_streams"; "a:0";
   "-show_entries"; "stream=bit_rate"; "-show_entries"; "format=duration";
   "-of"; "json"; npath].

(** The [bitrate] looked up in the decoded output: [None] unless
    ["streams"] is in [data] and is true, then the ["bit_rate"] of its
    first element. *)
Definition stream_bit_rate (data : json) : result json :=
  let? has := py_in "streams" data in
  if has then
    let? streams := py_getitem data "streams" in
    if truthy streams then
      let? first := py_getitem0 streams in
      py_get first "bit_rate"
    else Ok JNull
  else Ok JNull.

(** The [duration] looked up in the decoded output: [None] unless
    ["format"] is in [data], then its ["duration"]. *)
Definition format_duration (data : json) : result json :=
  let? has := py_in "format" data in
  if has then
    let? fmt := py_getitem data "format" in
    py_get fmt "duration"
  else Ok JNull.

(** The body of the [try] block. *)
Definition ffprobe_body (f : FS) (path : Path) (ffprobe_cmd : string)
  : result (option Info.t) :=
  let? npath := normalize_path path in
  let? out := run_ffprobe rt f (probe_cmd ffprobe_cmd npath) in
  if negb (nonempty (strip out)) then Ok None
  else
    let? data :=
      match json_loads rt out with
      | Some d => Ok d
      | None => Raise ValueError
      end in
    let? bitrate := stream_bit_rate data in
    let? duration := format_duration data in
    let? bitrate' :=
      (if negb (is_none bitrate) then let? b := py_int bitrate in Ok (Some b)
       else Ok None) in
    let? duration' :=
      (if negb (is_none duration) then let? d := py_float duration in Ok (Some d)
       else Ok None) in
    let? meta := stat f path in
    match bitrate', duration' with
    | Some b, Some d =>
        Ok (Some {| Info.bitrate := b; Info.duration := d; Info.size := st_size meta |})
    | _, _ => Ok None
    end.

Definition ffprobe_audio_info (f : FS) (path : Path) (ffprobe_cmd : string)
  : option Info.t :=
  match ffprobe_body f path ffprobe_cmd with
  | Ok r => r
  | Raise _ => None
  end.

(* ---------------------------------------------------------- *)
(** *** SECTION: Worker Function *)
(* ---------------------------------------------------------- *)

Definition encode_cmd (ffmpeg_cmd nsrc ndst : string) : list string :=
  [ffmpeg_cmd; "-y"; "-i"; nsrc; "-vn"; "-acodec"; "libmp3lame";
   "-b:a"; "128k"; ndst].

(** [subprocess.run(cmd)] for the encoder: the process changes the files. *)
Definition run_encoder (cmd : list string) : M Z :=
  fun st =>
    match run_ffmpeg rt (fs st) cmd with
    | Ok (rc, f') =>
        (Ok rc, {| fs := f'; logfile := logfile st; console := console st;
                   stdin := stdin st; reports := reports st |})
    | Raise e => (Raise e, st)
    end.

Definition reduce_worker (item : Item.t) : M Res.t :=
  let src := Item.path item in
  let! dst := lift (reduced_name src) in
  let! nsrc := lift (normalize_path src) in
  let! ndst := lift (normalize_path dst) in
  let! returncode := run_encoder (encode_cmd (Item.ffmpeg_cmd item) nsrc ndst) in
  let! f := get_fs in
  let! success :=
    lift (if (returncode =? 0) && exists_ f dst
          then let? meta := stat f dst in Ok (0 <? st_size meta)
          else Ok false) in
  ret {| Res.src := src;
         Res.dst := dst;
         Res.savings_bytes := Item.savings_bytes item;
         Res.savings_percent := Item.savings_percent item;
         Res.success := success |}.

(* ---------------------------------------------------------- *)
(** *** SECTION: Safe Deletion *)
(* ---------------------------------------------------------- *)

(** [path.unlink()] *)
Definition unlink (p : Path) : M unit :=
  let! f := get_fs in
  if exists_ f p && negb (unlink_denied rt p) then set_fs (delete p f)
  else lift (Raise OSError).

(** The text of an exception in a log line: its class name stands here
    for [str(e)], the message of the operating system, which the model does
    not have. *)
Definition exn_text (e : exn) : string :=
  match e with
  | OSError => "OSError"
  | ValueError => "ValueError"
  | TypeError => "TypeError"
  | KeyError => "KeyError"
  | IndexError => "IndexError"
  | AttributeError => "AttributeError"
  | ZeroDivisionError => "ZeroDivisionError"
  | OverflowError => "OverflowError"
  | EOFError => "EOFError"
  | RuntimeError => "RuntimeError"
  | BrokenProcessPool => "BrokenProcessPool"
  end.

Definition statM (p : Path) : M FileMeta :=
  let! f := get_fs in lift (stat f p).

(** The body of the [try] block. *)
Definition verify_and_delete_body (original reduced : Path) (ffprobe_cmd : string)
  : M unit :=
  let! f := get_fs in
  if negb (exists_ f reduced) then
    log ("DELETE SKIP (no reduced file): " +:+ original)
  else
    let! r1 := statM reduced in
    if st_size r1 <=? 0 then
      log ("DELETE SKIP (reduced size 0): " +:+ original)
    else
      let! r2 := statM reduced in
      let! o2 := statM original in
      if st_size o2 <=? st_size r2 then
        log ("DELETE SKIP (reduced not smaller): " +:+ original)
      else
        let! r3 := statM reduced in
        let! o3 := statM original in
        if F64.leb (st_mtime r3) (st_mtime o3) then
          log ("DELETE SKIP (reduced not newer): " +:+ original)
        else
          let! f' := get_fs in
          match ffprobe_audio_info f' reduced ffprobe_cmd with
          | None => log ("DELETE SKIP (reduced failed ffprobe): " +:+ original)
          | Some _ =>
              unlink original ;;
              log ("DELETE: " +:+ original +:+ " → removed")
          end.

Definition verify_and_delete (original reduced : Path) (ffprobe_cmd : string)
  : M unit :=
  try_except (verify_and_delete_body original reduced ffprobe_cmd)
    (fun e => log ("DELETE ERROR (" +:+ original +:+ "): " +:+ exn_text e)).

(* ---------------------------------------------------------- *)
(** *** SECTION: Main Program *)
(* ---------------------------------------------------------- *)

Definition TARGET_BITRATE : Z := 128000.
Definition MIN_SAVINGS_PERCENT : Z := 20.

(** The accumulators of the preview loop. *)
Record Scan : Type := {
  csv_rows : list Row.t;
  reducible_files : list Item.t;
  file_info : gmap string FileInfo.t;
  total_estimated_savings : Z;
}.

Definition scan0 : Scan :=
  {| csv_rows := []; reducible_files := []; file_info := ∅;
     total_estimated_savings := 0 |}.

Definition skip_row (mp3 : Path) (b s : Cell) (reason : string) : Row.t :=
  {| Row.filename := name mp3;
     Row.bitrate := b;
     Row.size_bytes := s;
     Row.estimated_size_bytes := CStr "skip";
     Row.savings_bytes := CStr "skip";
     Row.savings_percent := CStr "skip";
     Row.action := "SKIP";
     Row.skip_reason := reason |}.

(** [csv_rows.append(row)] *)
Definition push_row (row : Row.t) (acc : Scan) : Scan :=
  {| csv_rows := csv_rows acc ++ [row];
     reducible_files := reducible_files acc;
     file_info := file_info acc;
     total_estimated_savings := total_estimated_savings acc |}.

(** One of the seven blocks that log a skip, append its row and
    [continue]. *)
Definition skip (mp3 : Path) (b s : Cell) (reason : string) (acc : Scan) : M Scan :=
  log ("SKIP (" +:+ reason +:+ "): " +:+ name mp3) ;;
  ret (push_row (skip_row mp3 b s reason) acc).

Definition pass_row (mp3 : Path) (bitrate size estimated_size savings_bytes : Z)
    (savings_percent : float) : Row.t :=
  {| Row.filename := name mp3;
     Row.bitrate := CInt bitrate;
     Row.size_bytes := CInt size;
     Row.estimated_size_bytes := CInt estimated_size;
     Row.savings_bytes := CInt savings_bytes;
     Row.savings_percent := CStr (format_2f savings_percent);
     Row.action := "PASS";
     Row.skip_reason := "" |}.

(** The tail of the loop body for a reducible file: its row, its entry in
    [reducible_files] and [file_info], and the running total. *)
Definition pass (ffmpeg_cmd : string) (mp3 : Path) (info : Info.t)
    (estimated_size savings_bytes : Z) (savings_percent : float) (acc : Scan) : Scan :=
  {| csv_rows :=
       csv_rows acc ++
       [pass_row mp3 (Info.bitrate info) (Info.size info) estimated_size savings_bytes
          savings_percent];
     reducible_files :=
       reducible_files acc ++
       [{| Item.path := mp3;
           Item.bitrate := Info.bitrate info;
           Item.duration := Info.duration info;
           Item.size := Info.size info;
           Item.estimated_size := estimated_size;
           Item.savings_bytes := savings_bytes;
           Item.savings_percent := savings_percent;
           Item.ffmpeg_cmd := ffmpeg_cmd |}];
     file_info :=
       <[mp3 := {| FileInfo.bitrate := Info.bitrate info;
                   FileInfo.size := Info.size info;
                   FileInfo.estimated_size := estimated_size;
                   FileInfo.savings_bytes := savings_bytes;
                   FileInfo.savings_percent := savings_percent |}]>
         (file_info acc);
     total_estimated_savings := total_estimated_savings acc + savings_bytes |}.

(** [cutoff is not None and mp3.stat().st_mtime < cutoff] *)
Definition outside_window (cutoff : option float) (mp3 : Path) : M bool :=
  match cutoff with
  | None => ret false
  | Some c => let! meta := statM mp3 in ret (F64.ltb (st_mtime meta) c)
  end.

(** [int((TARGET_BITRATE * duration) / 8)] *)
Definition estimate (duration : float) : result Z :=
  F64.to_int (F64.div (F64.mul (F64.of_Z TARGET_BITRATE) duration) (F64.of_Z 8)).

(** [(savings_bytes / size) * 100] *)
Definition percent (savings_bytes size : Z) : result float :=
  let? q := F64.int_truediv savings_bytes size in
  Ok (F64.mul q (F64.of_Z 100)).

(** The body of the preview loop for one file. *)
Definition preview_step (ffmpeg_cmd ffprobe_cmd : string) (cutoff : option float)
    (mp3 : Path) (acc : Scan) : M Scan :=
  let! f := get_fs in
  let! has_sibling := lift (reduced_exists f mp3) in
  if has_sibling then
    skip mp3 (CStr "") (CStr "") "_reduced version exists" acc
  else
    let! outside := outside_window cutoff mp3 in
    if outside then
      skip mp3 (CStr "") (CStr "") "outside time window" acc
    else if contains "_reduced" (lower (name mp3)) then
      skip mp3 (CStr "") (CStr "") "already reduced" acc
    else
      let! f := get_fs in
      match ffprobe_audio_info f mp3 ffprobe_cmd with
      | None => skip mp3 (CStr "") (CStr "") "no metadata" acc
      | Some info =>
          let bitrate := Info.bitrate info in
          let duration := Info.duration info in
          let size := Info.size info in
          if bitrate <=? TARGET_BITRATE then
            skip mp3 (CInt bitrate) (CInt size) "already 128 kbps or lower" acc
          else
            let! estimated_size := lift (estimate duration) in
            let savings_bytes := size - estimated_size in
            if savings_bytes <=? 0 then
              skip mp3 (CInt bitrate) (CInt size) "would not shrink" acc
            else
              let! savings_percent := lift (percent savings_bytes size) in
              if F64.ltb savings_percent (F64.of_Z MIN_SAVINGS_PERCENT) then
                skip mp3 (CInt bitrate) (CInt size)
                  ("below threshold (" +:+ format_2f savings_percent +:+ "%)") acc
              else
                log ("PASS (reducible " +:+ format_2f savings_percent +:+ "%): "
                     +:+ name mp3) ;;
                ret (pass ffmpeg_cmd mp3 info estimated_size savings_bytes
                       savings_percent acc)
      end.

(** [for mp3 in music_dir.rglob(...)]: the loop over what the walk yields. *)
Fixpoint preview (ffmpeg_cmd ffprobe_cmd : string) (cutoff : option float)
    (files : list Path) (acc : Scan) : M Scan :=
  match files with
  | [] => ret acc
  | mp3 :: rest =>
      let! acc' := preview_step ffmpeg_cmd ffprobe_cmd cutoff mp3 acc in
      preview ffmpeg_cmd ffprobe_cmd cutoff rest acc'
  end.

(** [f"reduce_report_{timestamp_str}.csv"] *)
Definition csv_name : Path := "reduce_report_" +:+ now_stamp rt +:+ ".csv".

(** The CSV export decision and the export, as written three times in
    [main]. *)
Definition csv_export (args : Args.t) (rows : list Row.t) : M unit :=
  let! export_csv :=
    (if negb (Args.nocsv args) then
       if negb (Args.auto args) then
         let! choice := input "Export CSV report? (Y/n): " in
         ret (negb (String.eqb (lower (strip choice)) "n"))
       else ret true
     else ret false) in
  if export_csv then
    write_csv rows csv_name ;;
    print ("CSV report written to: " +:+ csv_name)
  else print "CSV export skipped.".

Definition str_of_bool (b : bool) : string := if b then "True" else "False".

Definition reduce_row (result : Res.t) (info : option FileInfo.t) : Row.t :=
  match info with
  | Some i =>
      {| Row.filename := name (Res.src result);
         Row.bitrate := CInt (FileInfo.bitrate i);
         Row.size_bytes := CInt (FileInfo.size i);
         Row.estimated_size_bytes := CInt (FileInfo.estimated_size i);
         Row.savings_bytes := CInt (FileInfo.savings_bytes i);
         Row.savings_percent := CStr (format_2f (FileInfo.savings_percent i));
         Row.action := "REDUCE";
         Row.skip_reason := "" |}
  | None =>
      {| Row.filename := name (Res.src result);
         Row.bitrate := CStr "";
         Row.size_bytes := CStr "";
         Row.estimated_size_bytes := CStr "";
         Row.savings_bytes := CInt (Res.savings_bytes result);
         Row.savings_percent := CStr (format_2f (Res.savings_percent result));
         Row.action := "REDUCE";
         Row.skip_reason := "" |}
  end.

(** The loop over [as_completed(futures)]: [future.result()] returns the
    worker's dictionary or raises what the worker raised. The state of
    the loop is [reduction_results], [counter] and [csv_rows]. The workers
    run here one after the other, in the order of completion; in the
    program every task is submitted before the first result is read, so
    the workers of the other tasks still run, and write their files, when
    one result raises. *)
Fixpoint collect (infos : gmap string FileInfo.t) (completed : list Item.t)
    (acc : list Res.t * Z * list Row.t) : M (list Res.t * Z * list Row.t) :=
  match completed with
  | [] => ret acc
  | item :: rest =>
      let '(reduction_results, count, rows) := acc in
      let! result := reduce_worker item in
      log ("REDUCE (" +:+ format_2f (Res.savings_percent result) +:+ "%): "
           +:+ Res.src result +:+ " → " +:+ Res.dst result
           +:+ " (success=" +:+ str_of_bool (Res.success result) +:+ ")") ;;
      collect infos rest
        ((reduction_results ++ [result])%list, count + 1,
         (rows ++ [reduce_row result (infos !! Res.src result)])%list)
  end.

(** The deletion loop over [reduction_results]. *)
Fixpoint delete_originals (ffprobe_cmd : string) (results : list Res.t) : M unit :=
  match results with
  | [] => ret tt
  | result :: rest =>
      (if negb (Res.success result) then
         log ("DELETE SKIP (reduction failed): " +:+ Res.src result)
       else
         let original := Res.src result in
         let reduced := Res.dst result in
         let! f := get_fs in
         if negb (exists_ f original) then
           log ("DELETE SKIP (original missing): " +:+ original)
         else verify_and_delete original reduced ffprobe_cmd) ;;
      delete_originals ffprobe_cmd rest
  end.

Fixpoint print_reducible (items : list Item.t) : M unit :=
  match items with
  | [] => ret tt
  | item :: rest =>
      print ("  " +:+ name (Item.path item) +:+ " ("
             +:+ format_2f (Item.savings_percent item) +:+ "%)") ;;
      print_reducible rest
  end.

Definition select_directory (args : Args.t) : M string :=
  match Args.dir args with
  | Some d =>
      if nonempty d then ret (strip_quotes d)
      else if Args.auto args then
        print ("No folder specified. Auto mode using current folder: " +:+ getcwd rt) ;;
        ret (getcwd rt)
      else
        let! answer := input "Enter directory to scan: " in ret (strip_quotes answer)
  | None =>
      if Args.auto args then
        print ("No folder specified. Auto mode using current folder: " +:+ getcwd rt) ;;
        ret (getcwd rt)
      else
        let! answer := input "Enter directory to scan: " in ret (strip_quotes answer)
  end.

Definition select_minutes (args : Args.t) : M Z :=
  match Args.minutes args with
  | Some m => ret m
  | None =>
      if Args.auto args then ret 0
      else
        let! answer :=
          input "Process only files modified in the last X minutes (0=all): " in
        ret (default 0 (str_to_int rt answer))
  end.

Definition select_cutoff (minutes : Z) : M (option float) :=
  if 0 <? minutes then
    let! span := lift (F64.of_int (minutes * 60)) in
    print (nl +:+ "Only processing files modified in the last " +:+ str_of_Z minutes
           +:+ " minutes." +:+ nl) ;;
    ret (Some (F64.sub (time_time rt) span))
  else
    print (nl +:+ "Processing all files." +:+ nl) ;;
    ret None.

Definition main (args : Args.t) : M unit :=
  match detect_ffmpeg_windows_only with
  | Raise _ => print ("Environment error: " +:+ detect_message)
  | Ok (ffmpeg_cmd, ffprobe_cmd) =>
      print "Detected environment: Windows (native Python)" ;;
      print ("ffmpeg version: " +:+ get_ffmpeg_version ffmpeg_cmd +:+ nl) ;;
      (if Args.auto args
       then print ("Auto mode enabled: proceeding without prompts." +:+ nl)
       else ret tt) ;;
      (if Args.nocsv args
       then print ("--nocsv specified: CSV export will be skipped." +:+ nl)
       else ret tt) ;;
      let! raw_dir := select_directory args in
      let normalized_dir := normalize_directory_input raw_dir in
      if negb (dir_exists rt normalized_dir) then
        print ("Directory not found: " +:+ normalized_dir)
      else
        let! minutes := select_minutes args in
        let! cutoff := select_cutoff minutes in
        print ("Scanning " +:+ normalized_dir +:+ " for MP3 files..." +:+ nl) ;;
        let! scan :=
          preview ffmpeg_cmd ffprobe_cmd cutoff (rglob_mp3 rt normalized_dir) scan0 in
        print ("Files meeting " +:+ str_of_Z MIN_SAVINGS_PERCENT +:+ "%+ savings: "
               +:+ str_of_Z (Z.of_nat (length (reducible_files scan)))) ;;
        match reducible_files scan with
        | [] =>
            print "Nothing to reduce." ;;
            log "SUMMARY: No reducible files." ;;
            csv_export args (csv_rows scan)
        | _ =>
            print (nl +:+ "Reducible files:") ;;
            print_reducible (reducible_files scan) ;;
            let! mb := lift (F64.int_truediv (total_estimated_savings scan) (1024 * 1024)) in
            print (nl +:+ "Total estimated savings: " +:+ format_2f mb +:+ " MB") ;;
            let! choice :=
              (if Args.auto args then ret "y"
               else
                 let! answer := input (nl +:+ "Proceed with reduction? (y/n): ") in
                 ret (lower (strip answer))) in
            if negb (String.eqb choice "y") then
              print "Aborted." ;;
              log "SUMMARY: Reduction aborted by user." ;;
              csv_export args (csv_rows scan)
            else
              print (nl +:+ "Starting parallel reduction..." +:+ nl) ;;
              let! collected :=
                collect (file_info scan) (as_completed rt (reducible_files scan))
                  ([], 0, csv_rows scan) in
              let '(reduction_results, count, rows) := collected in
              print "" ;;
              print (nl +:+ "Done! Reduced " +:+ str_of_Z count +:+ " files." +:+ nl) ;;
              log ("SUMMARY: Reduced " +:+ str_of_Z count +:+ " files successfully.") ;;
              let! delete_choice :=
                (if Args.auto args then ret "y"
                 else
                   let! answer :=
                     input "Delete original files after verifying reduced versions? (y/n): " in
                   ret (lower (strip answer))) in
              (if String.eqb delete_choice "y" then
                 print (nl +:+ "Verifying reduced files and deleting originals where safe..."
                        +:+ nl) ;;
                 delete_originals ffprobe_cmd reduction_results
               else log "SUMMARY: User chose not to delete originals.") ;;
              csv_export args rows ;;
              print ("Log file written to: reduce_log_" +:+ now_stamp rt +:+ ".txt")
        end
  end.

End Program.

(* ------------------------------------------------------------ *)
(** ** The eligibility evaluator and the safe-delete chain of the
       specification *)
(* ------------------------------------------------------------ *)

(** The definitions of this module follow the words of the specification
    (sections 3, 4.2 and 4.5), not the source; the theorems below compare
    them with [preview_step] and [verify_and_delete]. *)
Module Spec.

Inductive Outcome : Type := PASS | SKIP.

Inductive SkipReason : Type :=
  | ReducedVersionExists
  | OutsideTimeWindow
  | AlreadyReduced
  | NoMetadata
  | AtOrBelowTarget
  | WouldNotShrink
  | BelowThreshold (percent : float).

Record EligibilityRecord : Type := {
  filePath : Path;
  outcome : Outcome;
  skipReason : option SkipReason;
  bitrateBps : option Z;
  sizeBytes : option Z;
  estimatedSizeBytes : option Z;
  savingsBytes : option Z;
  savingsPercent : option float;
}.

Definition targetBitrateBps : Z := 128000.
Definition minimumSavingsThreshold : Z := 20.

Definition skipped (path : Path) (why : SkipReason) (b s : option Z) : EligibilityRecord :=
  {| filePath := path; outcome := SKIP; skipReason := Some why;
     bitrateBps := b; sizeBytes := s;
     estimatedSizeBytes := None; savingsBytes := None; savingsPercent := None |}.

(** [floor(targetBitrateBps * durationSeconds / 8)] *)
Definition estimatedSize (durationSeconds : float) : Z :=
  match F64.floor (F64.div (F64.mul (F64.of_Z targetBitrateBps) durationSeconds)
                           (F64.of_Z 8)) with
  | Ok n => n
  | Raise _ => 0
  end.

(** [savingsBytes / sizeBytes * 100], from the original size *)
Definition savingsPercentOf (savings size : Z) : float :=
  F64.mul (F64.div (F64.raw savings) (F64.raw size)) (F64.of_Z 100).

(** Whether a file name carries the marker of derived files. *)
Definition carriesMarker (fileName : string) : bool :=
  contains "_reduced" (lower fileName).

(** The derived sibling of a source (glossary, Derived file): in the same
    directory, the base name of the source with the fixed suffix appended. *)
Definition derivedPath (path : Path) : Path :=
  fst (split_last path) +:+ stem path +:+ "_reduced.mp3".

(** The decision order of section 4.2: the first matching rule wins. *)
Definition evaluate (path : Path) (siblingExists : bool) (probe : option Info.t)
    (fileModTime : float) (cutoff : option float) : EligibilityRecord :=
  if siblingExists then skipped path ReducedVersionExists None None
  else if match cutoff with
          | Some c => F64.ltb fileModTime c
          | None => false
          end
  then skipped path OutsideTimeWindow None None
  else if carriesMarker (name path) then skipped path AlreadyReduced None None
  else
    match probe with
    | None => skipped path NoMetadata None None
    | Some info =>
        let b := Info.bitrate info in
        let size := Info.size info in
        if b <=? targetBitrateBps then skipped path AtOrBelowTarget (Some b) (Some size)
        else
          let est := estimatedSize (Info.duration info) in
          let savings := size - est in
          if savings <=? 0 then skipped path WouldNotShrink (Some b) (Some size)
          else
            let pct := savingsPercentOf savings size in
            if F64.ltb pct (F64.of_Z minimumSavingsThreshold)
            then skipped path (BelowThreshold pct) (Some b) (Some size)
            else
              {| filePath := path; outcome := PASS; skipReason := None;
                 bitrateBps := Some b; sizeBytes := Some size;
                 estimatedSizeBytes := Some est; savingsBytes := Some savings;
                 savingsPercent := Some pct |}
    end.

(** The five predicates of section 3, in order: the first one that fails. *)
Inductive DeleteRefusal : Type :=
  | NoDerivedFile
  | DerivedEmpty
  | DerivedNotSmaller
  | DerivedNotNewer
  | DerivedProbeFailed.

Definition maybeDelete (original : FileMeta) (derived : option FileMeta)
    (reprobeSucceeds : bool) : option DeleteRefusal :=
  match derived with
  | None => Some NoDerivedFile
  | Some d =>
      if negb (0 <? st_size d) then Some DerivedEmpty
      else if negb (st_size d <? st_size original) then Some DerivedNotSmaller
      else if negb (F64.ltb (st_mtime original) (st_mtime d)) then Some DerivedNotNewer
      else if negb reprobeSucceeds then Some DerivedProbeFailed
      else None
  end.

End Spec.

(** How the records of the specification show in the program: the reason
    texts, the CSV row, the log line and the accumulators. *)
Definition reason_text (why : Spec.SkipReason) : string :=
  match why with
  | Spec.ReducedVersionExists => "_reduced version exists"
  | Spec.OutsideTimeWindow => "outside time window"
  | Spec.AlreadyReduced => "already reduced"
  | Spec.NoMetadata => "no metadata"
  | Spec.AtOrBelowTarget => "already 128 kbps or lower"
  | Spec.WouldNotShrink => "would not shrink"
  | Spec.BelowThreshold p => "below threshold (" +:+ format_2f p +:+ "%)"
  end.

Definition known_cell (v : option Z) : Cell :=
  match v with
  | Some z => CInt z
  | None => CStr ""
  end.

Definition record_log (r : Spec.EligibilityRecord) : string :=
  match Spec.skipReason r with
  | Some why => "SKIP (" +:+ reason_text why +:+ "): " +:+ name (Spec.filePath r)
  | None =>
      "PASS (reducible " +:+ format_2f (default S754_nan (Spec.savingsPercent r))
      +:+ "%): " +:+ name (Spec.filePath r)
  end.

(** The report row of a record, cell by cell: a skipped file has the text
    [skip] in its three computed fields and what is known of bitrate and
    size in the other two. *)
Definition record_row (r : Spec.EligibilityRecord) : Row.t :=
  {| Row.filename := name (Spec.filePath r);
     Row.bitrate := known_cell (Spec.bitrateBps r);
     Row.size_bytes := known_cell (Spec.sizeBytes r);
     Row.estimated_size_bytes :=
       match Spec.outcome r with
       | Spec.SKIP => CStr "skip"
       | Spec.PASS => known_cell (Spec.estimatedSizeBytes r)
       end;
     Row.savings_bytes :=
       match Spec.outcome r with
       | Spec.SKIP => CStr "skip"
       | Spec.PASS => known_cell (Spec.savingsBytes r)
       end;
     Row.savings_percent :=
       match Spec.outcome r with
       | Spec.SKIP => CStr "skip"
       | Spec.PASS => CStr (format_2f (default S754_nan (Spec.savingsPercent r)))
       end;
     Row.action :=
       match Spec.outcome r with
       | Spec.SKIP => "SKIP"
       | Spec.PASS => "PASS"
       end;
     Row.skip_reason :=
       match Spec.skipReason r with
       | Some why => reason_text why
       | None => ""
       end |}.

(** The accumulators after a record: its row is appended in every case; a
    pass also appends the reduction task, files the numbers under the path
    and adds the savings to the total. *)
Definition commit (ffmpeg_cmd : string) (probe : option Info.t)
    (r : Spec.EligibilityRecord) (acc : Scan) : Scan :=
  match Spec.outcome r, probe with
  | Spec.PASS, Some info =>
      {| csv_rows := csv_rows acc ++ [record_row r];
         reducible_files :=
           reducible_files acc ++
           [{| Item.path := Spec.filePath r;
               Item.bitrate := default 0 (Spec.bitrateBps r);
               Item.duration := Info.duration info;
               Item.size := default 0 (Spec.sizeBytes r);
               Item.estimated_size := default 0 (Spec.estimatedSizeBytes r);
               Item.savings_bytes := default 0 (Spec.savingsBytes r);
               Item.savings_percent := default S754_nan (Spec.savingsPercent r);
               Item.ffmpeg_cmd := ffmpeg_cmd |}];
         file_info :=
           <[Spec.filePath r :=
               {| FileInfo.bitrate := default 0 (Spec.bitrateBps r);
                  FileInfo.size := default 0 (Spec.sizeBytes r);
                  FileInfo.estimated_size := default 0 (Spec.estimatedSizeBytes r);
                  FileInfo.savings_bytes := default 0 (Spec.savingsBytes r);
                  FileInfo.savings_percent := default S754_nan (Spec.savingsPercent r) |}]>
             (file_info acc);
         total_estimated_savings :=
           total_estimated_savings acc + default 0 (Spec.savingsBytes r) |}
  | _, _ =>
      {| csv_rows := csv_rows acc ++ [record_row r];
         reducible_files := reducible_files acc;
         file_info := file_info acc;
         total_estimated_savings := total_estimated_savings acc |}
  end.

Definition delete_refusal_text (why : Spec.DeleteRefusal) : string :=
  match why with
  | Spec.NoDerivedFile => "no reduced file"
  | Spec.DerivedEmpty => "reduced size 0"
  | Spec.DerivedNotSmaller => "reduced not smaller"
  | Spec.DerivedNotNewer => "reduced not newer"
  | Spec.DerivedProbeFailed => "reduced failed ffprobe"
  end.

(* ------------------------------------------------------------ *)
(** ** Predicates used in the statements *)
(* ------------------------------------------------------------ *)

(** A finite float of sign [s] below [2^B] in magnitude. *)
Definition below (B : Z) (s : bool) (f : float) : Prop :=
  match f with
  | S754_zero s' => s' = s
  | S754_finite s' m e => s' = s /\ Zpos (digits2_pos m) + e <= B
  | _ => False
  end.

(** A duration as the data model has it: finite, not negative (and below
    [2^900] seconds, so that the estimate stays in the range of a double). *)
Definition plausible_duration (d : float) : bool :=
  match d with
  | S754_zero _ => true
  | S754_finite false m e => Zpos (digits2_pos m) + e <=? 900
  | _ => false
  end.

Definition not_nan (f : float) : bool :=
  match f with
  | S754_nan => false
  | _ => true
  end.

(** The CSV row discipline that the program keeps. *)
Definition blank_or_int (c : Cell) : bool :=
  match c with
  | CStr s => String.eqb s ""
  | CInt _ => true
  end.

Definition is_skip_cell (c : Cell) : bool :=
  match c with
  | CStr s => String.eqb s "skip"
  | CInt _ => false
  end.

Definition two_decimal_cell (c : Cell) : bool :=
  match c with
  | CStr s => two_decimal s
  | CInt _ => false
  end.

Definition row_ok (row : Row.t) : bool :=
  if String.eqb (Row.action row) "SKIP" then
    is_skip_cell (Row.estimated_size_bytes row)
    && is_skip_cell (Row.savings_bytes row)
    && is_skip_cell (Row.savings_percent row)
    && blank_or_int (Row.bitrate row)
    && blank_or_int (Row.size_bytes row)
  else two_decimal_cell (Row.savings_percent row).

(** Every probe result of a listed file has a plausible duration. *)
Definition plausible_probes (rt : Runtime) : Prop :=
  forall d mp3 f ffprobe_cmd info,
    In mp3 (rglob_mp3 rt d) ->
    ffprobe_audio_info rt f mp3 ffprobe_cmd = Some info ->
    plausible_duration (Info.duration info) = true.

(** The reasons of the rules that skip before a probe result is read, and
    of those that skip on what it says. *)
Definition rules_1_to_4 (reason : string) : Prop :=
  reason = "_reduced version exists" \/ reason = "outside time window" \/
  reason = "already reduced" \/ reason = "no metadata".

Definition rules_5_to_7 (reason : string) : Prop :=
  reason = "already 128 kbps or lower" \/ reason = "would not shrink" \/
  exists p, reason = "below threshold (" +:+ format_2f p +:+ "%)".

(** Where a row of the scan has its bitrate and its size from: the row of
    the file [mp3] is a skip of rules 1 to 4 with both cells empty, or it
    carries the two integers of the probe of [mp3] in the file system [f]
    and is a skip of rules 5 to 7 or a pass. *)
Definition row_source (rt : Runtime) (f : FS) (ffprobe_cmd : string) (mp3 : Path)
    (row : Row.t) : Prop :=
  Row.filename row = name mp3 /\
  ((Row.action row = "SKIP" /\ rules_1_to_4 (Row.skip_reason row) /\
    Row.bitrate row = CStr "" /\ Row.size_bytes row = CStr "") \/
   (exists info,
      ffprobe_audio_info rt f mp3 ffprobe_cmd = Some info /\
      Row.bitrate row = CInt (Info.bitrate info) /\
      Row.size_bytes row = CInt (Info.size info) /\
      ((Row.action row = "SKIP" /\ rules_5_to_7 (Row.skip_reason row)) \/
       (Row.action row = "PASS" /\ Row.skip_reason row = "")))).

(** A row of a report written by a run that started in the file system
    [f]: it keeps the discipline [row_ok], and it is a REDUCE row or the
    row of a listed file, probed with the detected [ffprobe]. *)
Definition report_row (rt : Runtime) (f : FS) (row : Row.t) : Prop :=
  row_ok row = true /\
  (Row.action row = "REDUCE" \/
   exists ffmpeg_cmd ffprobe_cmd d mp3,
     detect_ffmpeg_windows_only rt = Ok (ffmpeg_cmd, ffprobe_cmd) /\
     In mp3 (rglob_mp3 rt d) /\
     row_source rt f ffprobe_cmd mp3 row).

(** [post_at f c Q] and [writes_at f report P c]: as [post] and
    [writes_only], for the runs of [c] that start in the file system [f]. *)
Definition post_at (f : FS) {A} (c : M A) (Q : A -> Prop) : Prop :=
  forall st a st', fs st = f -> c st = (Ok a, st') -> Q a.

Definition writes_at (f : FS) (report : Path) (P : list Row.t -> Prop) {A} (c : M A)
  : Prop :=
  forall st, fs st = f ->
    reports (snd (c st)) = reports st \/
    exists rows, P rows /\
      reports (snd (c st)) = <[report := columns :: map row_cells rows]> (reports st).

(** The directory that [main] scans in automatic mode. *)
Definition auto_directory (rt : Runtime) (args : Args.t) : string :=
  normalize_directory_input
    match Args.dir args with
    | Some d => if nonempty d then strip_quotes d else getcwd rt
    | None => getcwd rt
    end.

(** The invariant of the accumulators of the preview loop. *)
Definition scan_ok (acc : Scan) : Prop :=
  Forall (fun row => row_ok row = true) (csv_rows acc) /\
  Forall (fun item => F64.is_finite (Item.savings_percent item) = true)
         (reducible_files acc) /\
  map_Forall (fun _ i => F64.is_finite (FileInfo.savings_percent i) = true)
             (file_info acc).

(** [post c Q]: every value that [c] returns satisfies [Q]. *)
Definition post {A} (c : M A) (Q : A -> Prop) : Prop :=
  forall st a st', c st = (Ok a, st') -> Q a.

(** [writes_only name P c]: [c] leaves the CSV files alone, or its last
    write is the file [name] with rows that satisfy [P]. *)
Definition writes_only (report : Path) (P : list Row.t -> Prop) {A} (c : M A) : Prop :=
  forall st,
    reports (snd (c st)) = reports st \/
    exists rows, P rows /\
      reports (snd (c st)) = <[report := columns :: map row_cells rows]> (reports st).

(** Four sentences of the specification, as they are worded; the code
    does not satisfy them as they stand. *)

(** Section 4.4: whatever happens to the workers, the
    coordinator returns a result list as long as the task list. *)
Definition always_one_result_per_task : Prop :=
  forall rt infos tasks rows st,
  exists results count rows' st',
    collect rt infos (as_completed rt tasks) ([], 0, rows) st
      = (Ok (results, count, rows'), st') /\
    length results = length tasks.

(** Section 6, on the cells of a report row: a SKIP row has
    the text [skip] in its five numeric fields. *)
Definition skip_row_all_skip (cells : list string) : Prop :=
  cells !! 6%nat = Some "SKIP" ->
  cells !! 1%nat = Some "skip" /\ cells !! 2%nat = Some "skip" /\
  cells !! 3%nat = Some "skip" /\ cells !! 4%nat = Some "skip" /\
  cells !! 5%nat = Some "skip".



(* ------------------------------------------------------------ *)
(** ** A small concrete world *)
(* ------------------------------------------------------------ *)

(** A directory of eight files and test doubles for the two external
    tools; the theorems are applied to it. *)
Module Demo.

Definition meta (size mtime : Z) : FileMeta :=
  {| st_size := size; st_mtime := F64.of_Z mtime |}.

Definition files : FS :=
  list_to_map
    [("C:/music/a.mp3", meta 10000000 100);
     ("C:/music/b.mp3", meta 7200000 100);
     ("C:/music/c.mp3", meta 2160000 100);
     ("C:/music/track_reduced.mp3", meta 2880000 100);
     ("C:/music/mix_REDUCED_v2.mp3", meta 7200000 100);
     ("C:/music/d.mp3", meta 7200000 100);
     ("C:/music/d_reduced.mp3", meta 2880000 150);
     ("C:/music/e.mp3", meta 512 100)].

Definition listing : list Path :=
  ["C:/music/a.mp3"; "C:/music/b.mp3"; "C:/music/c.mp3";
   "C:/music/track_reduced.mp3"; "C:/music/mix_REDUCED_v2.mp3";
   "C:/music/d.mp3"; "C:/music/d_reduced.mp3"; "C:/music/e.mp3"].

Definition probe_json (bit_rate duration : string) : json :=
  JObj [("programs", JArr []);
        ("streams", JArr [JObj [("bit_rate", JStr bit_rate)]]);
        ("format", JObj [("duration", JStr duration)])].

(** The probe double prints the path it was given; [loads] decodes that. *)
Definition probe_stdout (cmd : list string) : result string :=
  match last cmd with
  | Some path => Ok (if String.eqb path "C:/music/e.mp3" then "" else path)
  | None => Raise OSError
  end.

Definition loads (out : string) : option json :=
  if String.eqb out "C:/music/a.mp3" then Some (probe_json "320000" "600.000000")
  else if String.eqb out "C:/music/b.mp3" then Some (probe_json "320000" "180.000000")
  else if String.eqb out "C:/music/c.mp3" then Some (probe_json "96000" "180.000000")
  else if String.eqb out "C:/music/b_reduced.mp3" then Some (probe_json "128000" "180.000000")
  else None.

Definition to_int (s : string) : option Z :=
  if String.eqb s "320000" then Some 320000
  else if String.eqb s "128000" then Some 128000
  else if String.eqb s "96000" then Some 96000
  else None.

Definition to_float (s : string) : option float :=
  if String.eqb s "600.000000" then Some (F64.of_Z 600)
  else if String.eqb s "180.000000" then Some (F64.of_Z 180)
  else None.

(** The encoder double writes 16000 bytes per second of a 180 s track. *)
Definition encode (f : FS) (cmd : list string) : result (Z * FS) :=
  match last cmd with
  | Some dst => Ok (0, <[dst := meta 2880000 200]> f)
  | None => Ok (1, f)
  end.

Definition rt : Runtime :=
  {| which := fun tool => Some ("C:/ffmpeg/bin/" +:+ tool +:+ ".exe");
     run_version := fun _ => Ok ("ffmpeg version 6.0" +:+ nl +:+ "built with gcc");
     expandvars := fun s => s;
     resolve := fun s => Ok s;
     run_ffprobe := fun _ cmd => probe_stdout cmd;
     run_ffmpeg := encode;
     json_loads := loads;
     str_to_int := to_int;
     str_to_float := to_float;
     now_stamp := "2026-01-01_00-00-00";
     time_time := F64.of_Z 1000;
     getcwd := "C:/music";
     dir_exists := fun d => String.eqb d "C:/music";
     rglob_mp3 := fun _ => listing;
     unlink_denied := fun _ => false;
     as_completed := fun l => l;
     as_completed_perm := fun l => Permutation_refl l |}.


(** The same world with a worker process that dies. *)
Definition crashing : Runtime :=
  {| which := which rt;
     run_version := run_version rt;
     expandvars := expandvars rt;
     resolve := resolve rt;
     run_ffprobe := run_ffprobe rt;
     run_ffmpeg := fun _ _ => Raise BrokenProcessPool;
     json_loads := json_loads rt;
     str_to_int := str_to_int rt;
     str_to_float := str_to_float rt;
     now_stamp := now_stamp rt;
     time_time := time_time rt;
     getcwd := getcwd rt;
     dir_exists := dir_exists rt;
     rglob_mp3 := rglob_mp3 rt;
     unlink_denied := unlink_denied rt;
     as_completed := as_completed rt;
     as_completed_perm := as_completed_perm rt |}.

(** The same world with an empty directory. *)
Definition empty_dir : Runtime :=
  {| which := which rt;
     run_version := run_version rt;
     expandvars := expandvars rt;
     resolve := resolve rt;
     run_ffprobe := run_ffprobe rt;
     run_ffmpeg := run_ffmpeg rt;
     json_loads := json_loads rt;
     str_to_int := str_to_int rt;
     str_to_float := str_to_float rt;
     now_stamp := now_stamp rt;
     time_time := time_time rt;
     getcwd := getcwd rt;
     dir_exists := dir_exists rt;
     rglob_mp3 := fun _ => [];
     unlink_denied := unlink_denied rt;
     as_completed := as_completed rt;
     as_completed_perm := as_completed_perm rt |}.

Definition st : State :=
  {| fs := files; logfile := []; console := []; stdin := []; reports := ∅ |}.

Definition args : Args.t :=
  {| Args.dir := Some "C:\music"; Args.minutes := None;
     Args.auto := true; Args.nocsv := false |}.


(** The probe result and the task of [b.mp3], the one reducible file. *)
Definition info_a : Info.t :=
  {| Info.bitrate := 320000; Info.duration := F64.of_Z 600; Info.size := 10000000 |}.

Definition task : Item.t :=
  {| Item.path := "C:/music/b.mp3";
     Item.bitrate := 320000;
     Item.duration := F64.of_Z 180;
     Item.size := 7200000;
     Item.estimated_size := 2880000;
     Item.savings_bytes := 4320000;
     Item.savings_percent := F64.of_Z 60;
     Item.ffmpeg_cmd := "C:/ffmpeg/bin/ffmpeg.exe" |}.

(** The world after [b.mp3] was encoded. *)
Definition encoded : State :=
  {| fs := <["C:/music/b_reduced.mp3" := meta 2880000 200]> files;
     logfile := []; console := []; stdin := []; reports := ∅ |}.

End Demo.

(* ------------------------------------------------------------ *)
(** ** Predicates of the further properties *)
(* ------------------------------------------------------------ *)

(** Whether some character of [s] satisfies [p]. *)
Fixpoint has_char (p : ascii -> bool) (s : string) : bool :=
  match s with
  | EmptyString => false
  | String c t => p c || has_char p t
  end.

Definition is_backslash (c : ascii) : bool := Ascii.eqb c (ascii_of_N 92).

(** A string that does not start with a character of [p]. *)
Definition starts_clean (p : ascii -> bool) (s : string) : Prop :=
  match s with
  | EmptyString => True
  | String c _ => p c = false
  end.

(** [keeps proj c]: the computation [c] leaves the part [proj] of the
    state as it was, whether it returns or raises. *)
Definition keeps {X A} (proj : State -> X) (c : M A) : Prop :=
  forall st, proj (snd (c st)) = proj st.

(** The sum of the [savings_bytes] of a list of reducible files. *)
Definition sum_savings (items : list Item.t) : Z :=
  fold_right (fun item acc => Item.savings_bytes item + acc) 0 items.

(** What holds of an entry of [reducible_files] after a scan of [files]
    with the encoder command [ffmpeg_cmd]. *)
Definition pass_conditions (ffmpeg_cmd : string) (files : list Path) (item : Item.t) : Prop :=
  In (Item.path item) files /\
  Item.ffmpeg_cmd item = ffmpeg_cmd /\
  contains "_reduced" (lower (name (Item.path item))) = false /\
  TARGET_BITRATE < Item.bitrate item /\
  estimate (Item.duration item) = Ok (Item.estimated_size item) /\
  Item.savings_bytes item = Item.size item - Item.estimated_size item /\
  0 < Item.savings_bytes item /\
  percent (Item.savings_bytes item) (Item.size item) = Ok (Item.savings_percent item) /\
  F64.ltb (Item.savings_percent item) (F64.of_Z MIN_SAVINGS_PERCENT) = false.

(** The numbers that [file_info] keeps of a reducible file, and the REDUCE
    row that carries them. *)
Definition info_of_item (item : Item.t) : FileInfo.t :=
  {| FileInfo.bitrate := Item.bitrate item;
     FileInfo.size := Item.size item;
     FileInfo.estimated_size := Item.estimated_size item;
     FileInfo.savings_bytes := Item.savings_bytes item;
     FileInfo.savings_percent := Item.savings_percent item |}.

Definition reduce_row_of (item : Item.t) : Row.t :=
  {| Row.filename := name (Item.path item);
     Row.bitrate := CInt (Item.bitrate item);
     Row.size_bytes := CInt (Item.size item);
     Row.estimated_size_bytes := CInt (Item.estimated_size item);
     Row.savings_bytes := CInt (Item.savings_bytes item);
     Row.savings_percent := CStr (format_2f (Item.savings_percent item));
     Row.action := "REDUCE";
     Row.skip_reason := "" |}.

(** Whether a text holds a line break of [str.splitlines]. *)
Fixpoint has_break (s : string) : bool :=
  match s with
  | EmptyString => false
  | String c t => is_linebreak c || unicode_break (String c t) || has_break t
  end.

(* ------------------------------------------------------------ *)
(** ** More of the sample world *)
(* ------------------------------------------------------------ *)

Module Sample.

(** The world of [Demo] with a directory that holds only the outputs of an
    earlier run. *)
Definition marked_only : Runtime :=
  {| which := which Demo.rt;
     run_version := run_version Demo.rt;
     expandvars := expandvars Demo.rt;
     resolve := resolve Demo.rt;
     run_ffprobe := run_ffprobe Demo.rt;
     run_ffmpeg := run_ffmpeg Demo.rt;
     json_loads := json_loads Demo.rt;
     str_to_int := str_to_int Demo.rt;
     str_to_float := str_to_float Demo.rt;
     now_stamp := now_stamp Demo.rt;
     time_time := time_time Demo.rt;
     getcwd := getcwd Demo.rt;
     dir_exists := dir_exists Demo.rt;
     rglob_mp3 := fun _ => ["C:/music/track_reduced.mp3"; "C:/music/mix_REDUCED_v2.mp3";
                            "C:/music/d_reduced.mp3"];
     unlink_denied := unlink_denied Demo.rt;
     as_completed := as_completed Demo.rt;
     as_completed_perm := as_completed_perm Demo.rt |}.

(** The command line of [Demo] with [--nocsv], without [--auto]. *)
Definition args_nocsv : Args.t :=
  {| Args.dir := Some "C:\music"; Args.minutes := Some 0;
     Args.auto := false; Args.nocsv := true |}.

(** The state of [Demo] with two answers waiting on the standard input. *)
Definition answering : State :=
  {| fs := Demo.files; logfile := []; console := []; stdin := ["y"; "n"];
     reports := ∅ |}.

End Sample.

(* ------------------------------------------------------------ *)
(** * Properties *)
(* ------------------------------------------------------------ *)

(** ** Magnitudes of binary64 results

    [Zdigits2 m + e] bounds the magnitude of [m * 2^e]; the lemmas follow it
    through rounding, multiplication and division, which is what shows that
    the estimate and the savings percent of a plausible file are finite. *)

Lemma digits2_log2 p : Zpos (digits2_pos p) = Z.log2 (Zpos p) + 1.
Proof.
  induction p as [p IH|p IH|]; cbn [digits2_pos].
  - rewrite Pos2Z.inj_succ, IH. change (Zpos p~1) with (2 * Zpos p + 1).
    rewrite Z.log2_succ_double by lia. lia.
  - rewrite Pos2Z.inj_succ, IH. change (Zpos p~0) with (2 * Zpos p).
    rewrite Z.log2_double by lia. lia.
  - reflexivity.
Qed.

Lemma Zdigits2_log2 m : 0 < m -> Zdigits2 m = Z.log2 m + 1.
Proof. destruct m; try lia. intros _. apply digits2_log2. Qed.

Lemma Zdigits2_nonneg m : 0 <= Zdigits2 m.
Proof. destruct m; cbn; lia. Qed.

Lemma Zdigits2_le m n : 0 <= m <= n -> Zdigits2 m <= Zdigits2 n.
Proof.
  intros [H0 H1]. destruct (Z.eq_dec m 0) as [->|Hm].
  - apply Zdigits2_nonneg.
  - rewrite !Zdigits2_log2 by lia. pose proof (Z.log2_le_mono m n H1). lia.
Qed.

(* 0 <= m < 2^k  <->  digits m <= k *)
Lemma Zdigits2_lt_pow2 m k : 0 <= m -> 0 <= k -> m < 2 ^ k -> Zdigits2 m <= k.
Proof.
  intros H0 Hk H. destruct (Z.eq_dec m 0) as [->|Hm]; [cbn; lia|].
  rewrite Zdigits2_log2 by lia.
  assert (Z.log2 m < k) by (apply Z.log2_lt_pow2; lia). lia.
Qed.

Lemma Zdigits2_bound m : 0 <= m -> m < 2 ^ Zdigits2 m.
Proof.
  intros H0. destruct (Z.eq_dec m 0) as [->|Hm]; [cbn; lia|].
  rewrite Zdigits2_log2 by lia.
  pose proof (Z.log2_spec m ltac:(lia)). replace (Z.log2 m + 1) with (Z.succ (Z.log2 m)) by lia. lia.
Qed.

Lemma Zdigits2_lower m : 0 < m -> 2 ^ (Zdigits2 m - 1) <= m.
Proof.
  intros H0. rewrite Zdigits2_log2 by lia.
  pose proof (Z.log2_spec m ltac:(lia)). replace (Z.log2 m + 1 - 1) with (Z.log2 m) by lia. lia.
Qed.

Lemma Zdigits2_succ m : 0 <= m -> Zdigits2 (m + 1) <= Zdigits2 m + 1.
Proof.
  intros H0. pose proof (Zdigits2_bound m H0). pose proof (Zdigits2_nonneg m).
  apply Zdigits2_lt_pow2; try lia.
  rewrite Z.pow_add_r by lia. lia.
Qed.

Lemma Zdigits2_div_pow2 m k :
  0 <= m -> 0 <= k -> Zdigits2 (m / 2 ^ k) <= Z.max 0 (Zdigits2 m - k).
Proof.
  intros H0 Hk. pose proof (Zdigits2_bound m H0). pose proof (Zdigits2_nonneg m).
  assert (0 < 2 ^ k) by (apply Z.pow_pos_nonneg; lia).
  destruct (Z_lt_le_dec (Zdigits2 m) k) as [Hlt|Hge].
  - assert (m < 2 ^ k).
    { eapply Z.lt_le_trans; [eassumption|]. apply Z.pow_le_mono_r; lia. }
    rewrite Z.div_small by lia. cbn. lia.
  - rewrite Z.max_r by lia. apply Zdigits2_lt_pow2; try lia.
    + apply Z.div_pos; lia.
    + apply Z.div_lt_upper_bound; [lia|].
      rewrite <- Z.pow_add_r by lia. replace (k + (Zdigits2 m - k)) with (Zdigits2 m) by lia.
      assumption.
Qed.

Lemma Zdigits2_mul m n :
  0 <= m -> 0 <= n -> Zdigits2 (m * n) <= Zdigits2 m + Zdigits2 n.
Proof.
  intros Hm Hn. pose proof (Zdigits2_bound m Hm). pose proof (Zdigits2_bound n Hn).
  pose proof (Zdigits2_nonneg m). pose proof (Zdigits2_nonneg n).
  apply Zdigits2_lt_pow2; try nia.
  rewrite Z.pow_add_r by lia.
  destruct (Z.eq_dec m 0) as [->|]; [rewrite Z.mul_0_l; nia|].
  destruct (Z.eq_dec n 0) as [->|]; [rewrite Z.mul_0_r; nia|].
  apply Z.mul_lt_mono_nonneg; lia.
Qed.

Lemma Zdigits2_quot m n :
  0 <= m -> 0 < n -> Zdigits2 (m / n) <= Z.max 0 (Zdigits2 m - Zdigits2 n + 1).
Proof.
  intros Hm Hn. pose proof (Zdigits2_lower n Hn) as Hl.
  assert (0 < Zdigits2 n) by (rewrite Zdigits2_log2 by lia; pose proof (Z.log2_nonneg n); lia).
  assert (0 < 2 ^ (Zdigits2 n - 1)) by (apply Z.pow_pos_nonneg; lia).
  assert (m / n <= m / 2 ^ (Zdigits2 n - 1)) by (apply Z.div_le_compat_l; lia).
  assert (0 <= m / n) by (apply Z.div_pos; lia).
  etransitivity; [apply Zdigits2_le; split; eassumption|].
  etransitivity; [apply Zdigits2_div_pow2; lia|]. lia.
Qed.

Lemma shr_1_m mrs : 0 <= shr_m mrs -> shr_m (shr_1 mrs) = shr_m mrs / 2.
Proof.
  destruct mrs as [m r s]. cbn [shr_m shr_1]. intros H.
  destruct m as [|p|p]; [reflexivity| |lia].
  destruct p as [p|p|]; cbn [shr_m].
  - change (Zpos p~1) with (2 * Zpos p + 1). 
    rewrite Z.mul_comm, Z.div_add_l by lia. rewrite Z.div_small by lia. lia.
  - change (Zpos p~0) with (2 * Zpos p). rewrite Z.mul_comm, Z.div_mul by lia. reflexivity.
  - reflexivity.
Qed.

Lemma iter_shr_1_m p : forall mrs,
  0 <= shr_m mrs -> shr_m (SpecFloat.iter_pos shr_1 p mrs) = shr_m mrs / 2 ^ Zpos p.
Proof.
  induction p as [p IH|p IH|]; intros mrs H; cbn [SpecFloat.iter_pos].
  - assert (H1 : 0 <= shr_m (shr_1 mrs)) by (rewrite shr_1_m by lia; apply Z.div_pos; lia).
    assert (0 < 2 ^ Zpos p) by (apply Z.pow_pos_nonneg; lia).
    assert (H2 : 0 <= shr_m (SpecFloat.iter_pos shr_1 p (shr_1 mrs))) by (rewrite IH by lia; apply Z.div_pos; lia).
    rewrite IH by assumption. rewrite IH by assumption. rewrite shr_1_m by assumption.
    rewrite !Z.div_div by lia. f_equal.
    replace (Zpos p~1) with (1 + Zpos p + Zpos p) by lia.
    rewrite !Z.pow_add_r by lia. rewrite Z.pow_1_r. ring.
  - assert (0 < 2 ^ Zpos p) by (apply Z.pow_pos_nonneg; lia).
    assert (H2 : 0 <= shr_m (SpecFloat.iter_pos shr_1 p mrs)) by (rewrite IH by lia; apply Z.div_pos; lia).
    rewrite IH by assumption. rewrite IH by assumption.
    rewrite !Z.div_div by lia. f_equal.
    replace (Zpos p~0) with (Zpos p + Zpos p) by lia.
    rewrite !Z.pow_add_r by lia. ring.
  - rewrite shr_1_m by assumption. reflexivity.
Qed.

Lemma shr_spec mrs e n :
  0 <= shr_m mrs ->
  snd (shr mrs e n) = e + Z.max 0 n /\
  shr_m (fst (shr mrs e n)) = shr_m mrs / 2 ^ Z.max 0 n.
Proof.
  intros H. destruct n as [|p|p]; cbn [shr fst snd].
  - rewrite Z.max_l by lia. rewrite Z.pow_0_r, Z.div_1_r. lia.
  - rewrite Z.max_r by lia. split; [reflexivity|]. apply iter_shr_1_m. assumption.
  - rewrite Z.max_l by lia. rewrite Z.pow_0_r, Z.div_1_r. lia.
Qed.

Lemma shr_record_of_loc_m m l : shr_m (shr_record_of_loc m l) = m.
Proof. destruct l as [|[]]; reflexivity. Qed.

Lemma shr_fexp_spec m e l :
  0 <= m ->
  let k := Z.max 0 (fexp F64.prec F64.emax (Zdigits2 m + e) - e) in
  snd (shr_fexp F64.prec F64.emax m e l) = e + k /\
  shr_m (fst (shr_fexp F64.prec F64.emax m e l)) = m / 2 ^ k.
Proof.
  intros H k. unfold shr_fexp.
  pose proof (shr_spec (shr_record_of_loc m l) e
                (fexp F64.prec F64.emax (Zdigits2 m + e) - e)) as Hs.
  rewrite shr_record_of_loc_m in Hs. apply Hs. assumption.
Qed.

Lemma round_nearest_even_bounds m l : m <= round_nearest_even m l <= m + 1.
Proof. destruct l as [|[]]; cbn [round_nearest_even]; try lia. destruct (Z.even m); lia. Qed.

Lemma fexp_eq x : fexp F64.prec F64.emax x = Z.max (x - 53) (-1074).
Proof. reflexivity. Qed.


Lemma binary_round_aux_below sx mx ex lx B :
  0 <= mx -> -1073 <= B <= 972 -> Zdigits2 mx + ex + 1 <= B ->
  below B sx (binary_round_aux F64.prec F64.emax sx mx ex lx).
Proof.
  intros Hm HB Hmag. unfold binary_round_aux.
  pose proof (shr_fexp_spec mx ex lx Hm) as [He1 Hm1]. cbv zeta in He1, Hm1.
  destruct (shr_fexp F64.prec F64.emax mx ex lx) as [mrs1 e1]. cbn [fst snd] in He1, Hm1.
  set (m1' := round_nearest_even (shr_m mrs1) (loc_of_shr_record mrs1)).
  pose proof (round_nearest_even_bounds (shr_m mrs1) (loc_of_shr_record mrs1)) as Hr.
  fold m1' in Hr.
  set (k1 := Z.max 0 (fexp F64.prec F64.emax (Zdigits2 mx + ex) - ex)) in *.
  assert (Hk1 : 0 <= k1) by (unfold k1; lia).
  assert (Hp1 : 0 < 2 ^ k1) by (apply Z.pow_pos_nonneg; lia).
  assert (Hm1pos : 0 <= shr_m mrs1) by (rewrite Hm1; apply Z.div_pos; lia).
  assert (Hm1' : 0 <= m1') by lia.
  pose proof (Zdigits2_nonneg mx) as Hdmx.
  assert (Hd1 : Zdigits2 m1' + e1 <= B).
  { assert (Zdigits2 m1' <= Zdigits2 (shr_m mrs1) + 1).
    { etransitivity; [apply (Zdigits2_le m1' (shr_m mrs1 + 1)); lia|].
      apply Zdigits2_succ; lia. }
    pose proof (Zdigits2_div_pow2 mx k1 Hm Hk1) as Hdiv. rewrite <- Hm1 in Hdiv.
    unfold k1 in *. rewrite fexp_eq in *. lia. }
  pose proof (shr_fexp_spec m1' e1 loc_Exact Hm1') as [He2 Hm2]. cbv zeta in He2, Hm2.
  destruct (shr_fexp F64.prec F64.emax m1' e1 loc_Exact) as [mrs2 e2].
  cbn [fst snd] in He2, Hm2.
  set (k2 := Z.max 0 (fexp F64.prec F64.emax (Zdigits2 m1' + e1) - e1)) in *.
  assert (Hk2 : 0 <= k2) by (unfold k2; lia).
  assert (Hp2 : 0 < 2 ^ k2) by (apply Z.pow_pos_nonneg; lia).
  assert (Hm2pos : 0 <= shr_m mrs2) by (rewrite Hm2; apply Z.div_pos; lia).
  pose proof (Zdigits2_nonneg m1') as Hdm1.
  assert (He2le : e2 <= 971).
  { unfold k2 in *. rewrite fexp_eq in *. unfold k1 in *. rewrite fexp_eq in *. lia. }
  destruct (shr_m mrs2) as [|m2|m2] eqn:Em2; cbn [below]; [reflexivity| |lia].
  replace (e2 <=? F64.emax - F64.prec) with true
    by (symmetry; apply Z.leb_le; unfold F64.emax, F64.prec; lia).
  cbn [below]. split; [reflexivity|].
  pose proof (Zdigits2_div_pow2 m1' k2 Hm1' Hk2) as Hdiv2. rewrite <- Hm2 in Hdiv2.
  change (Zdigits2 (Zpos m2)) with (Zpos (digits2_pos m2)) in Hdiv2.
  assert (0 < Zpos (digits2_pos m2)) by lia.
  lia.
Qed.

Lemma below_finite B s f : below B s f -> F64.is_finite f = true.
Proof. destruct f; cbn; tauto. Qed.

Lemma mul_below B1 B2 B s1 s2 x y :
  below B1 s1 x -> below B2 s2 y ->
  B1 + B2 + 1 <= B -> -1073 <= B <= 972 ->
  below B (xorb s1 s2) (F64.mul x y).
Proof.
  intros Hx Hy HB Hr.
  destruct x as [sx|sx| |sx mx ex]; cbn [below] in Hx; try contradiction;
  destruct y as [sy|sy| |sy my ey]; cbn [below] in Hy; try contradiction;
  unfold F64.mul; cbn [SFmul below].
  - congruence.
  - destruct Hy; congruence.
  - destruct Hx; congruence.
  - destruct Hx as [-> Hx], Hy as [-> Hy].
    apply binary_round_aux_below; [lia|lia|].
    pose proof (Zdigits2_mul (Zpos mx) (Zpos my) ltac:(lia) ltac:(lia)) as Hd.
    change (Zdigits2 (Zpos mx)) with (Zpos (digits2_pos mx)) in Hd.
    change (Zdigits2 (Zpos my)) with (Zpos (digits2_pos my)) in Hd.
    change (Zpos (mx * my)) with (Zpos mx * Zpos my). lia.
Qed.

Lemma div_core_below mx ex my ey :
  let d := Zpos (digits2_pos mx) + ex - (Zpos (digits2_pos my) + ey) in
  let r := SFdiv_core_binary F64.prec F64.emax (Zpos mx) ex (Zpos my) ey in
  0 <= fst (fst r) /\
  Zdigits2 (fst (fst r)) + snd (fst r) + 1 <= Z.max (-1073) (d + 2).
Proof.
  intros d r. unfold r, SFdiv_core_binary.
  change (Zdigits2 (Zpos mx)) with (Zpos (digits2_pos mx)).
  change (Zdigits2 (Zpos my)) with (Zpos (digits2_pos my)).
  fold d. set (e' := Z.min (fexp F64.prec F64.emax d) (ex - ey)).
  set (s := ex - ey - e').
  assert (Hs : 0 <= s) by (unfold s, e'; lia).
  set (m' := match s with
             | 0 => Zpos mx
             | Zpos _ => Z.shiftl (Zpos mx) s
             | Zneg _ => 0
             end).
  assert (Hm' : m' = Zpos mx * 2 ^ s).
  { unfold m'. destruct s as [|p|p]; [rewrite Z.pow_0_r; lia| |lia].
    apply Z.shiftl_mul_pow2. lia. }
  assert (Hp : 0 < 2 ^ s) by (apply Z.pow_pos_nonneg; lia).
  pose proof (Z_div_mod m' (Zpos my) ltac:(lia)) as Hdm.
  assert (Hq : fst (Z.div_eucl m' (Zpos my)) = m' / Zpos my) by reflexivity.
  destruct (Z.div_eucl m' (Zpos my)) as [q rr]. cbn [fst snd] in *. subst q.
  assert (H0 : 0 <= m') by nia.
  split; [apply Z.div_pos; lia|].
  pose proof (Zdigits2_quot m' (Zpos my) H0 ltac:(lia)) as Hdq.
  change (Zdigits2 (Zpos my)) with (Zpos (digits2_pos my)) in Hdq.
  assert (Hdm' : Zdigits2 m' <= Zpos (digits2_pos mx) + s).
  { rewrite Hm'. pose proof (Zdigits2_bound (Zpos mx) ltac:(lia)) as Hb.
    change (Zdigits2 (Zpos mx)) with (Zpos (digits2_pos mx)) in Hb.
    apply Zdigits2_lt_pow2; [nia|lia|]. rewrite Z.pow_add_r by lia.
    apply Z.mul_lt_mono_pos_r; lia. }
  unfold s, e' in *. rewrite fexp_eq in *. unfold d in *. lia.
Qed.

Lemma div_below B1 B s1 s2 x my ey :
  below B1 s1 x ->
  B1 - (Zpos (digits2_pos my) + ey) + 2 <= B -> -1073 <= B <= 972 ->
  below B (xorb s1 s2) (F64.div x (S754_finite s2 my ey)).
Proof.
  intros Hx HB Hr.
  destruct x as [sx|sx| |sx mx ex]; cbn [below] in Hx; try contradiction;
  unfold F64.div; cbn [SFdiv below].
  - congruence.
  - destruct Hx as [-> Hx].
    pose proof (div_core_below mx ex my ey) as Hc. cbv zeta in Hc.
    destruct (SFdiv_core_binary F64.prec F64.emax (Zpos mx) ex (Zpos my) ey) as [[q e'] l].
    cbn [fst snd] in Hc. destruct Hc as [Hq Hmag].
    apply binary_round_aux_below; lia.
Qed.


Lemma below_weaken B B' s f : below B s f -> B <= B' -> below B' s f.
Proof. destruct f; cbn [below]; intuition lia. Qed.

Lemma to_int_nonneg f B :
  (below B false f \/ exists s, f = S754_zero s) ->
  exists n, F64.to_int f = Ok n /\ F64.floor f = Ok n /\ 0 <= n.
Proof.
  intros [H|[s ->]]; [|exists 0; cbn; auto with zarith].
  destruct f as [s|s| |s m e]; cbn [below] in H; try contradiction.
  - exists 0. cbn. auto with zarith.
  - destruct H as [-> _]. cbn [F64.to_int F64.floor].
    destruct (0 <=? e) eqn:E.
    + eexists; split; [reflexivity|]. split; [reflexivity|].
      apply Z.leb_le in E. assert (0 < 2 ^ e) by (apply Z.pow_pos_nonneg; lia). nia.
    + apply Z.leb_gt in E. assert (0 < 2 ^ (- e)) by (apply Z.pow_pos_nonneg; lia).
      exists (Zpos m / 2 ^ (- e)). rewrite Z.quot_div_nonneg by lia.
      split; [reflexivity|]. split; [reflexivity|]. apply Z.div_pos; lia.
Qed.

Lemma estimate_product_below d :
  plausible_duration d = true ->
  (exists s, F64.div (F64.mul (F64.of_Z TARGET_BITRATE) d) (F64.of_Z 8) = S754_zero s) \/
  below 920 false (F64.div (F64.mul (F64.of_Z TARGET_BITRATE) d) (F64.of_Z 8)).
Proof.
  intros Hd.
  assert (H128 : exists m e, F64.of_Z TARGET_BITRATE = S754_finite false m e
                             /\ Zpos (digits2_pos m) + e <= 17).
  { eexists _, _. split; [vm_compute; reflexivity|]. vm_compute. discriminate. }
  assert (H8 : exists m e, F64.of_Z 8 = S754_finite false m e
                           /\ 0 <= Zpos (digits2_pos m) + e).
  { eexists _, _. split; [vm_compute; reflexivity|]. vm_compute. discriminate. }
  destruct H128 as (m1 & e1 & -> & Hb1). destruct H8 as (m8 & e8 & -> & Hb8).
  destruct d as [s|s| |s m e]; cbn [plausible_duration] in Hd; try discriminate.
  - left. exists (xorb (xorb false s) false). reflexivity.
  - destruct s; [discriminate|]. apply Z.leb_le in Hd. right.
    assert (Hm : below 918 (xorb false false)
                   (F64.mul (S754_finite false m1 e1) (S754_finite false m e))).
    { apply (mul_below 17 900); cbn [below]; auto with zarith. }
    refine (div_below 918 920 false false _ m8 e8 Hm _ _); lia.
Qed.

Lemma estimate_ok d :
  plausible_duration d = true ->
  estimate d = Ok (Spec.estimatedSize d) /\ 0 <= Spec.estimatedSize d.
Proof.
  intros Hd. unfold estimate, Spec.estimatedSize.
  destruct (to_int_nonneg (F64.div (F64.mul (F64.of_Z TARGET_BITRATE) d) (F64.of_Z 8)) 920)
    as (n & H1 & H2 & H3).
  { destruct (estimate_product_below d Hd) as [H|H]; auto. }
  change Spec.targetBitrateBps with TARGET_BITRATE.
  rewrite H1, H2. auto.
Qed.

Lemma raw_below a : 0 < a -> below (Zdigits2 a) false (F64.raw a).
Proof. destruct a; try lia. intros _. cbn. split; [reflexivity|lia]. Qed.

Lemma percent_ok a b :
  0 < a -> a <= b ->
  percent a b = Ok (Spec.savingsPercentOf a b) /\
  below 10 false (Spec.savingsPercentOf a b).
Proof.
  intros Ha Hab. unfold percent, F64.int_truediv, Spec.savingsPercentOf.
  replace (b =? 0) with false by (symmetry; apply Z.eqb_neq; lia).
  assert (Hq : below 2 false (F64.div (F64.raw a) (F64.raw b))).
  { destruct b as [|pb|pb]; try lia. cbn [F64.raw].
    pose proof (raw_below a Ha) as Hra.
    pose proof (Zdigits2_le a (Zpos pb) ltac:(lia)) as Hd.
    change (Zdigits2 (Zpos pb)) with (Zpos (digits2_pos pb)) in Hd.
    refine (div_below (Zdigits2 a) 2 false false _ pb 0 Hra _ _); lia. }
  rewrite (below_finite _ _ _ Hq). cbn [rbind].
  split; [reflexivity|].
  assert (H100 : exists m e, F64.of_Z 100 = S754_finite false m e
                             /\ Zpos (digits2_pos m) + e <= 7).
  { eexists _, _. split; [vm_compute; reflexivity|]. vm_compute. discriminate. }
  destruct H100 as (m & e & -> & Hb).
  apply (mul_below 2 7 10 false false); cbn [below]; auto with zarith.
Qed.

(** ** The two-decimal rendering *)

Lemma string_of_uint_digits u : all_digits (NilEmpty.string_of_uint u) = true.
Proof. induction u; cbn; auto. Qed.

Lemma str_of_N_digits n : all_digits (str_of_N n) = true.
Proof. apply string_of_uint_digits. Qed.

Lemma str_of_N_nonempty n : exists c t, str_of_N n = String c t.
Proof.
  unfold str_of_N.
  assert (H : N.to_uint n <> Nil).
  { destruct n as [|p]; [discriminate|]. apply Unsigned.to_uint_nonnil. }
  destruct (N.to_uint n); try congruence; cbn; eauto.
Qed.

Lemma str_of_N_small n :
  (n < 10)%N -> exists c, str_of_N n = String c EmptyString /\ is_digit c = true.
Proof.
  intros H.
  assert (Hc : n = 0%N \/ n = 1%N \/ n = 2%N \/ n = 3%N \/ n = 4%N \/ n = 5%N \/
               n = 6%N \/ n = 7%N \/ n = 8%N \/ n = 9%N) by lia.
  repeat destruct Hc as [->|Hc]; try subst n; eexists; split; reflexivity.
Qed.

Lemma two_digits_shape n :
  0 <= n < 100 ->
  exists d1 d2, two_digits n = String d1 (String d2 EmptyString)
                /\ is_digit d1 = true /\ is_digit d2 = true.
Proof.
  intros H. unfold two_digits.
  destruct (str_of_N_small (Z.to_N (n / 10))) as (c1 & -> & H1).
  { assert (n / 10 < 10) by (apply Z.div_lt_upper_bound; lia).
    assert (0 <= n / 10) by (apply Z.div_pos; lia). lia. }
  destruct (str_of_N_small (Z.to_N (n mod 10))) as (c2 & -> & H2).
  { pose proof (Z.mod_pos_bound n 10 ltac:(lia)). lia. }
  exists c1, c2. auto.
Qed.

Lemma append_cons c s t : String c s +:+ t = String c (s +:+ t).
Proof. reflexivity. Qed.

Lemma append_nil t : EmptyString +:+ t = t.
Proof. reflexivity. Qed.

Lemma unsigned_two_decimal_cons c t :
  is_digit c = true -> unsigned_two_decimal t = true ->
  unsigned_two_decimal (String c t) = true.
Proof.
  intros Hc Ht. cbn [unsigned_two_decimal]. rewrite Hc. cbn [andb].
  destruct t as [|p [|a [|b [|x w]]]]; try exact Ht.
  rewrite Ht. apply orb_true_r.
Qed.

Lemma unsigned_two_decimal_app ds d1 d2 :
  all_digits ds = true -> ds <> EmptyString ->
  is_digit d1 = true -> is_digit d2 = true ->
  unsigned_two_decimal (ds +:+ "." +:+ String d1 (String d2 EmptyString)) = true.
Proof.
  intros Hds Hne H1 H2. induction ds as [|c ds IH]; [congruence|].
  cbn [all_digits] in Hds. apply andb_true_iff in Hds as [Hc Hds].
  rewrite append_cons.
  destruct ds as [|c' ds'].
  - rewrite append_nil, append_cons, append_nil.
    cbn [unsigned_two_decimal]. rewrite Hc, H1, H2. reflexivity.
  - apply unsigned_two_decimal_cons; [exact Hc|]. apply IH; [exact Hds|discriminate].
Qed.

Lemma round_half_even_div_nonneg num den : 0 <= num -> 0 < den -> 0 <= round_half_even_div num den.
Proof.
  intros Hn Hd. unfold round_half_even_div.
  assert (0 <= num / den) by (apply Z.div_pos; lia).
  destruct (2 * (num mod den) ?= den); [destruct (Z.even _)| |]; lia.
Qed.

Lemma hundredths_nonneg m e : 0 <= hundredths m e.
Proof.
  unfold hundredths. destruct (0 <=? e) eqn:E.
  - apply Z.leb_le in E. assert (0 < 2 ^ e) by (apply Z.pow_pos_nonneg; lia). nia.
  - apply Z.leb_gt in E. apply round_half_even_div_nonneg; [lia|].
    apply Z.pow_pos_nonneg; lia.
Qed.

Lemma fixed2_two_decimal h :
  0 <= h ->
  unsigned_two_decimal (fixed2 h) = true /\
  (exists c t, fixed2 h = String c t /\ is_digit c = true).
Proof.
  intros H. unfold fixed2.
  destruct (two_digits_shape (h mod 100)) as (d1 & d2 & -> & H1 & H2).
  { apply Z.mod_pos_bound. lia. }
  pose proof (str_of_N_digits (Z.to_N (h / 100))) as Hd.
  destruct (str_of_N_nonempty (Z.to_N (h / 100))) as (c & t & E).
  split.
  - apply unsigned_two_decimal_app; auto. rewrite E. discriminate.
  - rewrite E in *. rewrite append_cons. exists c. eexists. split; [reflexivity|].
    cbn [all_digits] in Hd. apply andb_true_iff in Hd. tauto.
Qed.

Lemma two_decimal_unsigned s c t :
  s = String c t -> is_digit c = true -> two_decimal s = unsigned_two_decimal s.
Proof.
  intros -> H. unfold two_decimal.
  destruct c as [[] [] [] [] [] [] [] []]; try reflexivity; discriminate.
Qed.

Lemma format_2f_two_decimal f :
  F64.is_finite f = true -> two_decimal (format_2f f) = true.
Proof.
  destruct f as [s|s| |s m e]; cbn [F64.is_finite]; try discriminate; intros _.
  - destruct s; reflexivity.
  - cbn [format_2f].
    destruct (fixed2_two_decimal (hundredths m e) (hundredths_nonneg m e))
      as (Hu & c & t & E & Hc).
    destruct s.
    + rewrite append_cons, append_nil. exact Hu.
    + rewrite append_nil. rewrite (two_decimal_unsigned _ c t E Hc). exact Hu.
Qed.

(** ** The preview loop *)

Lemma suffix_of_nameless p : name p = EmptyString -> suffix p = EmptyString.
Proof. unfold suffix. intros ->. reflexivity. Qed.


Lemma outside_window_stat cutoff mp3 st meta :
  fs st !! mp3 = Some meta ->
  outside_window cutoff mp3 st =
    (Ok match cutoff with
        | Some c => F64.ltb (st_mtime meta) c
        | None => false
        end, st).
Proof.
  intros H. destruct cutoff as [c|]; [|reflexivity].
  unfold outside_window, statM, bind, get_fs, lift, stat. rewrite H. reflexivity.
Qed.

(** Stepping over the three rules that look at names and dates only. *)
(** For a file with the suffix of the walk, the sibling test is the lookup
    of the derived path: [with_name] cannot raise there. *)
Lemma reduced_exists_derived f p :
  String.eqb (lower (suffix p)) ".mp3" = true ->
  reduced_name p = Ok (Spec.derivedPath p) /\
  reduced_exists f p = Ok (exists_ f (Spec.derivedPath p)).
Proof.
  intros H. unfold reduced_exists. rewrite H. cbn [negb].
  unfold reduced_name, with_name, Spec.derivedPath.
  destruct (name p) eqn:En; [|split; reflexivity].
  rewrite (suffix_of_nameless p En) in H. discriminate H.
Qed.

Ltac past_name_rules Hsib Hout Hmark :=
  unfold preview_step;
  unfold bind at 1; unfold get_fs at 1; unfold bind at 1; unfold lift at 1;
  rewrite Hsib; unfold bind at 1; rewrite Hout; rewrite Hmark;
  unfold bind at 1; unfold get_fs at 1.

Section Preview.

Context (rt : Runtime).

(** C1. For a scanned file, the loop body decides by the first matching
    rule of the fixed order of the specification (derived sibling exists,
    outside the time window, name carries the marker, no metadata, bitrate
    at or below the target, no savings, savings below the threshold, and
    otherwise a pass) and appends exactly one row: the step returns the
    record of [Spec.evaluate], committed to the accumulators, with its one
    log line. The sibling of rule 1 is the derived path of the file, looked
    up in the file system; the row is [record_row], cell by cell. The file
    is one that the walk for [*.mp3] yields and that exists, and a probe
    result has a plausible duration, as the data model has it. *)
Theorem eligibility_first_match ffmpeg_cmd ffprobe_cmd cutoff mp3 acc st meta :
  String.eqb (lower (suffix mp3)) ".mp3" = true ->
  fs st !! mp3 = Some meta ->
  (forall info, ffprobe_audio_info rt (fs st) mp3 ffprobe_cmd = Some info ->
                plausible_duration (Info.duration info) = true) ->
  let sibling := bool_decide (is_Some (fs st !! Spec.derivedPath mp3)) in
  let probe := ffprobe_audio_info rt (fs st) mp3 ffprobe_cmd in
  let r := Spec.evaluate mp3 sibling probe (st_mtime meta) cutoff in
  preview_step rt ffmpeg_cmd ffprobe_cmd cutoff mp3 acc st
    = (Ok (commit ffmpeg_cmd probe r acc), with_log (record_log r) st) /\
  csv_rows (commit ffmpeg_cmd probe r acc) = (csv_rows acc ++ [record_row r])%list /\
  (Spec.outcome r = Spec.SKIP ->
   reducible_files (commit ffmpeg_cmd probe r acc) = reducible_files acc /\
   file_info (commit ffmpeg_cmd probe r acc) = file_info acc /\
   total_estimated_savings (commit ffmpeg_cmd probe r acc) = total_estimated_savings acc).
Proof.
  intros Hmp3 Hmeta Hwf. cbv zeta.
  destruct (reduced_exists_derived (fs st) mp3 Hmp3) as [_ Hsib].
  unfold exists_ in Hsib.
  unfold preview_step, Spec.evaluate.
  unfold bind at 1. unfold get_fs at 1. unfold bind at 1. unfold lift at 1.
  rewrite Hsib.
  destruct (bool_decide (is_Some (fs st !! Spec.derivedPath mp3))).
  { split; [reflexivity|]. split; [reflexivity|]. intros _. repeat split. }
  unfold bind at 1. rewrite (outside_window_stat cutoff mp3 st meta Hmeta).
  destruct (match cutoff with Some c => F64.ltb (st_mtime meta) c | None => false end).
  { split; [reflexivity|]. split; [reflexivity|]. intros _. repeat split. }
  unfold Spec.carriesMarker.
  destruct (contains "_reduced" (lower (name mp3))).
  { split; [reflexivity|]. split; [reflexivity|]. intros _. repeat split. }
  unfold bind at 1. unfold get_fs at 1.
  destruct (ffprobe_audio_info rt (fs st) mp3 ffprobe_cmd) as [info|] eqn:Hprobe.
  2:{ split; [reflexivity|]. split; [reflexivity|]. intros _. repeat split. }
  specialize (Hwf info eq_refl).
  change Spec.targetBitrateBps with TARGET_BITRATE.
  destruct (Info.bitrate info <=? TARGET_BITRATE).
  { split; [reflexivity|]. split; [reflexivity|]. intros _. repeat split. }
  destruct (estimate_ok (Info.duration info) Hwf) as [Hest Hpos].
  unfold bind at 1. unfold lift at 1. rewrite Hest.
  destruct (Info.size info - Spec.estimatedSize (Info.duration info) <=? 0) eqn:Hsav.
  { split; [reflexivity|]. split; [reflexivity|]. intros _. repeat split. }
  apply Z.leb_gt in Hsav.
  destruct (percent_ok (Info.size info - Spec.estimatedSize (Info.duration info))
              (Info.size info) ltac:(lia) ltac:(lia)) as [Hpct _].
  unfold bind at 1. unfold lift at 1. rewrite Hpct.
  change Spec.minimumSavingsThreshold with MIN_SAVINGS_PERCENT.
  destruct (F64.ltb _ (F64.of_Z MIN_SAVINGS_PERCENT)).
  { split; [reflexivity|]. split; [reflexivity|]. intros _. repeat split. }
  split; [reflexivity|]. split; [reflexivity|]. intros H. discriminate H.
Qed.


Lemma example_estimate : Spec.estimatedSize (F64.of_Z 600) = 9600000.
Proof. vm_compute. reflexivity. Qed.

Lemma example_percent :
  Spec.savingsPercentOf 400000 10000000 = F64.of_Z 4 /\
  format_2f (F64.of_Z 4) = "4.00" /\
  F64.ltb (F64.of_Z 4) (F64.of_Z MIN_SAVINGS_PERCENT) = true.
Proof. vm_compute. auto. Qed.

(** C4. Past the bitrate check the estimate is the floor of
    [128000 * duration / 8], the savings are the size minus the estimate and
    the percent is the savings over the original size, times 100; the step
    skips on savings that are not positive, skips below 20 percent with the
    percent in the reason, and passes otherwise with these values. For a
    size of 10,000,000 bytes and 600 s the values are 9,600,000, 400,000
    and 4.00, and the file is skipped as below the threshold. *)
Theorem savings_formulas ffmpeg_cmd ffprobe_cmd cutoff mp3 acc st info :
  reduced_exists (fs st) mp3 = Ok false ->
  outside_window cutoff mp3 st = (Ok false, st) ->
  contains "_reduced" (lower (name mp3)) = false ->
  ffprobe_audio_info rt (fs st) mp3 ffprobe_cmd = Some info ->
  TARGET_BITRATE < Info.bitrate info ->
  plausible_duration (Info.duration info) = true ->
  let bitrate := Info.bitrate info in
  let size := Info.size info in
  exists estimated_size,
    F64.floor (F64.div (F64.mul (F64.of_Z 128000) (Info.duration info)) (F64.of_Z 8))
      = Ok estimated_size /\
    let savings_bytes := size - estimated_size in
    let savings_percent :=
      F64.mul (F64.div (F64.raw savings_bytes) (F64.raw size)) (F64.of_Z 100) in
    preview_step rt ffmpeg_cmd ffprobe_cmd cutoff mp3 acc st =
      (if savings_bytes <=? 0 then
         (Ok (push_row (skip_row mp3 (CInt bitrate) (CInt size) "would not shrink") acc),
          with_log ("SKIP (would not shrink): " +:+ name mp3) st)
       else if F64.ltb savings_percent (F64.of_Z 20) then
         (Ok (push_row (skip_row mp3 (CInt bitrate) (CInt size)
                          ("below threshold (" +:+ format_2f savings_percent +:+ "%)")) acc),
          with_log ("SKIP (" +:+ ("below threshold (" +:+ format_2f savings_percent +:+ "%)")
                    +:+ "): " +:+ name mp3) st)
       else
         (Ok (pass ffmpeg_cmd mp3 info estimated_size savings_bytes savings_percent acc),
          with_log ("PASS (reducible " +:+ format_2f savings_percent +:+ "%): "
                    +:+ name mp3) st)) /\
    (size = 10000000 -> Info.duration info = F64.of_Z 600 ->
     estimated_size = 9600000 /\ savings_bytes = 400000 /\
     savings_percent = F64.of_Z 4 /\ format_2f savings_percent = "4.00" /\
     preview_step rt ffmpeg_cmd ffprobe_cmd cutoff mp3 acc st =
       (Ok (push_row (skip_row mp3 (CInt bitrate) (CInt 10000000)
                        "below threshold (4.00%)") acc),
        with_log ("SKIP (below threshold (4.00%)): " +:+ name mp3) st)).
Proof.
  intros Hsib Hout Hmark Hprobe Hrate Hwf bitrate size.
  destruct (estimate_ok (Info.duration info) Hwf) as [Hest Hpos].
  exists (Spec.estimatedSize (Info.duration info)).
  assert (Hfloor : F64.floor (F64.div (F64.mul (F64.of_Z 128000) (Info.duration info))
                                      (F64.of_Z 8))
                   = Ok (Spec.estimatedSize (Info.duration info))).
  { generalize Hest. unfold estimate, Spec.estimatedSize.
    change Spec.targetBitrateBps with 128000. change TARGET_BITRATE with 128000.
    destruct (F64.div (F64.mul (F64.of_Z 128000) (Info.duration info)) (F64.of_Z 8))
      as [s|s| |s m e]; cbn [F64.to_int F64.floor]; try discriminate; [reflexivity|].
    intros _. reflexivity. }
  split; [exact Hfloor|]. cbv zeta.
  assert (Hstep :
    preview_step rt ffmpeg_cmd ffprobe_cmd cutoff mp3 acc st =
      (if size - Spec.estimatedSize (Info.duration info) <=? 0 then
         (Ok (push_row (skip_row mp3 (CInt bitrate) (CInt size) "would not shrink") acc),
          with_log ("SKIP (would not shrink): " +:+ name mp3) st)
       else if F64.ltb (Spec.savingsPercentOf (size - Spec.estimatedSize (Info.duration info)) size)
                       (F64.of_Z 20) then
         (Ok (push_row (skip_row mp3 (CInt bitrate) (CInt size)
                 ("below threshold (" +:+
                  format_2f (Spec.savingsPercentOf (size - Spec.estimatedSize (Info.duration info)) size)
                  +:+ "%)")) acc),
          with_log ("SKIP (" +:+ ("below threshold (" +:+
                    format_2f (Spec.savingsPercentOf (size - Spec.estimatedSize (Info.duration info)) size)
                    +:+ "%)") +:+ "): " +:+ name mp3) st)
       else
         (Ok (pass ffmpeg_cmd mp3 info (Spec.estimatedSize (Info.duration info))
                (size - Spec.estimatedSize (Info.duration info))
                (Spec.savingsPercentOf (size - Spec.estimatedSize (Info.duration info)) size) acc),
          with_log ("PASS (reducible " +:+
                    format_2f (Spec.savingsPercentOf (size - Spec.estimatedSize (Info.duration info)) size)
                    +:+ "%): " +:+ name mp3) st))).
  { past_name_rules Hsib Hout Hmark. rewrite Hprobe.
    replace (Info.bitrate info <=? TARGET_BITRATE) with false
      by (symmetry; apply Z.leb_gt; exact Hrate).
    unfold bind at 1. unfold lift at 1. rewrite Hest. fold size.
    destruct (size - Spec.estimatedSize (Info.duration info) <=? 0) eqn:Hsav; [reflexivity|].
    apply Z.leb_gt in Hsav.
    destruct (percent_ok (size - Spec.estimatedSize (Info.duration info)) size
                ltac:(lia) ltac:(lia)) as [Hpct _].
    unfold bind at 1. unfold lift at 1. rewrite Hpct.
    change (F64.of_Z MIN_SAVINGS_PERCENT) with (F64.of_Z 20).
    destruct (F64.ltb _ (F64.of_Z 20)); reflexivity. }
  split; [exact Hstep|].
  intros Hsize Hdur. rewrite Hstep. rewrite Hdur, Hsize.
  rewrite example_estimate.
  change (10000000 - 9600000) with 400000.
  destruct example_percent as (Hp & Hf & Hlt).
  change (F64.mul (F64.div (F64.raw 400000) (F64.raw 10000000)) (F64.of_Z 100))
    with (Spec.savingsPercentOf 400000 10000000).
  rewrite Hp, Hf. change (F64.of_Z 20) with (F64.of_Z MIN_SAVINGS_PERCENT). rewrite Hlt.
  change (400000 <=? 0) with false. cbv iota.
  repeat split; reflexivity.
Qed.


(** ** The probe wrapper *)

Lemma ffprobe_raise_none f path ffprobe_cmd e :
  ffprobe_body rt f path ffprobe_cmd = Raise e ->
  ffprobe_audio_info rt f path ffprobe_cmd = None.
Proof. unfold ffprobe_audio_info. intros ->. reflexivity. Qed.

Lemma ffprobe_after_loads f path ffprobe_cmd npath out data :
  normalize_path rt path = Ok npath ->
  run_ffprobe rt f (probe_cmd ffprobe_cmd npath) = Ok out ->
  json_loads rt out = Some data ->
  (stream_bit_rate data = Ok JNull \/ format_duration data = Ok JNull) ->
  ffprobe_audio_info rt f path ffprobe_cmd = None.
Proof.
  intros Hn Hrun Hload Hmiss.
  unfold ffprobe_audio_info, ffprobe_body.
  rewrite Hn. cbn [rbind]. rewrite Hrun. cbn [rbind].
  destruct (negb (nonempty (strip out))); [reflexivity|].
  rewrite Hload. cbn [rbind].
  destruct (stream_bit_rate data) as [b|eb] eqn:Hb; cbn [rbind]; [|reflexivity].
  destruct (format_duration data) as [d|ed] eqn:Hd; cbn [rbind]; [|reflexivity].
  destruct Hmiss as [Hm|Hm]; injection Hm as ->; cbn [is_none negb rbind].
  - destruct (negb (is_none d)); [destruct (py_float rt d)|]; cbn [rbind];
      try reflexivity; destruct (stat f path); reflexivity.
  - destruct (negb (is_none b)); [destruct (py_int rt b)|]; cbn [rbind];
      try reflexivity; destruct (stat f path); reflexivity.
Qed.

(** C6. The probe wrapper returns [None] on every failure: when the
    process cannot be launched, when its output does not parse, when the
    bitrate field is missing and when the duration field is missing; an
    exception raised anywhere in its body becomes [None]. A file whose probe
    gives [None] is skipped with the reason [no metadata] and the loop goes
    on. *)
Theorem probe_fails_closed f path ffprobe_cmd :
  (forall e, ffprobe_body rt f path ffprobe_cmd = Raise e ->
             ffprobe_audio_info rt f path ffprobe_cmd = None) /\
  (forall e, normalize_path rt path = Raise e ->
             ffprobe_audio_info rt f path ffprobe_cmd = None) /\
  (forall npath, normalize_path rt path = Ok npath ->
     (forall e, run_ffprobe rt f (probe_cmd ffprobe_cmd npath) = Raise e ->
                ffprobe_audio_info rt f path ffprobe_cmd = None) /\
     (forall out, run_ffprobe rt f (probe_cmd ffprobe_cmd npath) = Ok out ->
        (json_loads rt out = None ->
         ffprobe_audio_info rt f path ffprobe_cmd = None) /\
        (forall data, json_loads rt out = Some data ->
           (stream_bit_rate data = Ok JNull ->
            ffprobe_audio_info rt f path ffprobe_cmd = None) /\
           (format_duration data = Ok JNull ->
            ffprobe_audio_info rt f path ffprobe_cmd = None)))) /\
  (forall kv,
     (assoc "streams" kv = None -> stream_bit_rate (JObj kv) = Ok JNull) /\
     (forall stream rest,
        assoc "streams" kv = Some (JArr (JObj stream :: rest)) ->
        assoc "bit_rate" stream = None -> stream_bit_rate (JObj kv) = Ok JNull) /\
     (assoc "format" kv = None -> format_duration (JObj kv) = Ok JNull) /\
     (forall fmt,
        assoc "format" kv = Some (JObj fmt) ->
        assoc "duration" fmt = None -> format_duration (JObj kv) = Ok JNull)) /\
  (forall ffmpeg_cmd cutoff acc st,
     f = fs st ->
     reduced_exists (fs st) path = Ok false ->
     outside_window cutoff path st = (Ok false, st) ->
     contains "_reduced" (lower (name path)) = false ->
     ffprobe_audio_info rt f path ffprobe_cmd = None ->
     preview_step rt ffmpeg_cmd ffprobe_cmd cutoff path acc st =
       (Ok (push_row (skip_row path (CStr "") (CStr "") "no metadata") acc),
        with_log ("SKIP (no metadata): " +:+ name path) st)).
Proof.
  split; [intros e; apply ffprobe_raise_none|].
  split.
  { intros e He. unfold ffprobe_audio_info, ffprobe_body. rewrite He. reflexivity. }
  split.
  { intros npath Hn. split.
    - intros e He. unfold ffprobe_audio_info, ffprobe_body.
      rewrite Hn. cbn [rbind]. rewrite He. reflexivity.
    - intros out Hrun. split.
      + intros Hload. unfold ffprobe_audio_info, ffprobe_body.
        rewrite Hn. cbn [rbind]. rewrite Hrun. cbn [rbind].
        destruct (negb (nonempty (strip out))); [reflexivity|].
        rewrite Hload. reflexivity.
      + intros data Hload. split; intros Hm;
          eapply ffprobe_after_loads; eauto. }
  split.
  { intros kv. repeat split.
    - intros H. unfold stream_bit_rate, py_in. rewrite H. reflexivity.
    - intros stream rest H Hb. unfold stream_bit_rate, py_in, py_getitem. rewrite H.
      cbn. rewrite Hb. reflexivity.
    - intros H. unfold format_duration, py_in. rewrite H. reflexivity.
    - intros fmt H Hd. unfold format_duration, py_in, py_getitem. rewrite H.
      cbn. rewrite Hd. reflexivity. }
  intros ffmpeg_cmd cutoff acc st -> Hsib Hout Hmark Hnone.
  past_name_rules Hsib Hout Hmark. rewrite Hnone. reflexivity.
Qed.

End Preview.

(** ** The worker and the safe deletion *)

Lemma SFcompare_antisym x y :
  SFcompare y x = option_map CompOpp (SFcompare x y).
Proof.
  destruct x as [sx|sx| |sx mx ex], y as [sy|sy| |sy my ey]; cbn [SFcompare option_map];
    try reflexivity;
    try (destruct sx; reflexivity); try (destruct sy; reflexivity);
    try (destruct sx, sy; reflexivity).
  f_equal. destruct sx, sy; try reflexivity;
    rewrite (Z.compare_antisym ey ex); destruct (ey ?= ex); cbn [CompOpp];
    try reflexivity;
    rewrite (Pos.compare_cont_antisym mx my Eq); reflexivity.
Qed.

Lemma leb_not_ltb x y :
  not_nan x = true -> not_nan y = true -> F64.leb x y = negb (F64.ltb y x).
Proof.
  intros Hx Hy. unfold F64.leb, F64.ltb, SFleb, SFltb.
  rewrite (SFcompare_antisym x y).
  destruct (SFcompare x y) as [[]|] eqn:E; cbn; try reflexivity.
  destruct x, y; cbn in *; try discriminate;
    repeat match goal with
           | s : bool |- _ => destruct s; cbn in E; try discriminate
           end.
Qed.

Section Worker.

Context (rt : Runtime).

(** C5. When the encoder runs, the worker returns a result whose
    [success] is true exactly when the return code is 0 and the derived file
    exists and its size is above 0; a return code of 0 with the file missing
    or empty gives [success = false]. *)
Theorem worker_success_iff item st dst nsrc ndst rc f' :
  reduced_name (Item.path item) = Ok dst ->
  normalize_path rt (Item.path item) = Ok nsrc ->
  normalize_path rt dst = Ok ndst ->
  run_ffmpeg rt (fs st) (encode_cmd (Item.ffmpeg_cmd item) nsrc ndst) = Ok (rc, f') ->
  exists r,
    reduce_worker rt item st = (Ok r, with_fs f' st) /\
    Res.src r = Item.path item /\ Res.dst r = dst /\
    (Res.success r = true <->
     rc = 0 /\ exists m, f' !! dst = Some m /\ 0 < st_size m) /\
    (rc = 0 -> f' !! dst = None -> Res.success r = false) /\
    (rc = 0 -> forall m, f' !! dst = Some m -> st_size m <= 0 -> Res.success r = false).
Proof.
  intros Hdst Hnsrc Hndst Hrun.
  unfold reduce_worker.
  unfold bind at 1. unfold lift at 1. rewrite Hdst.
  unfold bind at 1. unfold lift at 1. rewrite Hnsrc.
  unfold bind at 1. unfold lift at 1. rewrite Hndst.
  unfold bind at 1. unfold run_encoder at 1. rewrite Hrun.
  unfold bind at 1. unfold get_fs at 1. cbn [fs with_fs].
  unfold exists_, stat.
  destruct (f' !! dst) as [m|] eqn:Hm.
  - rewrite bool_decide_eq_true_2 by eauto.
    destruct (rc =? 0) eqn:Hrc; cbn [andb rbind bind lift ret].
    + apply Z.eqb_eq in Hrc. eexists. split; [reflexivity|]. cbn.
      split; [reflexivity|]. split; [reflexivity|]. split; [|split].
      * rewrite Z.ltb_lt. split.
        -- intros H. split; [exact Hrc|]. exists m. auto.
        -- intros (_ & m' & Hm' & Hpos). congruence.
      * intros _ H. discriminate.
      * intros _ m' Hm' Hle. injection Hm' as <-. apply Z.ltb_ge. exact Hle.
    + apply Z.eqb_neq in Hrc. eexists. split; [reflexivity|]. cbn.
      split; [reflexivity|]. split; [reflexivity|]. split; [|split].
      * split; [discriminate|]. intros (H & _). contradiction.
      * intros H. contradiction.
      * intros H. contradiction.
  - rewrite bool_decide_eq_false_2 by (intros [x Hx]; discriminate).
    rewrite andb_false_r. cbn [bind lift ret].
    eexists. split; [reflexivity|]. cbn.
    split; [reflexivity|]. split; [reflexivity|]. split; [|split].
    + split; [discriminate|]. intros (_ & m & Hm' & _). discriminate.
    + reflexivity.
    + intros _ m Hm'. discriminate.
Qed.

Lemma verify_stat st p m : fs st !! p = Some m -> statM p st = (Ok m, st).
Proof. intros H. unfold statM, bind, get_fs, lift, stat. rewrite H. reflexivity. Qed.

(** C2. With the original in place, the verifier goes through the five
    predicates of the specification in their order and stops at the first
    that fails, logging that one's reason and leaving the files as they
    were; the original is removed only when the derived file exists, is not
    empty, is strictly smaller, is strictly newer and probes again. Equal
    sizes refuse. The two modification times are numbers (not NaN), as a
    file system reports them. *)
Theorem safe_delete_chain original reduced ffprobe_cmd st o :
  fs st !! original = Some o ->
  not_nan (st_mtime o) = true ->
  (forall r, fs st !! reduced = Some r -> not_nan (st_mtime r) = true) ->
  let reprobe := ffprobe_audio_info rt (fs st) reduced ffprobe_cmd in
  let verdict := Spec.maybeDelete o (fs st !! reduced) (bool_decide (is_Some reprobe)) in
  let after := snd (verify_and_delete rt original reduced ffprobe_cmd st) in
  verify_and_delete rt original reduced ffprobe_cmd st =
    (Ok tt,
     match verdict with
     | Some why =>
         with_log ("DELETE SKIP (" +:+ delete_refusal_text why +:+ "): " +:+ original) st
     | None =>
         if unlink_denied rt original
         then with_log ("DELETE ERROR (" +:+ original +:+ "): " +:+ exn_text OSError) st
         else with_log ("DELETE: " +:+ original +:+ " → removed")
                (with_fs (delete original (fs st)) st)
     end) /\
  (verdict <> None -> fs after = fs st) /\
  (fs after <> fs st ->
   exists r, fs st !! reduced = Some r /\
             0 < st_size r /\
             st_size r < st_size o /\
             F64.ltb (st_mtime o) (st_mtime r) = true /\
             is_Some reprobe) /\
  (forall r, fs st !! reduced = Some r -> st_size r = st_size o -> fs after = fs st).
Proof.
  intros Ho Hno Hnr reprobe verdict after.
  assert (Heq :
    verify_and_delete rt original reduced ffprobe_cmd st =
    (Ok tt,
     match verdict with
     | Some why =>
         with_log ("DELETE SKIP (" +:+ delete_refusal_text why +:+ "): " +:+ original) st
     | None =>
         if unlink_denied rt original
         then with_log ("DELETE ERROR (" +:+ original +:+ "): " +:+ exn_text OSError) st
         else with_log ("DELETE: " +:+ original +:+ " → removed")
                (with_fs (delete original (fs st)) st)
     end)).
  { unfold verdict, Spec.maybeDelete, verify_and_delete, try_except, verify_and_delete_body.
    unfold bind at 1. unfold get_fs at 1. unfold exists_.
    destruct (fs st !! reduced) as [r|] eqn:Hr.
    2:{ rewrite bool_decide_eq_false_2 by (intros [x Hx]; discriminate). reflexivity. }
    rewrite bool_decide_eq_true_2 by eauto. cbn [negb].
    unfold bind at 1. rewrite (verify_stat st reduced r Hr).
    rewrite (Z.ltb_antisym (st_size r) 0), negb_involutive.
    destruct (st_size r <=? 0); [reflexivity|].
    unfold bind at 1. rewrite (verify_stat st reduced r Hr).
    unfold bind at 1. rewrite (verify_stat st original o Ho).
    rewrite (Z.ltb_antisym (st_size o) (st_size r)), negb_involutive.
    destruct (st_size o <=? st_size r); [reflexivity|].
    unfold bind at 1. rewrite (verify_stat st reduced r Hr).
    unfold bind at 1. rewrite (verify_stat st original o Ho).
    rewrite (leb_not_ltb (st_mtime r) (st_mtime o) (Hnr r eq_refl) Hno).
    destruct (F64.ltb (st_mtime o) (st_mtime r)); cbn [negb]; [|reflexivity].
    unfold bind at 1. unfold get_fs at 1. fold reprobe.
    destruct reprobe as [info|].
    2:{ rewrite bool_decide_eq_false_2 by (intros [x Hx]; discriminate). reflexivity. }
    rewrite bool_decide_eq_true_2 by eauto. cbn [negb].
    unfold bind at 1. unfold unlink at 1. unfold bind at 1. unfold get_fs at 1.
    unfold exists_. rewrite bool_decide_eq_true_2 by eauto. cbn [andb].
    destruct (unlink_denied rt original); reflexivity. }
  split; [exact Heq|].
  assert (Hsafe : verdict <> None -> fs after = fs st).
  { unfold after. rewrite Heq. cbn [snd]. destruct verdict; [reflexivity|congruence]. }
  split; [exact Hsafe|]. split.
  - intros Hchanged.
    destruct verdict as [why|] eqn:Hv; [exfalso; apply Hchanged, Hsafe; discriminate|].
    unfold verdict, Spec.maybeDelete in Hv.
    destruct (fs st !! reduced) as [r|]; [|discriminate].
    exists r. split; [reflexivity|].
    destruct (0 <? st_size r) eqn:H1; cbn [negb] in Hv; [|discriminate].
    destruct (st_size r <? st_size o) eqn:H2; cbn [negb] in Hv; [|discriminate].
    destruct (F64.ltb (st_mtime o) (st_mtime r)) eqn:H3; cbn [negb] in Hv; [|discriminate].
    destruct (bool_decide (is_Some reprobe)) eqn:H4; cbn [negb] in Hv; [|discriminate].
    apply Z.ltb_lt in H1, H2. apply bool_decide_eq_true_1 in H4. auto.
  - intros r Hr Hsize. apply Hsafe. unfold verdict, Spec.maybeDelete. rewrite Hr.
    destruct (negb (0 <? st_size r)); [discriminate|].
    replace (st_size r <? st_size o) with false by (symmetry; apply Z.ltb_ge; lia).
    discriminate.
Qed.

End Worker.

(** ** What a computation returns and what it writes *)

Lemma post_true {A} (c : M A) : post c (fun _ => True).
Proof. intros st a st' _. exact I. Qed.

Lemma post_ret {A} (a : A) (Q : A -> Prop) : Q a -> post (ret a) Q.
Proof. intros H st x st' E. injection E as <- _. exact H. Qed.

Lemma post_bind {A B} (c : M A) (k : A -> M B) (Q : A -> Prop) (R : B -> Prop) :
  post c Q -> (forall a, Q a -> post (k a) R) -> post (bind c k) R.
Proof.
  intros Hc Hk st b st' E. unfold bind in E.
  destruct (c st) as [[a|e] st1] eqn:Ec; [|discriminate].
  exact (Hk a (Hc _ _ _ Ec) _ _ _ E).
Qed.

Section Writes.

Context (report : Path) (P : list Row.t -> Prop).

Lemma writes_untouched {A} (c : M A) :
  (forall st, reports (snd (c st)) = reports st) -> writes_only report P c.
Proof. intros H st. left. apply H. Qed.

Lemma writes_bind {A B} (c : M A) (k : A -> M B) (Q : A -> Prop) :
  writes_only report P c -> post c Q ->
  (forall a, Q a -> writes_only report P (k a)) ->
  writes_only report P (bind c k).
Proof.
  intros Hc Hq Hk st. unfold bind.
  specialize (Hc st).
  destruct (c st) as [[a|e] st1] eqn:Ec; cbn [snd] in Hc; [|exact Hc].
  specialize (Hk a (Hq _ _ _ Ec) st1).
  destruct Hk as [Hk|(rows & Hrows & Hk)].
  - rewrite Hk. exact Hc.
  - right. exists rows. split; [exact Hrows|]. rewrite Hk.
    destruct Hc as [->|(rows1 & _ & ->)]; [reflexivity|].
    apply insert_insert_eq.
Qed.

Lemma writes_seq {A B} (c : M A) (k : A -> M B) :
  writes_only report P c -> (forall a, writes_only report P (k a)) ->
  writes_only report P (bind c k).
Proof. intros Hc Hk. apply (writes_bind c k (fun _ => True)); auto using post_true. Qed.

Lemma writes_try {A} (c : M A) (h : exn -> M A) :
  writes_only report P c -> (forall e, writes_only report P (h e)) ->
  writes_only report P (try_except c h).
Proof.
  intros Hc Hh st. unfold try_except.
  specialize (Hc st).
  destruct (c st) as [[a|e] st1] eqn:Ec; cbn [snd] in Hc; [exact Hc|].
  specialize (Hh e st1).
  destruct Hh as [Hk|(rows & Hrows & Hk)].
  - rewrite Hk. exact Hc.
  - right. exists rows. split; [exact Hrows|]. rewrite Hk.
    destruct Hc as [->|(rows1 & _ & ->)]; [reflexivity|].
    apply insert_insert_eq.
Qed.

Lemma writes_csv rows :
  rows = [] \/ P rows -> writes_only report P (write_csv rows report).
Proof.
  intros H st. unfold write_csv. destruct rows as [|r rows]; [left; reflexivity|].
  right. exists (r :: rows). split; [|reflexivity].
  destruct H as [H|H]; [discriminate|exact H].
Qed.

End Writes.

(** The steps of a computation that leaves the CSV files alone. *)
Ltac untouched :=
  repeat first
    [ apply writes_untouched; intros ?; reflexivity
    | apply writes_seq; [|intros ?]
    | apply writes_try; [|intros ?]
    | match goal with
      | |- writes_only _ _ (if ?b then _ else _) => destruct b
      | |- writes_only _ _ (match ?x with _ => _ end) => destruct x
      end ].

Section Coordinator.

Context (rt : Runtime).

Lemma writes_input report P prompt : writes_only report P (input prompt).
Proof. apply writes_untouched. intros st. unfold input. destruct (stdin st); reflexivity. Qed.

Lemma writes_lift report P {A} (r : result A) : writes_only report P (lift r).
Proof. apply writes_untouched. intros st. reflexivity. Qed.

Lemma writes_statM report P p : writes_only report P (statM p).
Proof. unfold statM. apply writes_seq; [untouched|]. intros f. apply writes_lift. Qed.

Lemma writes_run_encoder report P cmd : writes_only report P (run_encoder rt cmd).
Proof.
  apply writes_untouched. intros st. unfold run_encoder.
  destruct (run_ffmpeg rt (fs st) cmd) as [[rc f']|e]; reflexivity.
Qed.

Lemma writes_reduce_worker report P item : writes_only report P (reduce_worker rt item).
Proof.
  unfold reduce_worker.
  repeat first [ apply writes_lift | apply writes_run_encoder
               | apply writes_seq; [|intros ?] | progress untouched ].
Qed.

Lemma writes_unlink report P p : writes_only report P (unlink rt p).
Proof.
  unfold unlink. apply writes_seq; [untouched|]. intros f.
  destruct (exists_ f p && negb (unlink_denied rt p)); [untouched|apply writes_lift].
Qed.

Lemma writes_verify report P original reduced ffprobe_cmd :
  writes_only report P (verify_and_delete rt original reduced ffprobe_cmd).
Proof.
  unfold verify_and_delete, verify_and_delete_body.
  repeat first [ apply writes_lift | apply writes_statM | apply writes_unlink
               | apply writes_seq; [|intros ?]
               | apply writes_try; [|intros ?]
               | match goal with
                 | |- writes_only _ _ (if ?b then _ else _) => destruct b
                 | |- writes_only _ _ (match ?x with _ => _ end) => destruct x
                 end
               | apply writes_untouched; intros ?; reflexivity ].
Qed.

Lemma writes_delete_originals report P ffprobe_cmd results :
  writes_only report P (delete_originals rt ffprobe_cmd results).
Proof.
  induction results as [|r rest IH]; cbn [delete_originals]; [untouched|].
  apply writes_seq; [|intros _; exact IH].
  destruct (negb (Res.success r)); [untouched|].
  apply writes_seq; [untouched|]. intros f.
  destruct (negb (exists_ f (Res.src r))); [untouched|apply writes_verify].
Qed.

Lemma writes_skip report P mp3 b s reason acc :
  writes_only report P (skip mp3 b s reason acc).
Proof. unfold skip. untouched. Qed.

Lemma writes_preview_step report P ffmpeg_cmd ffprobe_cmd cutoff mp3 acc :
  writes_only report P (preview_step rt ffmpeg_cmd ffprobe_cmd cutoff mp3 acc).
Proof.
  unfold preview_step, outside_window.
  repeat first [ apply writes_lift | apply writes_statM | apply writes_skip
               | apply writes_seq; [|intros ?]
               | match goal with
                 | |- writes_only _ _ (if ?b then _ else _) => destruct b
                 | |- writes_only _ _ (match ?x with _ => _ end) => destruct x
                 end
               | apply writes_untouched; intros ?; reflexivity ].
Qed.

Lemma writes_preview report P ffmpeg_cmd ffprobe_cmd cutoff files : forall acc,
  writes_only report P (preview rt ffmpeg_cmd ffprobe_cmd cutoff files acc).
Proof.
  induction files as [|mp3 rest IH]; intros acc; cbn [preview]; [untouched|].
  apply writes_seq; [apply writes_preview_step|]. intros acc'. apply IH.
Qed.

Lemma writes_collect report P infos completed : forall acc,
  writes_only report P (collect rt infos completed acc).
Proof.
  induction completed as [|item rest IH]; intros [[results count] rows];
    cbn [collect]; [untouched|].
  apply writes_seq; [apply writes_reduce_worker|]. intros r.
  apply writes_seq; [untouched|]. intros _. apply IH.
Qed.

Lemma writes_print_reducible report P items :
  writes_only report P (print_reducible items).
Proof.
  induction items as [|item rest IH]; cbn [print_reducible]; [untouched|].
  apply writes_seq; [untouched|]. intros _. exact IH.
Qed.

Lemma writes_csv_export P args rows :
  rows = [] \/ P rows -> writes_only (csv_name rt) P (csv_export rt args rows).
Proof.
  intros H. unfold csv_export.
  apply writes_seq.
  - destruct (negb (Args.nocsv args)); [|untouched].
    destruct (negb (Args.auto args)); [|untouched].
    apply writes_seq; [apply writes_input|]. intros choice. untouched.
  - intros export_csv. destruct export_csv; [|untouched].
    apply writes_seq; [apply writes_csv; exact H|]. intros _. untouched.
Qed.

Lemma writes_select_directory report P args :
  writes_only report P (select_directory rt args).
Proof.
  unfold select_directory.
  repeat first [ apply writes_input
               | apply writes_seq; [|intros ?]
               | match goal with
                 | |- writes_only _ _ (if ?b then _ else _) => destruct b
                 | |- writes_only _ _ (match ?x with _ => _ end) => destruct x
                 end
               | apply writes_untouched; intros ?; reflexivity ].
Qed.

Lemma writes_select_minutes report P args :
  writes_only report P (select_minutes rt args).
Proof.
  unfold select_minutes.
  repeat first [ apply writes_input
               | apply writes_seq; [|intros ?]
               | match goal with
                 | |- writes_only _ _ (if ?b then _ else _) => destruct b
                 | |- writes_only _ _ (match ?x with _ => _ end) => destruct x
                 end
               | apply writes_untouched; intros ?; reflexivity ].
Qed.

Lemma writes_select_cutoff report P minutes :
  writes_only report P (select_cutoff rt minutes).
Proof.
  unfold select_cutoff.
  destruct (0 <? minutes); [|untouched].
  apply writes_seq; [apply writes_lift|]. intros span. untouched.
Qed.

(** The CSV files after [main]: untouched, or one report whose rows satisfy
    [P], when the rows of the scan and of the reduction do. *)
Lemma main_writes (P : list Row.t -> Prop) (QS : Scan -> Prop) args :
  (forall ffmpeg_cmd ffprobe_cmd cutoff d,
     post (preview rt ffmpeg_cmd ffprobe_cmd cutoff (rglob_mp3 rt d) scan0) QS) ->
  (forall scan, QS scan -> csv_rows scan = [] \/ P (csv_rows scan)) ->
  (forall scan, QS scan ->
     post (collect rt (file_info scan) (as_completed rt (reducible_files scan))
             ([], 0, csv_rows scan))
          (fun r => snd r = [] \/ P (snd r))) ->
  writes_only (csv_name rt) P (main rt args).
Proof.
  intros Hscan Hrows Hcoll. unfold main.
  destruct detect_ffmpeg_windows_only as [[ffmpeg_cmd ffprobe_cmd]|e]; [|untouched].
  apply writes_seq; [untouched|]. intros _.
  apply writes_seq; [untouched|]. intros _.
  apply writes_seq; [untouched|]. intros _.
  apply writes_seq; [untouched|]. intros _.
  apply writes_seq; [apply writes_select_directory|]. intros raw_dir.
  destruct (negb (dir_exists rt (normalize_directory_input raw_dir))); [untouched|].
  apply writes_seq; [apply writes_select_minutes|]. intros minutes.
  apply writes_seq; [apply writes_select_cutoff|]. intros cutoff.
  apply writes_seq; [untouched|]. intros _.
  apply (writes_bind _ _ _ _ QS); [apply writes_preview|apply Hscan|]. intros scan Hq.
  apply writes_seq; [untouched|]. intros _.
  destruct (reducible_files scan) as [|item items] eqn:Hitems.
  { apply writes_seq; [untouched|]. intros _.
    apply writes_seq; [untouched|]. intros _.
    apply writes_csv_export. auto. }
  apply writes_seq; [untouched|]. intros _.
  apply writes_seq; [apply writes_print_reducible|]. intros _.
  apply writes_seq; [apply writes_lift|]. intros mb.
  apply writes_seq; [untouched|]. intros _.
  apply writes_seq.
  { destruct (Args.auto args); [untouched|].
    apply writes_seq; [apply writes_input|]. intros answer. untouched. }
  intros choice.
  destruct (negb (String.eqb choice "y")).
  { apply writes_seq; [untouched|]. intros _.
    apply writes_seq; [untouched|]. intros _.
    apply writes_csv_export. auto. }
  apply writes_seq; [untouched|]. intros _.
  apply (writes_bind _ _ _ _ (fun r => snd r = [] \/ P (snd r))).
  { apply writes_collect. }
  { rewrite <- Hitems. apply Hcoll. exact Hq. }
  intros [[reduction_results count] rows] Hr. cbn [snd] in Hr.
  apply writes_seq; [untouched|]. intros _.
  apply writes_seq; [untouched|]. intros _.
  apply writes_seq; [untouched|]. intros _.
  apply writes_seq.
  { destruct (Args.auto args); [untouched|].
    apply writes_seq; [apply writes_input|]. intros answer. untouched. }
  intros delete_choice.
  apply writes_seq.
  { destruct (String.eqb delete_choice "y"); [|untouched].
    apply writes_seq; [untouched|]. intros _. apply writes_delete_originals. }
  intros _.
  apply writes_seq; [apply writes_csv_export; exact Hr|]. intros _. untouched.
Qed.

End Coordinator.


(** ** The rows of the report *)

Lemma post_lift {A} (r : result A) : post (lift r) (fun a => r = Ok a).
Proof. intros st a st' E. unfold lift in E. injection E as -> _. reflexivity. Qed.

Lemma post_skip mp3 b s reason acc :
  post (skip mp3 b s reason acc) (fun acc' => acc' = push_row (skip_row mp3 b s reason) acc).
Proof. intros st a st' E. unfold skip, bind, log, ret in E. injection E as <- _. reflexivity. Qed.

Lemma row_ok_skip mp3 b s reason :
  blank_or_int b = true -> blank_or_int s = true ->
  row_ok (skip_row mp3 b s reason) = true.
Proof. intros Hb Hs. unfold row_ok, skip_row. cbn. rewrite Hb, Hs. reflexivity. Qed.

Lemma row_ok_pass mp3 bitrate size estimated_size savings_bytes p :
  F64.is_finite p = true ->
  row_ok (pass_row mp3 bitrate size estimated_size savings_bytes p) = true.
Proof. intros Hp. unfold row_ok, pass_row. cbn. apply format_2f_two_decimal, Hp. Qed.

Lemma row_ok_reduce r info :
  F64.is_finite (Res.savings_percent r) = true ->
  (forall i, info = Some i -> F64.is_finite (FileInfo.savings_percent i) = true) ->
  row_ok (reduce_row r info) = true.
Proof.
  intros Hr Hi. unfold row_ok, reduce_row.
  destruct info as [i|]; cbn; apply format_2f_two_decimal; auto.
Qed.

Lemma scan_ok_push row acc :
  row_ok row = true -> scan_ok acc -> scan_ok (push_row row acc).
Proof.
  intros Hrow (Hrows & Hitems & Hinfos). unfold scan_ok, push_row. cbn.
  split; [|auto]. apply Forall_app. auto.
Qed.

Lemma scan_ok_pass ffmpeg_cmd mp3 info estimated_size savings_bytes p acc :
  F64.is_finite p = true -> scan_ok acc ->
  scan_ok (pass ffmpeg_cmd mp3 info estimated_size savings_bytes p acc).
Proof.
  intros Hp (Hrows & Hitems & Hinfos). unfold scan_ok, pass. cbn.
  split; [|split].
  - apply Forall_app. split; [exact Hrows|]. constructor; [|constructor].
    apply row_ok_pass, Hp.
  - apply Forall_app. split; [exact Hitems|]. constructor; [exact Hp|constructor].
  - apply map_Forall_insert_2; [exact Hp|exact Hinfos].
Qed.

Lemma scan_ok_scan0 : scan_ok scan0.
Proof. unfold scan_ok, scan0. cbn. split; [constructor|]. split; [constructor|]. apply map_Forall_empty. Qed.

Section Rows.

Context (rt : Runtime).

Lemma post_preview_step ffmpeg_cmd ffprobe_cmd cutoff mp3 acc :
  (forall f info, ffprobe_audio_info rt f mp3 ffprobe_cmd = Some info ->
                  plausible_duration (Info.duration info) = true) ->
  scan_ok acc ->
  post (preview_step rt ffmpeg_cmd ffprobe_cmd cutoff mp3 acc) scan_ok.
Proof.
  intros Hwf Hacc. unfold preview_step.
  assert (Hskip : forall b s reason,
            blank_or_int b = true -> blank_or_int s = true ->
            post (skip mp3 b s reason acc) scan_ok).
  { intros b s reason Hb Hs st a st' E. rewrite (post_skip _ _ _ _ _ _ _ _ E).
    apply scan_ok_push; [apply row_ok_skip; assumption|exact Hacc]. }
  apply (post_bind _ _ (fun _ => True)); [apply post_true|]. intros f _.
  apply (post_bind _ _ (fun _ => True)); [apply post_true|]. intros sibling _.
  destruct sibling; [apply Hskip; reflexivity|].
  apply (post_bind _ _ (fun _ => True)); [apply post_true|]. intros outside _.
  destruct outside; [apply Hskip; reflexivity|].
  destruct (contains "_reduced" (lower (name mp3))); [apply Hskip; reflexivity|].
  apply (post_bind _ _ (fun _ => True)); [apply post_true|]. intros f' _.
  destruct (ffprobe_audio_info rt f' mp3 ffprobe_cmd) as [info|] eqn:Hprobe;
    [|apply Hskip; reflexivity].
  specialize (Hwf f' info Hprobe).
  destruct (Info.bitrate info <=? TARGET_BITRATE); [apply Hskip; reflexivity|].
  eapply post_bind; [apply post_lift|]. cbv beta. intros est Hest.
  destruct (estimate_ok (Info.duration info) Hwf) as [Hest' Hpos].
  rewrite Hest' in Hest. injection Hest as <-.
  destruct (Info.size info - Spec.estimatedSize (Info.duration info) <=? 0) eqn:Hsav;
    [apply Hskip; reflexivity|].
  apply Z.leb_gt in Hsav.
  eapply post_bind; [apply post_lift|]. cbv beta. intros p Hp.
  destruct (percent_ok (Info.size info - Spec.estimatedSize (Info.duration info))
              (Info.size info) ltac:(lia) ltac:(lia)) as [Hpct Hbelow].
  rewrite Hpct in Hp. injection Hp as <-.
  destruct (F64.ltb _ _); [apply Hskip; reflexivity|].
  intros st a st' E. unfold bind, log, ret in E. injection E as <- _.
  apply scan_ok_pass; [|exact Hacc]. eapply below_finite, Hbelow.
Qed.

Lemma post_preview ffmpeg_cmd ffprobe_cmd cutoff files : forall acc,
  (forall mp3 f info, In mp3 files ->
                      ffprobe_audio_info rt f mp3 ffprobe_cmd = Some info ->
                      plausible_duration (Info.duration info) = true) ->
  scan_ok acc ->
  post (preview rt ffmpeg_cmd ffprobe_cmd cutoff files acc) scan_ok.
Proof.
  induction files as [|mp3 rest IH]; intros acc Hwf Hacc; cbn [preview].
  - apply post_ret, Hacc.
  - eapply post_bind.
    + apply post_preview_step; [|exact Hacc]. intros f info. apply Hwf. left. reflexivity.
    + intros acc' Hacc'. apply IH; [|exact Hacc']. intros p f info Hin. apply Hwf.
      right. exact Hin.
Qed.

Lemma post_reduce_worker item :
  post (reduce_worker rt item)
       (fun r => Res.src r = Item.path item /\
                 Res.savings_percent r = Item.savings_percent item).
Proof.
  unfold reduce_worker.
  repeat (apply (post_bind _ _ (fun _ => True)); [apply post_true|]; intros ? _).
  apply post_ret. cbn. auto.
Qed.

Lemma post_collect_rows infos completed : forall acc,
  Forall (fun item => F64.is_finite (Item.savings_percent item) = true) completed ->
  map_Forall (fun _ i => F64.is_finite (FileInfo.savings_percent i) = true) infos ->
  Forall (fun row => row_ok row = true) (snd acc) ->
  post (collect rt infos completed acc)
       (fun r => Forall (fun row => row_ok row = true) (snd r)).
Proof.
  induction completed as [|item rest IH]; intros [[results count] rows] Hitems Hinfos Hrows;
    cbn [collect].
  - apply post_ret, Hrows.
  - inversion Hitems as [|? ? Hitem Hrest]; subst.
    eapply post_bind; [apply post_reduce_worker|]. cbv beta. intros r [Hsrc Hpct].
    apply (post_bind _ _ (fun _ => True)); [apply post_true|]. intros _ _.
    apply IH; [exact Hrest|exact Hinfos|]. cbn [snd] in *.
    apply Forall_app. split; [exact Hrows|]. constructor; [|constructor].
    apply row_ok_reduce; [rewrite Hpct; exact Hitem|].
    intros i Hi. exact (Hinfos _ _ Hi).
Qed.

(** C9. With no rows the CSV writer returns without writing: the export
    of an empty row list, also when the export is chosen, prints its message
    and creates no file, and a run whose directory walk yields no file
    leaves the CSV files as they were. *)
Theorem empty_report_writes_nothing args st path :
  (forall d, rglob_mp3 rt d = []) ->
  write_csv [] path st = (Ok tt, st) /\
  (Args.nocsv args = false -> Args.auto args = true ->
   csv_export rt args [] st =
     (Ok tt, with_console ("CSV report written to: " +:+ csv_name rt) st)) /\
  reports (snd (main rt args st)) = reports st.
Proof.
  intros Hempty. split; [reflexivity|]. split.
  { intros Hn Ha. unfold csv_export. rewrite Hn, Ha. reflexivity. }
  assert (H : writes_only (csv_name rt) (fun _ => False) (main rt args)).
  { apply (main_writes rt (fun _ => False) (fun scan => scan = scan0)).
    - intros ffmpeg_cmd ffprobe_cmd cutoff d. rewrite Hempty. cbn [preview].
      apply post_ret. reflexivity.
    - intros scan ->. left. reflexivity.
    - intros scan ->. cbn [reducible_files scan0 csv_rows file_info].
      pose proof (as_completed_perm rt []) as Hp.
      apply Permutation_nil_r in Hp. rewrite Hp. cbn [collect].
      apply post_ret. left. reflexivity. }
  destruct (H st) as [Hk|(rows & [] & _)]. exact Hk.
Qed.

(** ** The coordinator *)

Lemma reduced_name_total p : name p <> EmptyString -> exists dst, reduced_name p = Ok dst.
Proof.
  intros H. unfold reduced_name, with_name. destruct (name p); [congruence|eauto].
Qed.

Lemma reduce_worker_total item st :
  name (Item.path item) <> EmptyString ->
  (forall s, is_ok (resolve rt s) = true) ->
  (forall f cmd, is_ok (run_ffmpeg rt f cmd) = true) ->
  exists r st', reduce_worker rt item st = (Ok r, st') /\ Res.src r = Item.path item.
Proof.
  intros Hname Hres Hrun.
  destruct (reduced_name_total _ Hname) as [dst Hdst].
  assert (Hnorm : forall p, exists n, normalize_path rt p = Ok n).
  { intros p. unfold normalize_path. specialize (Hres (expandvars rt p)).
    destruct (resolve rt (expandvars rt p)); [cbn; eauto|discriminate]. }
  destruct (Hnorm (Item.path item)) as [nsrc Hnsrc].
  destruct (Hnorm dst) as [ndst Hndst].
  specialize (Hrun (fs st) (encode_cmd (Item.ffmpeg_cmd item) nsrc ndst)).
  destruct (run_ffmpeg rt (fs st) (encode_cmd (Item.ffmpeg_cmd item) nsrc ndst))
    as [[rc f']|e] eqn:Hff; [|discriminate].
  unfold reduce_worker.
  unfold bind at 1. unfold lift at 1. rewrite Hdst.
  unfold bind at 1. unfold lift at 1. rewrite Hnsrc.
  unfold bind at 1. unfold lift at 1. rewrite Hndst.
  unfold bind at 1. unfold run_encoder at 1. rewrite Hff.
  unfold bind at 1. unfold get_fs at 1. cbn [fs with_fs].
  unfold exists_, stat.
  destruct (f' !! dst) as [m|] eqn:Hm.
  - rewrite bool_decide_eq_true_2 by eauto.
    destruct (rc =? 0); cbn [andb rbind bind lift ret]; eexists _, _; split; reflexivity.
  - rewrite bool_decide_eq_false_2 by (intros [x Hx]; discriminate).
    rewrite andb_false_r. cbn [bind lift ret]. eexists _, _; split; reflexivity.
Qed.

Lemma collect_total infos completed : forall results count rows st,
  Forall (fun item => name (Item.path item) <> EmptyString) completed ->
  (forall s, is_ok (resolve rt s) = true) ->
  (forall f cmd, is_ok (run_ffmpeg rt f cmd) = true) ->
  exists new rows' st',
    collect rt infos completed (results, count, rows) st =
      (Ok ((results ++ new)%list, count + Z.of_nat (length completed), rows'), st') /\
    map Res.src new = map Item.path completed.
Proof.
  induction completed as [|item rest IH]; intros results count rows st Hnames Hres Hrun;
    cbn [collect].
  - exists [], rows, st. rewrite app_nil_r. cbn. rewrite Z.add_0_r. split; reflexivity.
  - inversion Hnames as [|? ? Hname Hrest]; subst.
    destruct (reduce_worker_total item st Hname Hres Hrun) as (r & st1 & Hw & Hsrc).
    unfold bind at 1. rewrite Hw. unfold bind at 1. unfold log at 1.
    destruct (IH (results ++ [r])%list (count + 1)
                 (rows ++ [reduce_row r (infos !! Res.src r)])%list
                 (with_log ("REDUCE (" +:+ format_2f (Res.savings_percent r) +:+ "%): "
                            +:+ Res.src r +:+ " → " +:+ Res.dst r +:+ " (success="
                            +:+ str_of_bool (Res.success r) +:+ ")") st1)
                 Hrest Hres Hrun) as (new & rows' & st' & Hc & Hmap).
    exists (r :: new), rows', st'. split.
    + rewrite Hc.
      replace (results ++ r :: new)%list with ((results ++ [r]) ++ new)%list
        by (rewrite <- app_assoc; reflexivity).
      replace (count + Z.of_nat (length (item :: rest)))
        with (count + 1 + Z.of_nat (length rest)) by (cbn [length]; lia).
      reflexivity.
    + cbn [map]. rewrite Hsrc, Hmap. reflexivity.
Qed.

(** C3 (as amended). When no worker raises (every path resolves, every
    encoder process can be run, every task has a file name), the loop over
    the completed futures returns one result per submitted task, whatever
    the return codes: as many results as tasks, the count equal to it, and
    the sources of the results a permutation of the sources of the tasks. *)
Theorem one_result_per_task infos tasks rows st :
  Forall (fun item => name (Item.path item) <> EmptyString) tasks ->
  (forall s, is_ok (resolve rt s) = true) ->
  (forall f cmd, is_ok (run_ffmpeg rt f cmd) = true) ->
  exists results rows' st',
    collect rt infos (as_completed rt tasks) ([], 0, rows) st =
      (Ok (results, Z.of_nat (length tasks), rows'), st') /\
    length results = length tasks /\
    Permutation (map Res.src results) (map Item.path tasks).
Proof.
  intros Hnames Hres Hrun.
  pose proof (as_completed_perm rt tasks) as Hperm.
  assert (Hnames' : Forall (fun item => name (Item.path item) <> EmptyString)
                           (as_completed rt tasks)).
  { apply Forall_forall. intros item Hin. rewrite Forall_forall in Hnames. apply Hnames.
    apply list_elem_of_In. apply list_elem_of_In in Hin. rewrite <- Hperm. exact Hin. }
  destruct (collect_total infos (as_completed rt tasks) [] 0 rows st Hnames' Hres Hrun)
    as (new & rows' & st' & Hc & Hmap).
  exists new, rows', st'. cbn [app] in Hc.
  rewrite (Permutation_length Hperm) in Hc. rewrite Z.add_0_l in Hc.
  split; [exact Hc|]. split.
  - rewrite <- (length_map Res.src new), Hmap, length_map. apply Permutation_length, Hperm.
  - rewrite Hmap. apply Permutation_map, Hperm.
Qed.

(** ** Fatal and contained errors *)


End Rows.

(** ** The theorems on the concrete world *)

Lemma demo_plausible_probes : plausible_probes Demo.rt.
Proof.
  intros d mp3 f ffprobe_cmd info Hin H.
  cbn [rglob_mp3 Demo.rt Demo.listing] in Hin.
  repeat (destruct Hin as [<-|Hin]; [
    unfold ffprobe_audio_info, ffprobe_body in H; cbn in H;
    try discriminate;
    try (destruct (stat f _); cbn in H; try discriminate;
         injection H as <-; reflexivity) |]).
  contradiction.
Qed.

Lemma eligibility_first_match_witness :
  Demo.files !! Spec.derivedPath "C:/music/d.mp3" = Some (Demo.meta 2880000 150) /\
  preview_step Demo.rt "ffmpeg" "ffprobe" None "C:/music/d.mp3" scan0 Demo.st
    = (Ok {| csv_rows :=
               [{| Row.filename := "d.mp3";
                   Row.bitrate := CStr ""; Row.size_bytes := CStr "";
                   Row.estimated_size_bytes := CStr "skip";
                   Row.savings_bytes := CStr "skip";
                   Row.savings_percent := CStr "skip";
                   Row.action := "SKIP";
                   Row.skip_reason := "_reduced version exists" |}];
             reducible_files := []; file_info := ∅; total_estimated_savings := 0 |},
       with_log "SKIP (_reduced version exists): d.mp3" Demo.st).
Proof.
  split; [vm_compute; reflexivity|].
  destruct (eligibility_first_match Demo.rt "ffmpeg" "ffprobe" None "C:/music/d.mp3" scan0
              Demo.st (Demo.meta 7200000 100)) as (Hstep & _).
  - vm_compute. reflexivity.
  - vm_compute. reflexivity.
  - intros info H. vm_compute in H. discriminate H.
  - rewrite Hstep. vm_compute. reflexivity.
Defined.

Lemma savings_formulas_witness :
  preview_step Demo.rt "ffmpeg" "ffprobe" None "C:/music/a.mp3" scan0 Demo.st =
    (Ok (push_row (skip_row "C:/music/a.mp3" (CInt 320000) (CInt 10000000)
                     "below threshold (4.00%)") scan0),
     with_log "SKIP (below threshold (4.00%)): a.mp3" Demo.st).
Proof.
  destruct (savings_formulas Demo.rt "ffmpeg" "ffprobe" None "C:/music/a.mp3" scan0
              Demo.st Demo.info_a) as (est & _ & _ & Hex).
  - vm_compute. reflexivity.
  - reflexivity.
  - vm_compute. reflexivity.
  - vm_compute. reflexivity.
  - reflexivity.
  - reflexivity.
  - destruct (Hex eq_refl eq_refl) as (_ & _ & _ & _ & Hstep). exact Hstep.
Defined.


Lemma probe_fails_closed_witness :
  preview_step Demo.rt "ffmpeg" "ffprobe" None "C:/music/e.mp3" scan0 Demo.st =
    (Ok (push_row (skip_row "C:/music/e.mp3" (CStr "") (CStr "") "no metadata") scan0),
     with_log ("SKIP (no metadata): " +:+ name "C:/music/e.mp3") Demo.st).
Proof.
  destruct (probe_fails_closed Demo.rt (fs Demo.st) "C:/music/e.mp3" "ffprobe")
    as (_ & _ & _ & _ & Hskip).
  apply Hskip.
  - reflexivity.
  - vm_compute. reflexivity.
  - reflexivity.
  - vm_compute. reflexivity.
  - vm_compute. reflexivity.
Defined.

Lemma worker_success_iff_witness :
  exists r,
    reduce_worker Demo.rt Demo.task Demo.st =
      (Ok r, with_fs (<["C:/music/b_reduced.mp3" := Demo.meta 2880000 200]> Demo.files)
               Demo.st) /\
    Res.success r = true.
Proof.
  destruct (worker_success_iff Demo.rt Demo.task Demo.st "C:/music/b_reduced.mp3"
              "C:/music/b.mp3" "C:/music/b_reduced.mp3" 0
              (<["C:/music/b_reduced.mp3" := Demo.meta 2880000 200]> Demo.files))
    as (r & Hrun & _ & _ & Hiff & _).
  - vm_compute. reflexivity.
  - reflexivity.
  - reflexivity.
  - reflexivity.
  - exists r. split; [exact Hrun|]. apply Hiff. split; [reflexivity|].
    exists (Demo.meta 2880000 200). split; [vm_compute; reflexivity|]. reflexivity.
Defined.

Lemma safe_delete_chain_witness :
  verify_and_delete Demo.rt "C:/music/b.mp3" "C:/music/b_reduced.mp3" "ffprobe" Demo.encoded =
    (Ok tt,
     with_log ("DELETE: " +:+ "C:/music/b.mp3" +:+ " → removed")
       (with_fs (delete "C:/music/b.mp3" (fs Demo.encoded)) Demo.encoded)).
Proof.
  destruct (safe_delete_chain Demo.rt "C:/music/b.mp3" "C:/music/b_reduced.mp3" "ffprobe"
              Demo.encoded (Demo.meta 7200000 100)) as (Heq & _).
  - vm_compute. reflexivity.
  - reflexivity.
  - intros r H. vm_compute in H. injection H as <-. reflexivity.
  - rewrite Heq. f_equal.
Defined.

Lemma empty_report_writes_nothing_witness :
  reports (snd (main Demo.empty_dir Demo.args Demo.st)) = reports Demo.st.
Proof.
  destruct (empty_report_writes_nothing Demo.empty_dir Demo.args Demo.st "report.csv")
    as (_ & _ & H).
  - intros d. reflexivity.
  - exact H.
Defined.

Lemma one_result_per_task_witness :
  exists results rows' st',
    collect Demo.rt ∅ (as_completed Demo.rt [Demo.task]) ([], 0, []) Demo.st =
      (Ok (results, Z.of_nat (length [Demo.task]), rows'), st') /\
    length results = length [Demo.task] /\
    Permutation (map Res.src results) (map Item.path [Demo.task]).
Proof.
  apply (one_result_per_task Demo.rt ∅ [Demo.task] [] Demo.st).
  - constructor; [|constructor]. vm_compute. discriminate.
  - intros s. reflexivity.
  - intros f cmd. cbn [run_ffmpeg Demo.rt]. unfold Demo.encode.
    destruct (last cmd); reflexivity.
Defined.

(** ** Where the code departs from the specification *)


(** With a worker process that dies, [future.result()] raises, the loop
    returns no result list and the exception leaves [main]. *)
Lemma crashed_worker_aborts_the_run :
  ~ always_one_result_per_task /\
  fst (collect Demo.crashing ∅ (as_completed Demo.crashing [Demo.task]) ([], 0, []) Demo.st)
    = Raise BrokenProcessPool /\
  fst (main Demo.crashing Demo.args Demo.st) = Raise BrokenProcessPool.
Proof.
  assert (H : fst (collect Demo.crashing ∅ (as_completed Demo.crashing [Demo.task])
                     ([], 0, []) Demo.st) = Raise BrokenProcessPool)
    by (vm_compute; reflexivity).
  split; [|split; [exact H|vm_compute; reflexivity]].
  intros Hall.
  destruct (Hall Demo.crashing ∅ [Demo.task] [] Demo.st) as (rs & c & rows' & st' & E & _).
  rewrite E in H. discriminate H.
Qed.


(** The report of the concrete world has a SKIP row with the probed bitrate
    and size, and another with both empty. *)
Lemma skip_rows_keep_bitrate_and_size :
  exists content,
    reports (snd (main Demo.rt Demo.args Demo.st)) !! csv_name Demo.rt = Some content /\
    In ["c.mp3"; "96000"; "2160000"; "skip"; "skip"; "skip"; "SKIP";
        "already 128 kbps or lower"] content /\
    In ["d.mp3"; ""; ""; "skip"; "skip"; "skip"; "SKIP"; "_reduced version exists"] content /\
    ~ Forall skip_row_all_skip content.
Proof.
  eexists. split; [vm_compute; reflexivity|].
  assert (Hc : In ["c.mp3"; "96000"; "2160000"; "skip"; "skip"; "skip"; "SKIP";
                   "already 128 kbps or lower"]
                  [["filename"; "bitrate"; "size_bytes"; "estimated_size_bytes";
                    "savings_bytes"; "savings_percent"; "action"; "skip_reason"];
                   ["a.mp3"; "320000"; "10000000"; "skip"; "skip"; "skip"; "SKIP";
                    "below threshold (4.00%)"];
                   ["b.mp3"; "320000"; "7200000"; "2880000"; "4320000"; "60.00"; "PASS"; ""];
                   ["c.mp3"; "96000"; "2160000"; "skip"; "skip"; "skip"; "SKIP";
                    "already 128 kbps or lower"];
                   ["track_reduced.mp3"; ""; ""; "skip"; "skip"; "skip"; "SKIP";
                    "already reduced"];
                   ["mix_REDUCED_v2.mp3"; ""; ""; "skip"; "skip"; "skip"; "SKIP";
                    "already reduced"];
                   ["d.mp3"; ""; ""; "skip"; "skip"; "skip"; "SKIP";
                    "_reduced version exists"];
                   ["d_reduced.mp3"; ""; ""; "skip"; "skip"; "skip"; "SKIP";
                    "already reduced"];
                   ["e.mp3"; ""; ""; "skip"; "skip"; "skip"; "SKIP"; "no metadata"];
                   ["b.mp3"; "320000"; "7200000"; "2880000"; "4320000"; "60.00";
                    "REDUCE"; ""]]).
  { do 3 right. left. reflexivity. }
  split; [exact Hc|]. split; [do 6 right; left; reflexivity|].
  intros Hall. rewrite Forall_forall in Hall.
  apply list_elem_of_In in Hc. specialize (Hall _ Hc eq_refl).
  destruct Hall as (Hb & _). discriminate.
Qed.



(** * Further properties of the program *)

(** ** Strings and paths *)

Lemma replace_backslash_clean s : has_char is_backslash (replace_backslash s) = false.
Proof.
  induction s as [|c t IH]; [reflexivity|].
  cbn [replace_backslash has_char]. rewrite IH, orb_false_r.
  unfold is_backslash. destruct (Ascii.eqb c (ascii_of_N 92)) eqn:E; [reflexivity|exact E].
Qed.

Lemma replace_backslash_fixed s :
  has_char is_backslash s = false -> replace_backslash s = s.
Proof.
  induction s as [|c t IH]; [reflexivity|].
  cbn [replace_backslash has_char]. intros H. apply orb_false_iff in H as [Hc Ht].
  unfold is_backslash in Hc. rewrite Hc, (IH Ht). reflexivity.
Qed.

Lemma is_space_replace c :
  is_space (if Ascii.eqb c (ascii_of_N 92) then ascii_of_N 47 else c) = is_space c.
Proof.
  destruct (Ascii.eqb c (ascii_of_N 92)) eqn:E; [|reflexivity].
  apply Ascii.eqb_eq in E. subst c. reflexivity.
Qed.

Lemma lstrip_replace s :
  lstrip_by is_space (replace_backslash s) = replace_backslash (lstrip_by is_space s).
Proof.
  induction s as [|c t IH]; [reflexivity|].
  cbn [replace_backslash lstrip_by]. rewrite is_space_replace.
  destruct (is_space c); [exact IH|reflexivity].
Qed.

Lemma rstrip_replace s :
  rstrip_by is_space (replace_backslash s) = replace_backslash (rstrip_by is_space s).
Proof.
  induction s as [|c t IH]; [reflexivity|].
  cbn [replace_backslash rstrip_by]. rewrite IH, is_space_replace.
  destruct (rstrip_by is_space t); cbn [replace_backslash]; [|reflexivity].
  destruct (is_space c); reflexivity.
Qed.

Lemma strip_replace s : strip (replace_backslash s) = replace_backslash (strip s).
Proof. unfold strip, strip_by. rewrite lstrip_replace, rstrip_replace. reflexivity. Qed.

Lemma lstrip_starts_clean p s : starts_clean p (lstrip_by p s).
Proof.
  induction s as [|c t IH]; [exact I|].
  cbn [lstrip_by]. destruct (p c) eqn:E; [exact IH|exact E].
Qed.

Lemma lstrip_fixed p s : starts_clean p s -> lstrip_by p s = s.
Proof. destruct s as [|c t]; [reflexivity|]. cbn. intros ->. reflexivity. Qed.

Lemma rstrip_starts_clean p s : starts_clean p s -> starts_clean p (rstrip_by p s).
Proof.
  destruct s as [|c t]; [intros _; exact I|].
  cbn [starts_clean rstrip_by]. intros H.
  destruct (rstrip_by p t); [rewrite H|]; exact H.
Qed.

Lemma rstrip_idem p s : rstrip_by p (rstrip_by p s) = rstrip_by p s.
Proof.
  induction s as [|c t IH]; [reflexivity|].
  cbn [rstrip_by]. destruct (rstrip_by p t) as [|c' t'] eqn:E.
  - destruct (p c) eqn:Ec; [reflexivity|]. cbn [rstrip_by]. rewrite Ec. reflexivity.
  - cbn [rstrip_by]. cbn [rstrip_by] in IH.
    destruct (rstrip_by p t') as [|c2 t2] eqn:E2.
    + destruct (p c') eqn:Ec'; [discriminate IH|]. injection IH as <-. reflexivity.
    + rewrite IH. reflexivity.
Qed.

Lemma strip_idem p s : strip_by p (strip_by p s) = strip_by p s.
Proof.
  unfold strip_by.
  rewrite (lstrip_fixed p (rstrip_by p (lstrip_by p s))).
  - apply rstrip_idem.
  - apply rstrip_starts_clean, lstrip_starts_clean.
Qed.

(** X1. The directory given by the user is normalized to a text without
    backslash and without leading ASCII white space, and normalizing twice
    changes nothing more; a path handed to the external tools has no
    backslash either. *)
Theorem normalization_removes_backslashes rt raw path n :
  normalize_path rt path = Ok n ->
  has_char is_backslash n = false /\
  has_char is_backslash (normalize_directory_input raw) = false /\
  starts_clean is_space (normalize_directory_input raw) /\
  normalize_directory_input (normalize_directory_input raw)
    = normalize_directory_input raw.
Proof.
  intros Hn. split; [|split; [|split]].
  - unfold normalize_path in Hn. destruct (resolve rt (expandvars rt path)); [|discriminate].
    cbn [rbind] in Hn. injection Hn as <-. apply replace_backslash_clean.
  - apply replace_backslash_clean.
  - unfold normalize_directory_input. rewrite <- strip_replace.
    unfold strip, strip_by. apply rstrip_starts_clean, lstrip_starts_clean.
  - unfold normalize_directory_input.
    rewrite strip_replace. unfold strip at 1. rewrite strip_idem. fold strip.
    apply replace_backslash_fixed, replace_backslash_clean.
Qed.

Lemma unicode_break_until c t :
  unicode_break (String c (until_linebreak t)) = true ->
  unicode_break (String c t) = true.
Proof.
  destruct t as [|b t1]; cbn [until_linebreak]; [auto|].
  destruct (is_linebreak b || unicode_break (String b t1)); [intros H; discriminate H|].
  unfold unicode_break.
  destruct ((N_of_ascii c =? 194) && (N_of_ascii b =? 133))%N; [reflexivity|].
  cbn [orb].
  destruct t1 as [|d t2]; cbn [until_linebreak]; [auto|].
  destruct (is_linebreak d || _); [intros H; discriminate H|auto].
Qed.

Lemma until_linebreak_clean s : has_break (until_linebreak s) = false.
Proof.
  induction s as [|c t IH]; [reflexivity|].
  cbn [until_linebreak].
  destruct (is_linebreak c || unicode_break (String c t)) eqn:E; [reflexivity|].
  apply orb_false_iff in E as [E1 E2].
  cbn [has_break]. rewrite E1, IH. cbn [orb]. rewrite orb_false_r.
  destruct (unicode_break (String c (until_linebreak t))) eqn:E3; [|reflexivity].
  apply unicode_break_until in E3. congruence.
Qed.

(** X2. The version line of the banner is one line: it is what the tool
    printed up to its first line break, with no line break of [splitlines]
    in it (the seven ASCII ones, U+0085, U+2028, U+2029), and it is the text
    [Unknown ffmpeg version] when the process cannot be launched or prints
    nothing. *)
Theorem version_is_one_line rt ffmpeg_cmd :
  has_break (get_ffmpeg_version rt ffmpeg_cmd) = false /\
  ((forall out, run_version rt [ffmpeg_cmd; "-version"] = Ok out -> out = EmptyString) ->
   get_ffmpeg_version rt ffmpeg_cmd = "Unknown ffmpeg version") /\
  (forall out, run_version rt [ffmpeg_cmd; "-version"] = Ok out -> out <> EmptyString ->
     get_ffmpeg_version rt ffmpeg_cmd = until_linebreak out /\
     String.prefix (get_ffmpeg_version rt ffmpeg_cmd) out = true).
Proof.
  unfold get_ffmpeg_version.
  destruct (run_version rt [ffmpeg_cmd; "-version"]) as [out|e]; cbn [rbind].
  - destruct out as [|c t]; cbn [first_line].
    + split; [reflexivity|]. split; [reflexivity|]. intros out H Hne. injection H as <-.
      congruence.
    + split; [apply until_linebreak_clean|]. split.
      * intros H. specialize (H _ eq_refl). discriminate.
      * intros out H _. injection H as <-. split; [reflexivity|].
        generalize (String c t). clear. intros s.
        induction s as [|a s IH]; [reflexivity|].
        cbn [until_linebreak]. destruct (is_linebreak a || _); [reflexivity|].
        cbn [String.prefix]. destruct (ascii_dec a a); [exact IH|congruence].
  - split; [reflexivity|]. split; [reflexivity|]. intros out H. discriminate.
Qed.

(** ** The derived name *)

Lemma split_last_plain n :
  has_char is_sep n = false -> split_last n = (EmptyString, n).
Proof.
  induction n as [|c t IH]; [reflexivity|].
  cbn [has_char split_last]. intros H. apply orb_false_iff in H as [Hc Ht].
  rewrite (IH Ht), Hc. reflexivity.
Qed.

Lemma split_last_with_name p n :
  has_char is_sep n = false ->
  split_last (fst (split_last p) +:+ n) = (fst (split_last p), n).
Proof.
  intros Hn. induction p as [|c t IH]; [apply split_last_plain, Hn|].
  cbn [split_last]. destruct (split_last t) as [d m]. cbn [fst] in IH.
  destruct d as [|x y].
  - destruct (is_sep c) eqn:Ec; cbn [fst].
    + rewrite append_cons, append_nil. cbn [split_last].
      rewrite (split_last_plain n Hn), Ec. reflexivity.
    + apply split_last_plain, Hn.
  - cbn [fst]. rewrite append_cons. cbn [split_last]. rewrite IH. reflexivity.
Qed.

Lemma split_last_join p : fst (split_last p) +:+ snd (split_last p) = p.
Proof.
  induction p as [|c t IH]; [reflexivity|].
  cbn [split_last]. destruct (split_last t) as [d m]. cbn [fst snd] in *.
  destruct d as [|x y].
  - rewrite append_nil in IH. subst m.
    destruct (is_sep c); reflexivity.
  - cbn [fst snd]. rewrite append_cons, IH. reflexivity.
Qed.

Lemma name_no_sep p : has_char is_sep (name p) = false.
Proof.
  unfold name. induction p as [|c t IH]; [reflexivity|].
  cbn [split_last]. destruct (split_last t) as [d m]. cbn [snd] in *.
  destruct d as [|x y]; [|exact IH].
  destruct (is_sep c) eqn:Ec; cbn [snd]; [exact IH|].
  cbn [has_char]. rewrite Ec, IH. reflexivity.
Qed.

Lemma has_char_substring p s : forall i j,
  has_char p s = false -> has_char p (substring i j s) = false.
Proof.
  induction s as [|c t IH]; intros i j H.
  - destruct i, j; reflexivity.
  - cbn [has_char] in H. apply orb_false_iff in H as [Hc Ht].
    destruct i as [|i]; cbn [substring].
    + destruct j as [|j]; [reflexivity|]. cbn [has_char]. rewrite Hc. apply IH, Ht.
    + apply IH, Ht.
Qed.

Lemma has_char_app p a b :
  has_char p (a +:+ b) = has_char p a || has_char p b.
Proof.
  induction a as [|c t IH]; [reflexivity|].
  rewrite append_cons. cbn [has_char]. rewrite IH, orb_assoc. reflexivity.
Qed.

Lemma stem_no_sep p : has_char is_sep (stem p) = false.
Proof.
  unfold stem. destruct (suffix_index (name p)).
  - apply has_char_substring, name_no_sep.
  - apply name_no_sep.
Qed.

Lemma length_append a b :
  String.length (a +:+ b) = (String.length a + String.length b)%nat.
Proof. induction a as [|c t IH]; [reflexivity|]. rewrite append_cons. cbn. rewrite IH. reflexivity. Qed.

Lemma rfind_marked a : rfind "."%char (a +:+ "_reduced.mp3") = Some (String.length a + 8)%nat.
Proof.
  induction a as [|c t IH]; [reflexivity|].
  rewrite append_cons. cbn [rfind String.length]. rewrite IH. reflexivity.
Qed.

Lemma substring_skip a b : forall j,
  substring (String.length a) j (a +:+ b) = substring 0 j b.
Proof.
  induction a as [|c t IH]; intros j; [reflexivity|].
  rewrite append_cons. cbn [String.length substring]. apply IH.
Qed.

Lemma substring_skip_more a b i j :
  substring (String.length a + i) j (a +:+ b) = substring i j b.
Proof.
  induction a as [|c t IH]; [reflexivity|].
  rewrite append_cons. cbn [String.length substring Nat.add]. apply IH.
Qed.

Lemma substring_take a b k :
  substring 0 (String.length a + k) (a +:+ b) = a +:+ substring 0 k b.
Proof.
  induction a as [|c t IH]; [reflexivity|].
  rewrite !append_cons. cbn [String.length substring Nat.add]. rewrite IH. reflexivity.
Qed.

Lemma suffix_index_marked a :
  suffix_index (a +:+ "_reduced.mp3") = Some (String.length a + 8)%nat.
Proof.
  unfold suffix_index. rewrite rfind_marked, length_append.
  replace ((0 <? String.length a + 8)%nat) with true
    by (symmetry; apply Nat.ltb_lt; lia).
  replace ((String.length a + 8 <? String.length a + String.length "_reduced.mp3" - 1)%nat)
    with true by (symmetry; apply Nat.ltb_lt; cbn; lia).
  reflexivity.
Qed.

Lemma prefix_app x b : String.prefix x (x +:+ b) = true.
Proof.
  induction x as [|c t IH]; [rewrite append_nil; destruct b; reflexivity|].
  rewrite append_cons. cbn [String.prefix]. destruct (ascii_dec c c); [exact IH|congruence].
Qed.

Lemma contains_app x a b : contains x (a +:+ x +:+ b) = true.
Proof.
  induction a as [|c t IH].
  - rewrite append_nil. destruct (x +:+ b) eqn:E; cbn [contains];
      rewrite <- E, prefix_app; reflexivity.
  - rewrite append_cons. cbn [contains]. rewrite IH. apply orb_true_r.
Qed.

Lemma lower_app a b : lower (a +:+ b) = lower a +:+ lower b.
Proof.
  induction a as [|c t IH]; [reflexivity|].
  rewrite append_cons. cbn [lower]. rewrite IH. reflexivity.
Qed.

(** X3. The derived path of a file lies in the same directory, is named
    [<stem>_reduced.mp3], is never the file itself, has the suffix [.mp3]
    and carries the marker of rule 3: a later scan finds it and skips it. *)
Theorem derived_name_is_marked p dst :
  reduced_name p = Ok dst ->
  fst (split_last dst) = fst (split_last p) /\
  name dst = stem p +:+ "_reduced.mp3" /\
  dst <> p /\
  suffix dst = ".mp3" /\
  stem dst = stem p +:+ "_reduced" /\
  contains "_reduced" (lower (name dst)) = true.
Proof.
  unfold reduced_name, with_name. intros H.
  destruct (name p) eqn:En; [discriminate|]. injection H as <-.
  assert (Hsep : has_char is_sep (stem p +:+ "_reduced.mp3") = false).
  { rewrite has_char_app, stem_no_sep. reflexivity. }
  pose proof (split_last_with_name p _ Hsep) as Hsplit.
  assert (Hname : name (fst (split_last p) +:+ stem p +:+ "_reduced.mp3")
                  = stem p +:+ "_reduced.mp3").
  { unfold name. rewrite Hsplit. reflexivity. }
  assert (Hstem : stem (fst (split_last p) +:+ stem p +:+ "_reduced.mp3")
                  = stem p +:+ "_reduced").
  { unfold stem at 1. rewrite Hname, suffix_index_marked.
    apply (substring_take (stem p) "_reduced.mp3" 8). }
  split; [rewrite Hsplit; reflexivity|]. split; [exact Hname|]. split; [|split; [|split]].
  - intros Heq. rewrite Heq in Hstem.
    apply (f_equal String.length) in Hstem. rewrite length_append in Hstem.
    cbn in Hstem. lia.
  - unfold suffix. rewrite Hname, suffix_index_marked, length_append.
    replace (String.length (stem p) + String.length "_reduced.mp3"
             - (String.length (stem p) + 8))%nat with 4%nat by (cbn; lia).
    apply (substring_skip_more (stem p) "_reduced.mp3" 8 4).
  - exact Hstem.
  - rewrite Hname, lower_app.
    apply (contains_app "_reduced" (lower (stem p)) ".mp3").
Qed.

(** ** The sibling test and the probe *)

(** X4. The sibling test answers [False] for a file whose suffix is not
    [.mp3] in any letter case, whatever the file system holds. For a file
    with that suffix the derived name is well formed (the [ValueError] of
    [with_name] is out of reach behind the suffix test): it is the stem
    with [_reduced.mp3] in the directory of the file, and an answer of the
    test is whether that path is in the file system. *)
Theorem sibling_test_answer p :
  (String.eqb (lower (suffix p)) ".mp3" = false ->
   forall f, reduced_exists f p = Ok false) /\
  (String.eqb (lower (suffix p)) ".mp3" = true ->
   reduced_name p = Ok (fst (split_last p) +:+ stem p +:+ "_reduced.mp3") /\
   forall f b, reduced_exists f p = Ok b ->
               b = bool_decide (is_Some (f !! (fst (split_last p) +:+ stem p
                                              +:+ "_reduced.mp3")))).
Proof.
  split.
  - intros H f. unfold reduced_exists. rewrite H. reflexivity.
  - intros H. split; [exact (proj1 (reduced_exists_derived ∅ p H))|].
    intros f b E. rewrite (proj2 (reduced_exists_derived f p H)) in E.
    injection E as <-. reflexivity.
Qed.

Section Probe.

Context (rt : Runtime).

(** X5. A probe that succeeds had a process that ran and printed
    something, an output that decoded, a bitrate and a duration that were
    present and converted, and a file that is there: the size of the result
    is the size of the file in the file system, not a field of the probe. *)
Theorem probe_success_shape f path ffprobe_cmd info :
  ffprobe_audio_info rt f path ffprobe_cmd = Some info ->
  exists npath out data b d meta,
    normalize_path rt path = Ok npath /\
    run_ffprobe rt f (probe_cmd ffprobe_cmd npath) = Ok out /\
    nonempty (strip out) = true /\
    json_loads rt out = Some data /\
    stream_bit_rate data = Ok b /\ is_none b = false /\
    py_int rt b = Ok (Info.bitrate info) /\
    format_duration data = Ok d /\ is_none d = false /\
    py_float rt d = Ok (Info.duration info) /\
    f !! path = Some meta /\ Info.size info = st_size meta.
Proof.
  unfold ffprobe_audio_info, ffprobe_body. intros H.
  destruct (normalize_path rt path) as [npath|] eqn:Hn; cbn [rbind] in H; [|discriminate].
  destruct (run_ffprobe rt f (probe_cmd ffprobe_cmd npath)) as [out|] eqn:Hrun;
    cbn [rbind] in H; [|discriminate].
  destruct (nonempty (strip out)) eqn:Hout; cbn [negb] in H; [|discriminate].
  destruct (json_loads rt out) as [data|] eqn:Hload; cbn [rbind] in H; [|discriminate].
  destruct (stream_bit_rate data) as [b|] eqn:Hb; cbn [rbind] in H; [|discriminate].
  destruct (format_duration data) as [d|] eqn:Hd; cbn [rbind] in H; [|discriminate].
  destruct (is_none b) eqn:Hnb; cbn [negb rbind] in H.
  { destruct (negb (is_none d)); [destruct (py_float rt d)|]; cbn [rbind] in H;
      try discriminate; destruct (stat f path); cbn [rbind] in H; discriminate. }
  destruct (py_int rt b) as [bi|] eqn:Hbi; cbn [rbind] in H; [|discriminate].
  destruct (is_none d) eqn:Hnd; cbn [negb rbind] in H.
  { destruct (stat f path); cbn [rbind] in H; discriminate. }
  destruct (py_float rt d) as [df|] eqn:Hdf; cbn [rbind] in H; [|discriminate].
  unfold stat in H. destruct (f !! path) as [meta|] eqn:Hm; cbn [rbind] in H; [|discriminate].
  injection H as <-. cbn.
  exists npath, out, data, b, d, meta. repeat split; auto.
Qed.

(** ** One step of the preview loop, read backwards *)

Lemma preview_step_inv ffmpeg_cmd ffprobe_cmd cutoff mp3 acc st acc' st' :
  preview_step rt ffmpeg_cmd ffprobe_cmd cutoff mp3 acc st = (Ok acc', st') ->
  (exists b s reason,
     acc' = push_row (skip_row mp3 b s reason) acc /\
     st' = with_log ("SKIP (" +:+ reason +:+ "): " +:+ name mp3) st) \/
  (exists info est pct,
     reduced_exists (fs st) mp3 = Ok false /\
     contains "_reduced" (lower (name mp3)) = false /\
     ffprobe_audio_info rt (fs st) mp3 ffprobe_cmd = Some info /\
     TARGET_BITRATE < Info.bitrate info /\
     estimate (Info.duration info) = Ok est /\
     0 < Info.size info - est /\
     percent (Info.size info - est) (Info.size info) = Ok pct /\
     F64.ltb pct (F64.of_Z MIN_SAVINGS_PERCENT) = false /\
     acc' = pass ffmpeg_cmd mp3 info est (Info.size info - est) pct acc /\
     st' = with_log ("PASS (reducible " +:+ format_2f pct +:+ "%): " +:+ name mp3) st).
Proof.
  assert (Hskip : forall b s reason st0,
            skip mp3 b s reason acc st0 = (Ok acc', st') ->
            st0 = st ->
            exists b s reason,
              acc' = push_row (skip_row mp3 b s reason) acc /\
              st' = with_log ("SKIP (" +:+ reason +:+ "): " +:+ name mp3) st).
  { intros b s reason st0 E ->. unfold skip, bind, log, ret in E.
    injection E as <- <-. eauto. }
  unfold preview_step. unfold bind at 1. unfold get_fs at 1.
  unfold bind at 1. unfold lift at 1.
  destruct (reduced_exists (fs st) mp3) as [sibling|] eqn:Hsib; [|discriminate].
  destruct sibling; [intros E; left; eapply Hskip; eauto|].
  unfold bind at 1.
  assert (Hout : forall r st0, outside_window cutoff mp3 st = (r, st0) -> st0 = st).
  { intros r st0. unfold outside_window. destruct cutoff; [|intros E; injection E; auto].
    unfold statM, bind, get_fs, lift. destruct (stat (fs st) mp3); cbn; intros E;
      injection E; auto. }
  destruct (outside_window cutoff mp3 st) as [[outside|] st0] eqn:Ho; [|discriminate].
  pose proof (Hout _ _ eq_refl) as ->.
  destruct outside; [intros E; left; eapply Hskip; eauto|].
  destruct (contains "_reduced" (lower (name mp3))) eqn:Hmark;
    [intros E; left; eapply Hskip; eauto|].
  unfold bind at 1. unfold get_fs at 1.
  destruct (ffprobe_audio_info rt (fs st) mp3 ffprobe_cmd) as [info|] eqn:Hprobe;
    [|intros E; left; eapply Hskip; eauto].
  destruct (Info.bitrate info <=? TARGET_BITRATE) eqn:Hrate;
    [intros E; left; eapply Hskip; eauto|].
  apply Z.leb_gt in Hrate.
  unfold bind at 1. unfold lift at 1.
  destruct (estimate (Info.duration info)) as [est|] eqn:Hest; [|discriminate].
  destruct (Info.size info - est <=? 0) eqn:Hsav;
    [intros E; left; eapply Hskip; eauto|].
  apply Z.leb_gt in Hsav.
  unfold bind at 1. unfold lift at 1.
  destruct (percent (Info.size info - est) (Info.size info)) as [pct|] eqn:Hpct;
    [|discriminate].
  destruct (F64.ltb pct (F64.of_Z MIN_SAVINGS_PERCENT)) eqn:Hlt;
    [intros E; left; eapply Hskip; eauto|].
  intros E. unfold bind, log, ret in E. injection E as <- <-.
  right. exists info, est, pct. repeat split; auto.
Qed.

End Probe.

(** ** Frames: what a computation leaves alone *)

Lemma keeps_bind {X A B} (proj : State -> X) (c : M A) (k : A -> M B) (Q : A -> Prop) :
  keeps proj c -> post c Q -> (forall a, Q a -> keeps proj (k a)) ->
  keeps proj (bind c k).
Proof.
  intros Hc Hq Hk st. unfold bind. specialize (Hc st).
  destruct (c st) as [[a|e] st1] eqn:Ec; cbn [snd] in Hc; [|exact Hc].
  rewrite (Hk a (Hq _ _ _ Ec) st1). exact Hc.
Qed.

Lemma keeps_seq {X A B} (proj : State -> X) (c : M A) (k : A -> M B) :
  keeps proj c -> (forall a, keeps proj (k a)) -> keeps proj (bind c k).
Proof. intros Hc Hk. apply (keeps_bind proj c k (fun _ => True)); auto using post_true. Qed.

Lemma keeps_try {X A} (proj : State -> X) (c : M A) (h : exn -> M A) :
  keeps proj c -> (forall e, keeps proj (h e)) -> keeps proj (try_except c h).
Proof.
  intros Hc Hh st. unfold try_except. specialize (Hc st).
  destruct (c st) as [[a|e] st1]; cbn [snd] in Hc; [exact Hc|].
  rewrite (Hh e st1). exact Hc.
Qed.

Lemma keeps_pure {X A} (proj : State -> X) (c : M A) :
  (forall st, snd (c st) = st) -> keeps proj c.
Proof. intros H st. rewrite H. reflexivity. Qed.

Section Frame.

Context (rt : Runtime) {X : Type} (proj : State -> X) (args : Args.t).

Hypothesis Hlog : forall msg st, proj (with_log msg st) = proj st.
Hypothesis Hcon : forall msg st, proj (with_console msg st) = proj st.
Hypothesis Hin :
  Args.auto args = true \/ forall rest st, proj (with_stdin rest st) = proj st.
Hypothesis Hrep :
  Args.nocsv args = true \/ forall p c st, proj (with_report p c st) = proj st.
Hypothesis Hfs :
  (forall f st, proj (with_fs f st) = proj st) \/
  (forall ffmpeg_cmd ffprobe_cmd cutoff d,
     post (preview rt ffmpeg_cmd ffprobe_cmd cutoff (rglob_mp3 rt d) scan0)
          (fun scan => reducible_files scan = [])).

Lemma keeps_log msg : keeps proj (log msg).
Proof. intros st. apply Hlog. Qed.

Lemma keeps_print msg : keeps proj (print msg).
Proof. intros st. apply Hcon. Qed.

Lemma keeps_lift {A} (r : result A) : keeps proj (lift r).
Proof. apply keeps_pure. reflexivity. Qed.

Lemma keeps_ret {A} (a : A) : keeps proj (ret a).
Proof. apply keeps_pure. reflexivity. Qed.

Lemma keeps_get_fs : keeps proj get_fs.
Proof. apply keeps_pure. reflexivity. Qed.

Lemma keeps_statM p : keeps proj (statM p).
Proof. unfold statM. apply keeps_seq; [apply keeps_get_fs|]. intros f. apply keeps_lift. Qed.

Ltac kept :=
  repeat first
    [ apply keeps_log | apply keeps_print | apply keeps_lift | apply keeps_ret
    | apply keeps_get_fs | apply keeps_statM
    | apply keeps_seq; [|intros ?]
    | apply keeps_try; [|intros ?]
    | match goal with
      | |- keeps _ (if ?b then _ else _) => destruct b
      | |- keeps _ (match ?x with _ => _ end) => destruct x
      end ].

Lemma keeps_skip mp3 b s reason acc : keeps proj (skip mp3 b s reason acc).
Proof. unfold skip. kept. Qed.

Lemma keeps_preview_step ffmpeg_cmd ffprobe_cmd cutoff mp3 acc :
  keeps proj (preview_step rt ffmpeg_cmd ffprobe_cmd cutoff mp3 acc).
Proof.
  unfold preview_step, outside_window.
  repeat first [ apply keeps_skip | progress kept ].
Qed.

Lemma keeps_preview ffmpeg_cmd ffprobe_cmd cutoff files : forall acc,
  keeps proj (preview rt ffmpeg_cmd ffprobe_cmd cutoff files acc).
Proof.
  induction files as [|mp3 rest IH]; intros acc; cbn [preview]; [kept|].
  apply keeps_seq; [apply keeps_preview_step|]. intros acc'. apply IH.
Qed.

Lemma keeps_print_reducible items : keeps proj (print_reducible items).
Proof.
  induction items as [|item rest IH]; cbn [print_reducible]; [kept|].
  apply keeps_seq; [kept|]. intros _. exact IH.
Qed.

Lemma keeps_input prompt :
  (forall rest st, proj (with_stdin rest st) = proj st) -> keeps proj (input prompt).
Proof.
  intros H st. unfold input. destruct (stdin st); cbn [snd]; [apply Hcon|].
  rewrite H. apply Hcon.
Qed.

(** A prompt that the automatic mode skips. *)
Lemma keeps_ask {A} (quiet : M A) (prompt : string) (k : string -> M A) :
  keeps proj quiet -> (forall answer, keeps proj (k answer)) ->
  keeps proj (if Args.auto args then quiet else bind (input prompt) k).
Proof.
  intros Hq Hk. destruct Hin as [-> | H]; [exact Hq|].
  destruct (Args.auto args); [exact Hq|].
  apply keeps_seq; [apply keeps_input, H|exact Hk].
Qed.

Lemma keeps_select_directory : keeps proj (select_directory rt args).
Proof.
  unfold select_directory.
  destruct (Args.dir args) as [d|]; [destruct (nonempty d); [kept|]|];
    apply keeps_ask; try (intros ?); kept.
Qed.

Lemma keeps_select_minutes : keeps proj (select_minutes rt args).
Proof.
  unfold select_minutes. destruct (Args.minutes args); [kept|].
  apply keeps_ask; try (intros ?); kept.
Qed.

Lemma keeps_select_cutoff minutes : keeps proj (select_cutoff rt minutes).
Proof. unfold select_cutoff. kept. Qed.

Lemma keeps_write_csv rows path :
  (forall p c st, proj (with_report p c st) = proj st) ->
  keeps proj (write_csv rows path).
Proof. intros H st. unfold write_csv. destruct rows; cbn [snd]; [reflexivity|apply H]. Qed.

Lemma keeps_csv_export rows : keeps proj (csv_export rt args rows).
Proof.
  unfold csv_export.
  destruct Hrep as [Hn | Hr].
  - rewrite Hn. cbn [negb]. kept.
  - apply keeps_seq.
    + destruct (negb (Args.nocsv args)); [|kept].
      destruct Hin as [Ha | Hs]; [rewrite Ha; cbn [negb]; kept|].
      destruct (negb (Args.auto args)); [|kept].
      apply keeps_seq; [apply keeps_input, Hs|]. intros choice. kept.
    + intros export_csv. destruct export_csv; [|kept].
      apply keeps_seq; [apply keeps_write_csv, Hr|]. intros _. kept.
Qed.

Section Touching.

Hypothesis Hwith_fs : forall f st, proj (with_fs f st) = proj st.

Lemma keeps_run_encoder cmd : keeps proj (run_encoder rt cmd).
Proof.
  intros st. unfold run_encoder.
  destruct (run_ffmpeg rt (fs st) cmd) as [[rc f']|e]; cbn [snd]; [apply Hwith_fs|reflexivity].
Qed.

Lemma keeps_reduce_worker item : keeps proj (reduce_worker rt item).
Proof. unfold reduce_worker. repeat first [ apply keeps_run_encoder | progress kept ]. Qed.

Lemma keeps_collect infos completed : forall acc,
  keeps proj (collect rt infos completed acc).
Proof.
  induction completed as [|item rest IH]; intros [[results count] rows];
    cbn [collect]; [kept|].
  apply keeps_seq; [apply keeps_reduce_worker|]. intros r.
  apply keeps_seq; [kept|]. intros _. apply IH.
Qed.

Lemma keeps_set_fs f : keeps proj (set_fs f).
Proof. intros st. apply Hwith_fs. Qed.

Lemma keeps_unlink p : keeps proj (unlink rt p).
Proof.
  unfold unlink. apply keeps_seq; [kept|]. intros f.
  destruct (exists_ f p && negb (unlink_denied rt p)); [|kept].
  intros st. apply Hwith_fs.
Qed.

Lemma keeps_verify original reduced ffprobe_cmd :
  keeps proj (verify_and_delete rt original reduced ffprobe_cmd).
Proof.
  unfold verify_and_delete, verify_and_delete_body.
  repeat first [ apply keeps_unlink | apply keeps_set_fs | progress kept ].
Qed.

Lemma keeps_delete_originals ffprobe_cmd results :
  keeps proj (delete_originals rt ffprobe_cmd results).
Proof.
  induction results as [|r rest IH]; cbn [delete_originals]; [kept|].
  apply keeps_seq; [|intros _; exact IH].
  destruct (negb (Res.success r)); [kept|].
  apply keeps_seq; [kept|]. intros f.
  destruct (negb (exists_ f (Res.src r))); [kept|apply keeps_verify].
Qed.

End Touching.

(** [main] leaves [proj] alone when the steps that could touch it are
    either harmless for [proj] or out of reach. *)
Lemma main_keeps : keeps proj (main rt args).
Proof.
  unfold main.
  destruct detect_ffmpeg_windows_only as [[ffmpeg_cmd ffprobe_cmd]|e]; [|kept].
  apply keeps_seq; [kept|]. intros _.
  apply keeps_seq; [kept|]. intros _.
  apply keeps_seq; [kept|]. intros _.
  apply keeps_seq; [kept|]. intros _.
  apply keeps_seq; [apply keeps_select_directory|]. intros raw_dir.
  destruct (negb (dir_exists rt (normalize_directory_input raw_dir))); [kept|].
  apply keeps_seq; [apply keeps_select_minutes|]. intros minutes.
  apply keeps_seq; [apply keeps_select_cutoff|]. intros cutoff.
  apply keeps_seq; [kept|]. intros _.
  apply (keeps_bind _ _ _
           (fun scan => (forall f st, proj (with_fs f st) = proj st)
                        \/ reducible_files scan = [])).
  { apply keeps_preview. }
  { destruct Hfs as [H|H].
    - intros st a st' _. left. exact H.
    - intros st a st' E. right. exact (H _ _ _ _ _ _ _ E). }
  intros scan Hscan.
  apply keeps_seq; [kept|]. intros _.
  destruct (reducible_files scan) as [|item items] eqn:Hitems.
  { apply keeps_seq; [kept|]. intros _.
    apply keeps_seq; [kept|]. intros _. apply keeps_csv_export. }
  destruct Hscan as [Hwith_fs|Hnone]; [|discriminate].
  apply keeps_seq; [kept|]. intros _.
  apply keeps_seq; [apply keeps_print_reducible|]. intros _.
  apply keeps_seq; [kept|]. intros mb.
  apply keeps_seq; [kept|]. intros _.
  apply keeps_seq.
  { apply keeps_ask; [kept|]. intros answer. kept. }
  intros choice.
  destruct (negb (String.eqb choice "y")).
  { apply keeps_seq; [kept|]. intros _.
    apply keeps_seq; [kept|]. intros _. apply keeps_csv_export. }
  apply keeps_seq; [kept|]. intros _.
  apply keeps_seq; [apply keeps_collect, Hwith_fs|]. intros [[reduction_results count] rows].
  apply keeps_seq; [kept|]. intros _.
  apply keeps_seq; [kept|]. intros _.
  apply keeps_seq; [kept|]. intros _.
  apply keeps_seq.
  { apply keeps_ask; [kept|]. intros answer. kept. }
  intros delete_choice.
  apply keeps_seq.
  { destruct (String.eqb delete_choice "y"); [|kept].
    apply keeps_seq; [kept|]. intros _. apply keeps_delete_originals, Hwith_fs. }
  intros _.
  apply keeps_seq; [apply keeps_csv_export|]. intros _. kept.
Qed.

End Frame.

(** ** The scan as a whole *)

Section Scan.

Context (rt : Runtime).

Lemma preview_inv (I : Scan -> Prop) ffmpeg_cmd ffprobe_cmd cutoff files :
  (forall mp3 acc acc' st st',
     In mp3 files -> I acc ->
     preview_step rt ffmpeg_cmd ffprobe_cmd cutoff mp3 acc st = (Ok acc', st') ->
     I acc') ->
  forall acc st acc' st',
    I acc ->
    preview rt ffmpeg_cmd ffprobe_cmd cutoff files acc st = (Ok acc', st') ->
    I acc'.
Proof.
  induction files as [|mp3 rest IH]; intros Hstep acc st acc' st' Hacc E; cbn [preview] in E.
  - injection E as <- _. exact Hacc.
  - unfold bind in E.
    destruct (preview_step rt ffmpeg_cmd ffprobe_cmd cutoff mp3 acc st)
      as [[acc1|e] st1] eqn:E1; [|discriminate].
    apply (IH (fun p a a' s s' Hin => Hstep p a a' s s' (or_intror Hin)) acc1 st1 acc' st');
      [|exact E].
    apply (Hstep mp3 acc acc1 st st1); [left; reflexivity|exact Hacc|exact E1].
Qed.

(** X6. The scan reads and logs, nothing else: whether it returns or
    raises, it leaves the files, the console, the standard input and the
    CSV files as they were; when it returns, it has appended one row per
    listed file, in the order of the listing and under the file's name, and
    one log line per file. *)
Theorem scan_is_read_only ffmpeg_cmd ffprobe_cmd cutoff files acc st :
  let out := preview rt ffmpeg_cmd ffprobe_cmd cutoff files acc st in
  fs (snd out) = fs st /\ console (snd out) = console st /\
  stdin (snd out) = stdin st /\ reports (snd out) = reports st /\
  (forall acc', fst out = Ok acc' ->
     length (logfile (snd out)) = (length (logfile st) + length files)%nat /\
     exists rows,
       csv_rows acc' = (csv_rows acc ++ rows)%list /\
       map Row.filename rows = map name files).
Proof.
  cbv zeta.
  split; [apply (keeps_preview rt fs (fun msg st0 => eq_refl))|].
  split; [apply (keeps_preview rt console (fun msg st0 => eq_refl))|].
  split; [apply (keeps_preview rt stdin (fun msg st0 => eq_refl))|].
  split; [apply (keeps_preview rt reports (fun msg st0 => eq_refl))|].
  intros acc' H.
  destruct (preview rt ffmpeg_cmd ffprobe_cmd cutoff files acc st) as [r st'] eqn:E.
  cbn [fst snd] in *. subst r. split.
  - revert acc st E.
    induction files as [|mp3 rest IH]; intros acc st E; cbn [preview] in *.
    + injection E as _ <-. cbn. lia.
    + unfold bind in *.
      destruct (preview_step rt ffmpeg_cmd ffprobe_cmd cutoff mp3 acc st)
        as [[acc1|e] st1] eqn:E1; [|discriminate].
      rewrite (IH acc1 st1 E).
      apply preview_step_inv in E1.
      destruct E1 as [(b & s & reason & _ & ->)|(info & est & pct & H)].
      * cbn. rewrite length_app. cbn. lia.
      * destruct H as (_ & _ & _ & _ & _ & _ & _ & _ & _ & ->).
        cbn. rewrite length_app. cbn. lia.
  - revert acc st E.
    induction files as [|mp3 rest IH]; intros acc st E; cbn [preview] in *.
    + injection E as <- _. exists []. rewrite app_nil_r. split; reflexivity.
    + unfold bind in *.
      destruct (preview_step rt ffmpeg_cmd ffprobe_cmd cutoff mp3 acc st)
        as [[acc1|e] st1] eqn:E1; [|discriminate].
      destruct (IH acc1 st1 E) as (rows & Hrows & Hnames).
      apply preview_step_inv in E1.
      destruct E1 as [(b & s & reason & -> & _)|(info & est & pct & H)].
      * eexists (_ :: rows). split.
        -- rewrite Hrows. cbn [push_row csv_rows]. rewrite <- app_assoc. reflexivity.
        -- cbn [map]. rewrite Hnames. reflexivity.
      * destruct H as (_ & _ & _ & _ & _ & _ & _ & _ & -> & _).
        eexists (_ :: rows). split.
        -- rewrite Hrows. cbn [pass csv_rows]. rewrite <- app_assoc. reflexivity.
        -- cbn [map]. rewrite Hnames. reflexivity.
Qed.

Lemma pass_conditions_more ffmpeg_cmd files files' item :
  (forall p, In p files -> In p files') ->
  pass_conditions ffmpeg_cmd files item -> pass_conditions ffmpeg_cmd files' item.
Proof. intros Hsub (H & Hrest). split; [apply Hsub, H|exact Hrest]. Qed.

(** X7. What the scan puts in [reducible_files]: a listed file whose name
    does not carry the marker, with a bitrate above 128000, an estimate that
    is [int(128000 * duration / 8)], savings that are the size minus the
    estimate and positive, and a percent that is not below 20; the entry
    carries the encoder command of the run. *)
Theorem reducible_files_passed_every_rule ffmpeg_cmd ffprobe_cmd cutoff files st scan st' :
  preview rt ffmpeg_cmd ffprobe_cmd cutoff files scan0 st = (Ok scan, st') ->
  Forall (pass_conditions ffmpeg_cmd files) (reducible_files scan).
Proof.
  apply (preview_inv
           (fun acc => Forall (pass_conditions ffmpeg_cmd files) (reducible_files acc))).
  - intros mp3 acc acc' st0 st1 Hin Hacc E.
    apply preview_step_inv in E.
    destruct E as [(b & s & reason & -> & _)|(info & est & pct & H)]; [exact Hacc|].
    destruct H as (_ & Hmark & _ & Hrate & Hest & Hsav & Hpct & Hlt & -> & _).
    cbn [pass reducible_files]. apply Forall_app. split; [exact Hacc|].
    constructor; [|constructor].
    unfold pass_conditions. cbn. repeat split; auto.
  - constructor.
Qed.

Lemma sum_savings_snoc items item :
  sum_savings (items ++ [item]) = sum_savings items + Item.savings_bytes item.
Proof.
  unfold sum_savings. induction items as [|x xs IH]; cbn [app fold_right]; [lia|].
  rewrite IH. lia.
Qed.

(** X8. The bookkeeping of the scan: [total_estimated_savings] is the sum
    of the savings of the reducible files and is positive as soon as there
    is one, and [file_info] has an entry exactly for the paths of the
    reducible files. *)
Theorem scan_bookkeeping ffmpeg_cmd ffprobe_cmd cutoff files st scan st' :
  preview rt ffmpeg_cmd ffprobe_cmd cutoff files scan0 st = (Ok scan, st') ->
  total_estimated_savings scan = sum_savings (reducible_files scan) /\
  (reducible_files scan <> [] -> 0 < total_estimated_savings scan) /\
  (forall p, is_Some (file_info scan !! p) <->
             exists item, In item (reducible_files scan) /\ Item.path item = p).
Proof.
  intros E.
  enough (Hinv :
            total_estimated_savings scan = sum_savings (reducible_files scan) /\
            (reducible_files scan <> [] -> 0 < total_estimated_savings scan) /\
            0 <= total_estimated_savings scan /\
            (forall p, is_Some (file_info scan !! p) <->
                       exists item, In item (reducible_files scan) /\ Item.path item = p))
    by tauto.
  revert E.
  apply (preview_inv
           (fun acc =>
              total_estimated_savings acc = sum_savings (reducible_files acc) /\
              (reducible_files acc <> [] -> 0 < total_estimated_savings acc) /\
              0 <= total_estimated_savings acc /\
              (forall p, is_Some (file_info acc !! p) <->
                         exists item, In item (reducible_files acc) /\ Item.path item = p))).
  - intros mp3 acc acc' st0 st1 Hin (Hsum & Hpos & Hnn & Hdom) E.
    apply preview_step_inv in E.
    destruct E as [(b & s & reason & -> & _)|(info & est & pct & H)]; [auto|].
    destruct H as (_ & _ & _ & _ & _ & Hsav & _ & _ & -> & _).
    cbn [pass reducible_files file_info total_estimated_savings].
    split; [rewrite sum_savings_snoc, Hsum; reflexivity|].
    split; [intros _; lia|]. split; [lia|].
    intros p. rewrite lookup_insert_is_Some, Hdom. split.
    + intros [<-|(Hne & item & Hitem & Hp)].
      * eexists. split; [apply in_or_app; right; left; reflexivity|reflexivity].
      * exists item. split; [apply in_or_app; left; exact Hitem|exact Hp].
    + intros (item & Hitem & Hp). apply in_app_or in Hitem as [Hitem|[<-|[]]].
      * destruct (decide (mp3 = p)) as [Heq|Hne]; [left; exact Heq|].
        right. split; [exact Hne|]. exists item. auto.
      * left. exact Hp.
  - cbn. split; [reflexivity|]. split; [congruence|]. split; [lia|].
    intros p. rewrite lookup_empty. split; [intros [x Hx]; discriminate|].
    intros (item & [] & _).
Qed.

(** ** Runs that leave things alone *)

(** X10. In automatic mode [main] never reads the standard input: what
    was there to read is still there when it returns or raises. *)
Theorem auto_mode_never_prompts args st :
  Args.auto args = true ->
  stdin (snd (main rt args st)) = stdin st.
Proof.
  intros Hauto.
  apply (main_keeps rt stdin args); auto.
Qed.

(** X11. With [--nocsv] no CSV file is written or changed, whatever the
    run does and whatever the user answers. *)
Theorem nocsv_writes_no_report args st :
  Args.nocsv args = true ->
  reports (snd (main rt args st)) = reports st.
Proof.
  intros Hnocsv.
  apply (main_keeps rt reports args); auto.
Qed.

(** X12. A directory that holds only files whose names carry the marker
    (the outputs of an earlier run) has nothing to reduce: the run leaves
    the files that it scans, encodes and deletes as they were, whatever the
    command line and the answers, and what it writes is its own log and, at
    most, its report, whose rows are all SKIP rows. *)
Theorem derived_files_are_left_alone args st :
  (forall d, Forall (fun p => contains "_reduced" (lower (name p)) = true) (rglob_mp3 rt d)) ->
  fs (snd (main rt args st)) = fs st /\
  (reports (snd (main rt args st)) = reports st \/
   exists rows,
     Forall (fun row => Row.action row = "SKIP") rows /\
     reports (snd (main rt args st)) =
       <[csv_name rt := columns :: map row_cells rows]> (reports st)).
Proof.
  intros Hmarked.
  assert (Hnone : forall ffmpeg_cmd ffprobe_cmd cutoff d,
            post (preview rt ffmpeg_cmd ffprobe_cmd cutoff (rglob_mp3 rt d) scan0)
                 (fun scan => reducible_files scan = [] /\
                              Forall (fun row => Row.action row = "SKIP") (csv_rows scan))).
  { intros ffmpeg_cmd ffprobe_cmd cutoff d st0 scan st1 E.
    revert E.
    apply (preview_inv (fun acc => reducible_files acc = [] /\
                          Forall (fun row => Row.action row = "SKIP") (csv_rows acc)));
      [|split; [reflexivity|constructor]].
    intros mp3 acc acc' s0 s1 Hin (Hacc & Hrows) E.
    apply preview_step_inv in E.
    destruct E as [(b & sz & reason & -> & _)|(info & est & pct & H)].
    - split; [exact Hacc|]. cbn [push_row csv_rows]. apply Forall_app.
      split; [exact Hrows|]. constructor; [reflexivity|constructor].
    - destruct H as (_ & Hmark & _).
      specialize (Hmarked d). rewrite Forall_forall in Hmarked.
      apply list_elem_of_In in Hin. rewrite (Hmarked _ Hin) in Hmark. discriminate. }
  split.
  - apply (main_keeps rt fs args); auto.
    right. intros ffmpeg_cmd ffprobe_cmd cutoff d st0 scan st1 E.
    exact (proj1 (Hnone _ _ _ _ _ _ _ E)).
  - apply (main_writes rt (Forall (fun row => Row.action row = "SKIP"))
             (fun scan => reducible_files scan = [] /\
                          Forall (fun row => Row.action row = "SKIP") (csv_rows scan))).
    + exact Hnone.
    + intros scan (_ & Hrows). right. exact Hrows.
    + intros scan (Hempty & Hrows). rewrite Hempty.
      pose proof (as_completed_perm rt []) as Hp.
      apply Permutation_nil_r in Hp. rewrite Hp. cbn [collect].
      apply post_ret. right. exact Hrows.
Qed.

(** X13. [main] writes at most one CSV file, the report of the run: every
    other file is as it was, and the report, if it is written, starts with
    the header line, has a row, and has eight cells on every line. *)
Theorem one_report_per_run args st :
  let after := reports (snd (main rt args st)) in
  (forall p, p <> csv_name rt -> after !! p = reports st !! p) /\
  (after = reports st \/
   exists row rows,
     after !! csv_name rt = Some (columns :: map row_cells (row :: rows)) /\
     Forall (fun line => length line = 8%nat) (columns :: map row_cells (row :: rows))).
Proof.
  cbv zeta.
  assert (H : writes_only (csv_name rt) (fun rows => rows <> []) (main rt args)).
  { apply (main_writes rt (fun rows => rows <> []) (fun _ => True)).
    - intros. apply post_true.
    - intros scan _. destruct (csv_rows scan); [left; reflexivity|right; discriminate].
    - intros scan _ st0 r st1 _. destruct (snd r); [left; reflexivity|right; discriminate]. }
  destruct (H st) as [Hk|(rows & Hrows & Hk)].
  - split; [intros p _; rewrite Hk; reflexivity|left; exact Hk].
  - split.
    + intros p Hp. rewrite Hk. apply lookup_insert_ne. congruence.
    + right. destruct rows as [|row rows]; [congruence|].
      exists row, rows. split; [rewrite Hk; apply lookup_insert_eq|].
      constructor; [reflexivity|]. apply Forall_forall. intros line Hin.
      apply list_elem_of_In, in_map_iff in Hin. destruct Hin as (r & <- & _). reflexivity.
Qed.

End Scan.

(** ** The reduction loop and the deletion phase *)

Section Phases.

Context (rt : Runtime).

Lemma reduce_worker_inv item st r st' :
  reduce_worker rt item st = (Ok r, st') ->
  Res.src r = Item.path item /\
  reduced_name (Item.path item) = Ok (Res.dst r) /\
  Res.savings_bytes r = Item.savings_bytes item /\
  Res.savings_percent r = Item.savings_percent item /\
  logfile st' = logfile st /\
  (Res.success r = true -> exists m, fs st' !! Res.dst r = Some m /\ 0 < st_size m).
Proof.
  unfold reduce_worker.
  unfold bind at 1. unfold lift at 1.
  destruct (reduced_name (Item.path item)) as [dst|] eqn:Hdst; [|discriminate].
  unfold bind at 1. unfold lift at 1.
  destruct (normalize_path rt (Item.path item)) as [nsrc|]; [|discriminate].
  unfold bind at 1. unfold lift at 1.
  destruct (normalize_path rt dst) as [ndst|]; [|discriminate].
  unfold bind at 1. unfold run_encoder at 1.
  destruct (run_ffmpeg rt (fs st) (encode_cmd (Item.ffmpeg_cmd item) nsrc ndst))
    as [[rc f']|]; [|discriminate].
  unfold bind at 1. unfold get_fs at 1. cbn [fs with_fs].
  unfold bind at 1. unfold lift at 1. unfold exists_, stat.
  destruct (f' !! dst) as [m|] eqn:Hm.
  - rewrite bool_decide_eq_true_2 by eauto.
    destruct (rc =? 0); cbn [andb rbind ret]; intros E; injection E as <- <-; cbn;
      repeat split; auto; try discriminate.
    intros H. apply Z.ltb_lt in H. eauto.
  - rewrite bool_decide_eq_false_2 by (intros [x Hx]; discriminate).
    rewrite andb_false_r. cbn [ret]. intros E; injection E as <- <-; cbn.
    repeat split; auto. discriminate.
Qed.

Lemma collect_inv infos completed : forall results count rows st results' count' rows' st',
  collect rt infos completed (results, count, rows) st = (Ok (results', count', rows'), st') ->
  exists new,
    results' = (results ++ new)%list /\
    count' = count + Z.of_nat (length completed) /\
    map Res.src new = map Item.path completed /\
    map Res.savings_percent new = map Item.savings_percent completed /\
    rows' = (rows ++ map (fun r => reduce_row r (infos !! Res.src r)) new)%list /\
    length (logfile st') = (length (logfile st) + length completed)%nat.
Proof.
  induction completed as [|item rest IH];
    intros results count rows st results' count' rows' st' E; cbn [collect] in E.
  - injection E as <- <- <- <-. exists []. rewrite !app_nil_r. cbn.
    repeat split; auto; lia.
  - unfold bind at 1 in E.
    destruct (reduce_worker rt item st) as [[r|e] st1] eqn:Ew; [|discriminate].
    destruct (reduce_worker_inv _ _ _ _ Ew) as (Hsrc & _ & _ & Hpct & Hlog & _).
    unfold bind at 1 in E. unfold log at 1 in E.
    apply IH in E. destruct E as (new & -> & -> & Hs & Hp & -> & Hl).
    exists (r :: new). rewrite <- !app_assoc. cbn [map app length].
    rewrite Hs, Hp, Hsrc, Hpct, Hl. cbn [with_log logfile]. rewrite length_app, Hlog. cbn.
    repeat split; auto; lia.
Qed.

Lemma scan_books ffmpeg_cmd ffprobe_cmd cutoff files st scan st' :
  preview rt ffmpeg_cmd ffprobe_cmd cutoff files scan0 st = (Ok scan, st') ->
  (forall item, In item (reducible_files scan) ->
                is_Some (file_info scan !! Item.path item)) /\
  (forall p i, file_info scan !! p = Some i ->
               exists item, In item (reducible_files scan) /\ Item.path item = p /\
                            i = info_of_item item).
Proof.
  apply (preview_inv rt
           (fun acc =>
              (forall item, In item (reducible_files acc) ->
                            is_Some (file_info acc !! Item.path item)) /\
              (forall p i, file_info acc !! p = Some i ->
                           exists item, In item (reducible_files acc) /\
                                        Item.path item = p /\ i = info_of_item item))).
  - intros mp3 acc acc' st0 st1 Hin (Hdom & Hinfo) E.
    apply preview_step_inv in E.
    destruct E as [(b & s & reason & -> & _)|(info & est & pct & H)];
      [split; [exact Hdom|exact Hinfo]|].
    destruct H as (_ & _ & _ & _ & _ & _ & _ & _ & -> & _).
    cbn [pass reducible_files file_info]. split.
    + intros item Hitem. rewrite lookup_insert_is_Some.
      apply in_app_or in Hitem as [Hitem|[<-|[]]]; [|left; reflexivity].
      destruct (decide (mp3 = Item.path item)) as [Heq|Hne]; [left; exact Heq|].
      right. split; [exact Hne|apply Hdom, Hitem].
    + intros p i Hi. apply lookup_insert_Some in Hi as [(<- & <-)|(Hne & Hi)].
      * eexists. split; [apply in_or_app; right; left; reflexivity|].
        split; reflexivity.
      * destruct (Hinfo p i Hi) as (item & Hitem & Hp & Heq).
        exists item. split; [apply in_or_app; left; exact Hitem|]. auto.
  - split; [intros item []|]. intros p i Hi. cbn [file_info scan0] in Hi.
    rewrite lookup_empty in Hi. discriminate Hi.
Qed.

Lemma Forall2_map_of {A B} (P : A -> B -> Prop) (g : A -> B) l :
  (forall a, In a l -> P a (g a)) -> Forall2 P l (map g l).
Proof.
  induction l as [|a l IH]; intros H; cbn [map]; constructor.
  - apply H. left. reflexivity.
  - apply IH. intros b Hb. apply H. right. exact Hb.
Qed.

(** X14. After a scan, the reduction loop appends exactly one REDUCE row
    per result, in the order of completion. The row of a result is written
    from the entry of its source in [file_info], and that entry holds the
    numbers of an entry of [reducible_files] with this path: the row has the
    name of the source, its bitrate, size, estimate and savings as integers
    and its percent with two decimals. The branch of [main] that fills a row
    with empty texts when the lookup fails is never taken. The counter is
    the number of results, one per task. *)
Theorem reduce_rows_are_filled ffmpeg_cmd ffprobe_cmd cutoff files st scan st1
    st2 results count rows st3 :
  preview rt ffmpeg_cmd ffprobe_cmd cutoff files scan0 st = (Ok scan, st1) ->
  collect rt (file_info scan) (as_completed rt (reducible_files scan))
    ([], 0, csv_rows scan) st2 = (Ok (results, count, rows), st3) ->
  count = Z.of_nat (length results) /\
  length results = length (reducible_files scan) /\
  exists new,
    rows = (csv_rows scan ++ new)%list /\
    Forall2 (fun r row =>
               exists item,
                 In item (reducible_files scan) /\
                 Item.path item = Res.src r /\
                 file_info scan !! Res.src r = Some (info_of_item item) /\
                 row = reduce_row_of item)
            results new.
Proof.
  intros Escan Ecoll.
  destruct (scan_books _ _ _ _ _ _ _ Escan) as (Hdom & Hinfo).
  apply collect_inv in Ecoll.
  destruct Ecoll as (new & Hres & -> & Hsrc & _ & -> & _).
  cbn [app] in Hres. subst results.
  pose proof (as_completed_perm rt (reducible_files scan)) as Hperm.
  assert (Hlen : length new = length (reducible_files scan)).
  { rewrite <- (length_map Res.src new), Hsrc, length_map. apply Permutation_length, Hperm. }
  split; [rewrite Hlen, (Permutation_length Hperm); lia|].
  split; [exact Hlen|].
  eexists. split; [reflexivity|].
  apply Forall2_map_of. intros r Hr.
  assert (Hin : In (Res.src r) (map Item.path (reducible_files scan))).
  { apply (Permutation_in _ (Permutation_map Item.path Hperm)).
    rewrite <- Hsrc. apply in_map, Hr. }
  apply in_map_iff in Hin. destruct Hin as (task & Hpath & Htask).
  destruct (Hdom task Htask) as [i Hi]. rewrite Hpath in Hi.
  destruct (Hinfo _ _ Hi) as (item & Hitem & Hp & ->).
  exists item. split; [exact Hitem|]. split; [exact Hp|]. split; [exact Hi|].
  rewrite Hi. unfold reduce_row, reduce_row_of, info_of_item. cbn.
  rewrite Hp. reflexivity.
Qed.

(** What one call of the verifier does to the state. *)
Lemma verify_effect original reduced ffprobe_cmd st :
  exists st',
    verify_and_delete rt original reduced ffprobe_cmd st = (Ok tt, st') /\
    (exists line, logfile st' = (logfile st ++ [line])%list) /\
    console st' = console st /\ stdin st' = stdin st /\ reports st' = reports st /\
    (fs st' = fs st \/
     fs st' = delete original (fs st) /\ is_Some (fs st !! original)
     /\ is_Some (fs st !! reduced) /\ reduced <> original).
Proof.
  unfold verify_and_delete, try_except, verify_and_delete_body.
  unfold statM, unlink, bind, get_fs, set_fs, lift, stat, exists_, log.
  cbv beta.
  destruct (fs st !! reduced) as [r|] eqn:Hr.
  2:{ rewrite bool_decide_eq_false_2 by (intros [x Hx]; discriminate).
      eexists. split; [reflexivity|]. cbn. repeat split; eauto. }
  rewrite bool_decide_eq_true_2 by eauto. cbn [negb]. cbv beta iota.
  rewrite ?Hr. cbv beta iota.
  destruct (st_size r <=? 0);
    [eexists; split; [reflexivity|]; cbn; repeat split; eauto|].
  cbv beta iota. rewrite ?Hr. cbv beta iota.
  destruct (fs st !! original) as [o|] eqn:Ho;
    [|eexists; split; [reflexivity|]; cbn; repeat split; eauto].
  cbv beta iota.
  destruct (st_size o <=? st_size r) eqn:Hsz;
    [eexists; split; [reflexivity|]; cbn; repeat split; eauto|].
  cbv beta iota. rewrite ?Hr. cbv beta iota. rewrite ?Ho. cbv beta iota.
  destruct (F64.leb (st_mtime r) (st_mtime o));
    [eexists; split; [reflexivity|]; cbn; repeat split; eauto|].
  cbv beta iota.
  destruct (ffprobe_audio_info rt (fs st) reduced ffprobe_cmd) as [info|] eqn:Hp;
    [|eexists; split; [reflexivity|]; cbn; repeat split; eauto].
  cbv beta iota. rewrite ?Ho. rewrite bool_decide_eq_true_2 by eauto. cbn [andb].
  destruct (unlink_denied rt original); cbn;
    (eexists; split; [reflexivity|]; cbn; repeat split; eauto).
  right. repeat split; eauto.
  intros ->. rewrite Hr in Ho. injection Ho as ->.
  apply Z.leb_gt in Hsz. lia.
Qed.

(** X15. Of the files, one call of the verifier can only remove the
    original: every other path, the derived file among them, is as it was,
    and the original is as it was or gone. When the original is removed,
    the derived file is another path and is still there. The console and
    the CSV files are not touched. *)
Theorem verifier_touches_only_the_original original reduced ffprobe_cmd st :
  let st' := snd (verify_and_delete rt original reduced ffprobe_cmd st) in
  console st' = console st /\ reports st' = reports st /\
  (forall p, p <> original -> fs st' !! p = fs st !! p) /\
  (fs st' !! original = fs st !! original \/ fs st' !! original = None) /\
  (fs st' <> fs st -> reduced <> original /\ fs st' !! reduced = fs st !! reduced
                      /\ is_Some (fs st' !! reduced)).
Proof.
  cbv zeta.
  destruct (verify_effect original reduced ffprobe_cmd st)
    as (st' & -> & _ & Hcon & _ & Hrep & Hfs).
  cbn [fst snd].
  split; [exact Hcon|]. split; [exact Hrep|].
  destruct Hfs as [-> | (-> & Ho & Hr & Hne)].
  - split; [reflexivity|]. split; [left; reflexivity|]. congruence.
  - split; [intros p Hp; apply lookup_delete_ne; congruence|].
    split; [right; apply lookup_delete_eq|].
    intros _. split; [exact Hne|].
    rewrite lookup_delete_ne by congruence. split; [reflexivity|exact Hr].
Qed.

(** X16. The deletion loop changes the files only by removing sources of
    successful results: a path whose entry differs afterwards was there
    before, is gone, and is the source of a result with [success]. The
    console and the CSV files are not touched. *)
Theorem deletion_removes_only_converted_sources ffprobe_cmd results : forall st,
  let st' := snd (delete_originals rt ffprobe_cmd results st) in
  console st' = console st /\ reports st' = reports st /\
  (forall p, fs st' !! p <> fs st !! p ->
             fs st' !! p = None /\ is_Some (fs st !! p) /\
             exists r, In r results /\ Res.success r = true /\ Res.src r = p).
Proof.
  cbv zeta.
  induction results as [|r rest IH]; intros st.
  - cbn. split; [reflexivity|]. split; [reflexivity|]. intros p H. congruence.
  - cbn [delete_originals].
    set (head := if negb (Res.success r) then _ else _).
    unfold bind.
    assert (Hhead : exists st1, head st = (Ok tt, st1) /\
              console st1 = console st /\ reports st1 = reports st /\
              (fs st1 = fs st \/
               fs st1 = delete (Res.src r) (fs st) /\ is_Some (fs st !! Res.src r)
               /\ Res.success r = true)).
    { subst head. destruct (Res.success r) eqn:Hs; cbn [negb].
      2:{ eexists. split; [reflexivity|]. cbn. auto. }
      unfold bind at 1. unfold get_fs at 1.
      destruct (negb (exists_ (fs st) (Res.src r))).
      { eexists. split; [reflexivity|]. cbn. auto. }
      destruct (verify_effect (Res.src r) (Res.dst r) ffprobe_cmd st)
        as (st1 & -> & _ & Hcon & _ & Hrep & Hfs).
      exists st1. split; [reflexivity|].
      split; [exact Hcon|]. split; [exact Hrep|].
      destruct Hfs as [Hfs|(Hfs & Ho & _)]; [left; exact Hfs|right; auto]. }
    destruct Hhead as (st1 & -> & Hcon & Hrep & Hfs).
    destruct (IH st1) as (Hcon' & Hrep' & Hfs').
    split; [congruence|]. split; [congruence|].
    intros p Hp.
    assert (Hlater : fs (snd (delete_originals rt ffprobe_cmd rest st1)) !! p <> fs st1 !! p ->
              fs (snd (delete_originals rt ffprobe_cmd rest st1)) !! p = None /\
              is_Some (fs st1 !! p) /\
              exists r', In r' (r :: rest) /\ Res.success r' = true /\ Res.src r' = p).
    { intros Hdiff. destruct (Hfs' p Hdiff) as (Hnone & Hsome & r' & Hin & Hs & Hsrc).
      split; [exact Hnone|]. split; [exact Hsome|].
      exists r'. split; [right; exact Hin|]. auto. }
    destruct Hfs as [Hfs|(Hfs & Ho & Hs)].
    + rewrite Hfs in Hlater. apply Hlater, Hp.
    + destruct (decide (p = Res.src r)) as [->|Hne].
      * assert (Hgone : fs st1 !! Res.src r = None)
          by (rewrite Hfs; apply lookup_delete_eq).
        split.
        -- destruct (fs (snd (delete_originals rt ffprobe_cmd rest st1)) !! Res.src r)
             as [m|] eqn:Hm; [|reflexivity].
           destruct Hlater as (_ & [x Hx] & _); [|congruence].
           rewrite Hgone. discriminate.
        -- split; [exact Ho|]. exists r. split; [left; reflexivity|]. auto.
      * assert (Hsame : fs st1 !! p = fs st !! p)
          by (rewrite Hfs; apply lookup_delete_ne; congruence).
        rewrite Hsame in Hlater. apply Hlater, Hp.
Qed.

End Phases.

(** ** The further properties on the sample world *)

Lemma normalization_removes_backslashes_witness :
  normalize_path Demo.rt "C:\music\b.mp3" = Ok "C:/music/b.mp3" /\
  has_char is_backslash "C:/music/b.mp3" = false /\
  has_char is_backslash (normalize_directory_input "  C:\music\rock ") = false /\
  starts_clean is_space (normalize_directory_input "  C:\music\rock ") /\
  normalize_directory_input (normalize_directory_input "  C:\music\rock ")
    = normalize_directory_input "  C:\music\rock ".
Proof.
  split; [reflexivity|].
  apply (normalization_removes_backslashes Demo.rt "  C:\music\rock " "C:\music\b.mp3"
           "C:/music/b.mp3").
  reflexivity.
Defined.

Lemma derived_name_is_marked_witness :
  reduced_name "C:/music/b.mp3" = Ok "C:/music/b_reduced.mp3" /\
  fst (split_last "C:/music/b_reduced.mp3") = fst (split_last "C:/music/b.mp3") /\
  name "C:/music/b_reduced.mp3" = stem "C:/music/b.mp3" +:+ "_reduced.mp3" /\
  "C:/music/b_reduced.mp3" <> "C:/music/b.mp3" /\
  suffix "C:/music/b_reduced.mp3" = ".mp3" /\
  stem "C:/music/b_reduced.mp3" = stem "C:/music/b.mp3" +:+ "_reduced" /\
  contains "_reduced" (lower (name "C:/music/b_reduced.mp3")) = true.
Proof.
  split; [reflexivity|].
  apply (derived_name_is_marked "C:/music/b.mp3" "C:/music/b_reduced.mp3").
  reflexivity.
Defined.

Lemma probe_success_shape_witness :
  exists npath out data b d meta,
    normalize_path Demo.rt "C:/music/a.mp3" = Ok npath /\
    run_ffprobe Demo.rt Demo.files (probe_cmd "ffprobe" npath) = Ok out /\
    nonempty (strip out) = true /\
    json_loads Demo.rt out = Some data /\
    stream_bit_rate data = Ok b /\ is_none b = false /\
    py_int Demo.rt b = Ok (Info.bitrate Demo.info_a) /\
    format_duration data = Ok d /\ is_none d = false /\
    py_float Demo.rt d = Ok (Info.duration Demo.info_a) /\
    Demo.files !! "C:/music/a.mp3" = Some meta /\
    Info.size Demo.info_a = st_size meta.
Proof.
  apply (probe_success_shape Demo.rt Demo.files "C:/music/a.mp3" "ffprobe" Demo.info_a).
  vm_compute. reflexivity.
Defined.

Lemma reducible_files_passed_every_rule_witness :
  exists scan st',
    preview Demo.rt "ffmpeg" "ffprobe" None Demo.listing scan0 Demo.st = (Ok scan, st') /\
    length (reducible_files scan) = 1%nat /\
    Forall (pass_conditions "ffmpeg" Demo.listing) (reducible_files scan).
Proof.
  eassert (E : preview Demo.rt "ffmpeg" "ffprobe" None Demo.listing scan0 Demo.st
               = (Ok _, _)) by (vm_compute; reflexivity).
  eexists _, _. split; [exact E|]. split; [reflexivity|].
  exact (reducible_files_passed_every_rule Demo.rt "ffmpeg" "ffprobe" None Demo.listing
           Demo.st _ _ E).
Defined.

Lemma scan_bookkeeping_witness :
  exists scan st',
    preview Demo.rt "ffmpeg" "ffprobe" None Demo.listing scan0 Demo.st = (Ok scan, st') /\
    total_estimated_savings scan = 4320000 /\
    total_estimated_savings scan = sum_savings (reducible_files scan) /\
    (reducible_files scan <> [] -> 0 < total_estimated_savings scan) /\
    (forall p, is_Some (file_info scan !! p) <->
               exists item, In item (reducible_files scan) /\ Item.path item = p).
Proof.
  eassert (E : preview Demo.rt "ffmpeg" "ffprobe" None Demo.listing scan0 Demo.st
               = (Ok _, _)) by (vm_compute; reflexivity).
  eexists _, _. split; [exact E|]. split; [reflexivity|].
  exact (scan_bookkeeping Demo.rt "ffmpeg" "ffprobe" None Demo.listing Demo.st _ _ E).
Defined.

Lemma auto_mode_never_prompts_witness :
  Args.auto Demo.args = true /\
  stdin (snd (main Demo.rt Demo.args Sample.answering)) = ["y"; "n"].
Proof.
  split; [reflexivity|].
  apply (auto_mode_never_prompts Demo.rt Demo.args Sample.answering). reflexivity.
Defined.

Lemma nocsv_writes_no_report_witness :
  Args.nocsv Sample.args_nocsv = true /\
  reports (snd (main Demo.rt Sample.args_nocsv Sample.answering)) = ∅.
Proof.
  split; [reflexivity|].
  apply (nocsv_writes_no_report Demo.rt Sample.args_nocsv Sample.answering). reflexivity.
Defined.

Lemma derived_files_are_left_alone_witness :
  fs (snd (main Sample.marked_only Demo.args Demo.st)) = fs Demo.st /\
  (reports (snd (main Sample.marked_only Demo.args Demo.st)) = reports Demo.st \/
   exists rows,
     Forall (fun row => Row.action row = "SKIP") rows /\
     reports (snd (main Sample.marked_only Demo.args Demo.st)) =
       <[csv_name Sample.marked_only := columns :: map row_cells rows]> (reports Demo.st)).
Proof.
  apply (derived_files_are_left_alone Sample.marked_only Demo.args Demo.st).
  intros d. repeat (constructor; [vm_compute; reflexivity|]). constructor.
Defined.

Lemma reduce_rows_are_filled_witness :
  exists scan st1 results count rows st3,
    preview Demo.rt "ffmpeg" "ffprobe" None Demo.listing scan0 Demo.st = (Ok scan, st1) /\
    collect Demo.rt (file_info scan) (as_completed Demo.rt (reducible_files scan))
      ([], 0, csv_rows scan) st1 = (Ok (results, count, rows), st3) /\
    count = Z.of_nat (length results) /\
    length results = length (reducible_files scan) /\
    exists new,
      rows = (csv_rows scan ++ new)%list /\
      Forall2 (fun r row =>
                 exists item,
                   In item (reducible_files scan) /\
                   Item.path item = Res.src r /\
                   file_info scan !! Res.src r = Some (info_of_item item) /\
                   row = reduce_row_of item)
              results new.
Proof.
  eassert (E : preview Demo.rt "ffmpeg" "ffprobe" None Demo.listing scan0 Demo.st
               = (Ok _, _)) by (vm_compute; reflexivity).
  match type of E with
  | _ = (Ok ?scan, ?st1) =>
      eassert (E2 : collect Demo.rt (file_info scan)
                      (as_completed Demo.rt (reducible_files scan))
                      ([], 0, csv_rows scan) st1 = (Ok (_, _, _), _))
        by (vm_compute; reflexivity)
  end.
  eexists _, _, _, _, _, _. split; [exact E|]. split; [exact E2|].
  exact (reduce_rows_are_filled Demo.rt "ffmpeg" "ffprobe" None Demo.listing Demo.st
           _ _ _ _ _ _ _ E E2).
Defined.

(** * The report and the errors of a run *)

(** ** Runs that start in a given file system *)

Lemma writes_at_any f report P {A} (c : M A) :
  writes_only report P c -> writes_at f report P c.
Proof. intros H st _. apply H. Qed.

Lemma writes_at_step f report P {A B} (c : M A) (k : A -> M B) :
  keeps reports c -> keeps fs c ->
  (forall a, writes_at f report P (k a)) ->
  writes_at f report P (bind c k).
Proof.
  intros Hr Hf Hk st Hst. unfold bind.
  specialize (Hr st). specialize (Hf st).
  destruct (c st) as [[a|e] st1]; cbn [snd] in Hr, Hf; [|left; exact Hr].
  destruct (Hk a st1) as [H|(rows & HP & H)]; [congruence| |].
  - left. congruence.
  - right. exists rows. split; [exact HP|]. rewrite H, Hr. reflexivity.
Qed.

Lemma writes_at_scan f report P {A B} (c : M A) (k : A -> M B) (Q : A -> Prop) :
  keeps reports c -> post_at f c Q ->
  (forall a, Q a -> writes_only report P (k a)) ->
  writes_at f report P (bind c k).
Proof.
  intros Hr Hq Hk st Hst. unfold bind.
  specialize (Hr st).
  destruct (c st) as [[a|e] st1] eqn:Ec; cbn [snd] in Hr; [|left; exact Hr].
  destruct (Hk a (Hq _ _ _ Hst Ec) st1) as [H|(rows & HP & H)].
  - left. congruence.
  - right. exists rows. split; [exact HP|]. rewrite H, Hr. reflexivity.
Qed.

(** A step that prints, or does nothing, leaves the rest of the state. *)
Ltac still :=
  intros ?;
  repeat match goal with
         | |- context [if ?b then _ else _] => destruct b
         end;
  reflexivity.

Section Report.

Context (rt : Runtime).

(** The CSV files after a run of [main] that starts in [f]: untouched, or
    one report whose rows satisfy [P], when the rows of a scan of [f] and
    of the reduction after it do. *)
Lemma main_writes_at f (P : list Row.t -> Prop) (QS : Scan -> Prop) args :
  (forall ffmpeg_cmd ffprobe_cmd cutoff d,
     detect_ffmpeg_windows_only rt = Ok (ffmpeg_cmd, ffprobe_cmd) ->
     post_at f (preview rt ffmpeg_cmd ffprobe_cmd cutoff (rglob_mp3 rt d) scan0) QS) ->
  (forall scan, QS scan -> csv_rows scan = [] \/ P (csv_rows scan)) ->
  (forall scan, QS scan ->
     post (collect rt (file_info scan) (as_completed rt (reducible_files scan))
             ([], 0, csv_rows scan))
          (fun r => snd r = [] \/ P (snd r))) ->
  writes_at f (csv_name rt) P (main rt args).
Proof.
  intros Hscan Hrows Hcoll. unfold main.
  destruct (detect_ffmpeg_windows_only rt) as [[ffmpeg_cmd ffprobe_cmd]|e] eqn:Hdet;
    [|apply writes_at_any; untouched].
  apply writes_at_step; [still|still|]. intros _.
  apply writes_at_step; [still|still|]. intros _.
  apply writes_at_step; [still|still|]. intros _.
  apply writes_at_step; [still|still|]. intros _.
  apply writes_at_step.
  { apply keeps_select_directory; auto. }
  { apply keeps_select_directory; auto. }
  intros raw_dir.
  destruct (negb (dir_exists rt (normalize_directory_input raw_dir)));
    [apply writes_at_any; untouched|].
  apply writes_at_step.
  { apply keeps_select_minutes; auto. }
  { apply keeps_select_minutes; auto. }
  intros minutes.
  apply writes_at_step.
  { apply keeps_select_cutoff; auto. }
  { apply keeps_select_cutoff; auto. }
  intros cutoff.
  apply writes_at_step; [still|still|]. intros _.
  apply (writes_at_scan _ _ _ _ _ QS);
    [apply keeps_preview; auto|apply Hscan; reflexivity|].
  intros scan Hq.
  apply writes_seq; [untouched|]. intros _.
  destruct (reducible_files scan) as [|item items] eqn:Hitems.
  { apply writes_seq; [untouched|]. intros _.
    apply writes_seq; [untouched|]. intros _.
    apply writes_csv_export. auto. }
  apply writes_seq; [untouched|]. intros _.
  apply writes_seq; [apply writes_print_reducible|]. intros _.
  apply writes_seq; [apply writes_lift|]. intros mb.
  apply writes_seq; [untouched|]. intros _.
  apply writes_seq.
  { destruct (Args.auto args); [untouched|].
    apply writes_seq; [apply writes_input|]. intros answer. untouched. }
  intros choice.
  destruct (negb (String.eqb choice "y")).
  { apply writes_seq; [untouched|]. intros _.
    apply writes_seq; [untouched|]. intros _.
    apply writes_csv_export. auto. }
  apply writes_seq; [untouched|]. intros _.
  apply (writes_bind _ _ _ _ (fun r => snd r = [] \/ P (snd r))).
  { apply writes_collect. }
  { rewrite <- Hitems. apply Hcoll. exact Hq. }
  intros [[reduction_results count] rows] Hr. cbn [snd] in Hr.
  apply writes_seq; [untouched|]. intros _.
  apply writes_seq; [untouched|]. intros _.
  apply writes_seq; [untouched|]. intros _.
  apply writes_seq.
  { destruct (Args.auto args); [untouched|].
    apply writes_seq; [apply writes_input|]. intros answer. untouched. }
  intros delete_choice.
  apply writes_seq.
  { destruct (String.eqb delete_choice "y"); [|untouched].
    apply writes_seq; [untouched|]. intros _. apply writes_delete_originals. }
  intros _.
  apply writes_seq; [apply writes_csv_export; exact Hr|]. intros _. untouched.
Qed.

(** The row that one step of the preview loop appends, and where its cells
    come from. *)
Lemma preview_step_row ffmpeg_cmd ffprobe_cmd cutoff mp3 acc st acc' st' :
  preview_step rt ffmpeg_cmd ffprobe_cmd cutoff mp3 acc st = (Ok acc', st') ->
  exists row,
    csv_rows acc' = (csv_rows acc ++ [row])%list /\
    row_source rt (fs st) ffprobe_cmd mp3 row.
Proof.
  assert (Hearly : forall reason st0,
            rules_1_to_4 reason ->
            skip mp3 (CStr "") (CStr "") reason acc st0 = (Ok acc', st') ->
            exists row,
              csv_rows acc' = (csv_rows acc ++ [row])%list /\
              row_source rt (fs st) ffprobe_cmd mp3 row).
  { intros reason st0 Hr E. unfold skip, bind, log, ret in E. injection E as <- _.
    eexists. split; [reflexivity|]. split; [reflexivity|]. left. cbn. auto. }
  assert (Hlate : forall info reason st0,
            ffprobe_audio_info rt (fs st) mp3 ffprobe_cmd = Some info ->
            rules_5_to_7 reason ->
            skip mp3 (CInt (Info.bitrate info)) (CInt (Info.size info)) reason acc st0
              = (Ok acc', st') ->
            exists row,
              csv_rows acc' = (csv_rows acc ++ [row])%list /\
              row_source rt (fs st) ffprobe_cmd mp3 row).
  { intros info reason st0 Hp Hr E. unfold skip, bind, log, ret in E. injection E as <- _.
    eexists. split; [reflexivity|]. split; [reflexivity|]. right.
    exists info. cbn. split; [exact Hp|]. split; [reflexivity|]. split; [reflexivity|].
    left. split; [reflexivity|exact Hr]. }
  unfold preview_step. unfold bind at 1. unfold get_fs at 1.
  unfold bind at 1. unfold lift at 1.
  destruct (reduced_exists (fs st) mp3) as [sibling|]; [|discriminate].
  destruct sibling; [apply Hearly; unfold rules_1_to_4; auto|].
  unfold bind at 1.
  assert (Hout : forall r st0, outside_window cutoff mp3 st = (r, st0) -> st0 = st).
  { intros r st0. unfold outside_window. destruct cutoff; [|intros E; injection E; auto].
    unfold statM, bind, get_fs, lift. destruct (stat (fs st) mp3); cbn; intros E;
      injection E; auto. }
  destruct (outside_window cutoff mp3 st) as [[outside|] st0] eqn:Ho; [|discriminate].
  pose proof (Hout _ _ eq_refl) as ->.
  destruct outside; [apply Hearly; unfold rules_1_to_4; auto|].
  destruct (contains "_reduced" (lower (name mp3)));
    [apply Hearly; unfold rules_1_to_4; auto|].
  unfold bind at 1. unfold get_fs at 1.
  destruct (ffprobe_audio_info rt (fs st) mp3 ffprobe_cmd) as [info|] eqn:Hprobe;
    [|apply Hearly; unfold rules_1_to_4; auto].
  destruct (Info.bitrate info <=? TARGET_BITRATE);
    [apply (Hlate info); [reflexivity|unfold rules_5_to_7; auto]|].
  unfold bind at 1. unfold lift at 1.
  destruct (estimate (Info.duration info)) as [est|]; [|discriminate].
  destruct (Info.size info - est <=? 0);
    [apply (Hlate info); [reflexivity|unfold rules_5_to_7; auto]|].
  unfold bind at 1. unfold lift at 1.
  destruct (percent (Info.size info - est) (Info.size info)) as [pct|]; [|discriminate].
  destruct (F64.ltb pct (F64.of_Z MIN_SAVINGS_PERCENT)).
  { apply (Hlate info); [reflexivity|]. right. right. exists pct. reflexivity. }
  intros E. unfold bind, log, ret in E. injection E as <- _.
  eexists. split; [reflexivity|]. split; [reflexivity|]. right.
  exists info. cbn. split; [exact Hprobe|]. split; [reflexivity|]. split; [reflexivity|].
  right. split; reflexivity.
Qed.

Lemma preview_rows ffmpeg_cmd ffprobe_cmd cutoff files : forall acc st acc' st',
  preview rt ffmpeg_cmd ffprobe_cmd cutoff files acc st = (Ok acc', st') ->
  exists rows,
    csv_rows acc' = (csv_rows acc ++ rows)%list /\
    Forall (fun row => exists mp3, In mp3 files /\
                                   row_source rt (fs st) ffprobe_cmd mp3 row) rows.
Proof.
  induction files as [|mp3 rest IH]; intros acc st acc' st' E; cbn [preview] in E.
  - injection E as <- _. exists []. rewrite app_nil_r. split; [reflexivity|constructor].
  - unfold bind in E.
    destruct (preview_step rt ffmpeg_cmd ffprobe_cmd cutoff mp3 acc st)
      as [[acc1|e] st1] eqn:E1; [|discriminate].
    pose proof (keeps_preview_step rt fs (fun _ _ => eq_refl)
                  ffmpeg_cmd ffprobe_cmd cutoff mp3 acc st) as Hfs.
    rewrite E1 in Hfs. cbn [snd] in Hfs.
    destruct (preview_step_row _ _ _ _ _ _ _ _ E1) as (row & Hrow & Hsrc).
    destruct (IH _ _ _ _ E) as (rows & Hrows & Hall).
    exists (row :: rows). split.
    + rewrite Hrows, Hrow, <- app_assoc. reflexivity.
    + constructor.
      * exists mp3. split; [left; reflexivity|exact Hsrc].
      * rewrite Hfs in Hall. apply Forall_forall. intros r Hr.
        rewrite Forall_forall in Hall. destruct (Hall r Hr) as (p & Hp & Hs).
        exists p. split; [right; exact Hp|exact Hs].
Qed.

(** C7 (as amended). Every report that [main] writes, in a run that
    starts in the file system [fs st] and whose probes have plausible
    durations, holds rows of these kinds only. A SKIP row has the text
    [skip] as estimated size, savings in bytes and savings percent; its
    bitrate and size are both empty when its reason is one of rules 1 to 4,
    and they are the two integers of the probe of its file when its reason
    is one of rules 5 to 7. A PASS row carries the probed integers too, and
    on every row that is not a SKIP row (PASS or REDUCE) the savings percent
    is a two-decimal string. *)
Theorem report_rows_discipline args st :
  plausible_probes rt ->
  reports (snd (main rt args st)) = reports st \/
  exists rows,
    Forall (report_row rt (fs st)) rows /\
    reports (snd (main rt args st)) =
      <[csv_name rt := columns :: map row_cells rows]> (reports st).
Proof.
  intros Hwf.
  refine (main_writes_at (fs st) (Forall (report_row rt (fs st)))
            (fun scan => scan_ok scan /\ Forall (report_row rt (fs st)) (csv_rows scan))
            args _ _ _ st eq_refl).
  - intros ffmpeg_cmd ffprobe_cmd cutoff d Hdet st0 scan st1 Hfs E.
    assert (Hok : scan_ok scan).
    { refine (post_preview rt ffmpeg_cmd ffprobe_cmd cutoff (rglob_mp3 rt d) scan0 _
                scan_ok_scan0 st0 scan st1 E).
      intros mp3 f info Hin. eapply Hwf. exact Hin. }
    split; [exact Hok|].
    destruct (preview_rows _ _ _ _ _ _ _ _ E) as (rows & Hrows & Hall).
    cbn [csv_rows scan0 app] in Hrows. subst rows.
    destruct Hok as (Hrok & _).
    apply Forall_forall. intros row Hrow.
    rewrite Forall_forall in Hrok, Hall.
    split; [exact (Hrok row Hrow)|]. right.
    destruct (Hall row Hrow) as (mp3 & Hin & Hsrc).
    exists ffmpeg_cmd, ffprobe_cmd, d, mp3. rewrite <- Hfs. auto.
  - intros scan (_ & Hrows). right. exact Hrows.
  - intros scan ((Hrok & Hitems & Hinfos) & Hrows) st0 [[results count] rows] st1 E. right.
    cbn [snd].
    assert (Hok : Forall (fun row => row_ok row = true) rows).
    { refine (post_collect_rows rt (file_info scan) (as_completed rt (reducible_files scan))
                ([], 0, csv_rows scan) _ Hinfos Hrok st0 _ st1 E).
      apply Forall_forall. intros item Hin. rewrite Forall_forall in Hitems. apply Hitems.
      apply list_elem_of_In. apply list_elem_of_In in Hin.
      rewrite <- (as_completed_perm rt (reducible_files scan)). exact Hin. }
    apply collect_inv in E. destruct E as (new & _ & _ & _ & _ & Hnew & _).
    apply Forall_forall. intros row Hrow.
    rewrite Forall_forall in Hok. split; [exact (Hok row Hrow)|].
    rewrite Hnew in Hrow. apply list_elem_of_In, in_app_or in Hrow as [Hrow|Hrow].
    + rewrite Forall_forall in Hrows. apply list_elem_of_In in Hrow.
      exact (proj2 (Hrows row Hrow)).
    + left. apply in_map_iff in Hrow. destruct Hrow as (r & <- & _).
      unfold reduce_row. destruct (file_info scan !! Res.src r); reflexivity.
Qed.

End Report.

Lemma report_rows_discipline_witness :
  reports (snd (main Demo.rt Demo.args Demo.st)) = reports Demo.st \/
  exists rows,
    Forall (report_row Demo.rt (fs Demo.st)) rows /\
    reports (snd (main Demo.rt Demo.args Demo.st)) =
      <[csv_name Demo.rt := columns :: map row_cells rows]> (reports Demo.st).
Proof.
  apply (report_rows_discipline Demo.rt Demo.args Demo.st). exact demo_plausible_probes.
Defined.

(** ** What ends a run *)

Section Errors.

Context (rt : Runtime).






End Errors.


(** The hypotheses of the worker sentence hold of the run of the sample
    world whose encoder process dies. *)
Lemma crashing_run_reaches_the_loop :
  exists scan,
    detect_ffmpeg_windows_only Demo.crashing
      = Ok ("C:/ffmpeg/bin/ffmpeg.exe", "C:/ffmpeg/bin/ffprobe.exe") /\
    dir_exists Demo.crashing (auto_directory Demo.crashing Demo.args) = true /\
    (forall st0, fs st0 = fs Demo.st ->
       fst (preview Demo.crashing "C:/ffmpeg/bin/ffmpeg.exe" "C:/ffmpeg/bin/ffprobe.exe" None
              (rglob_mp3 Demo.crashing (auto_directory Demo.crashing Demo.args)) scan0 st0)
         = Ok scan) /\
    is_ok (F64.int_truediv (total_estimated_savings scan) (1024 * 1024)) = true /\
    as_completed Demo.crashing (reducible_files scan) = [Demo.task] /\
    (forall st0, fs st0 = fs Demo.st ->
       fst (reduce_worker Demo.crashing Demo.task st0) = Raise BrokenProcessPool).
Proof.
  eexists. split; [reflexivity|]. split; [vm_compute; reflexivity|].
  split; [|split; [|split]].
  - intros [f l c i r] Hf. cbn [fs] in Hf. subst f. vm_compute. reflexivity.
  - vm_compute. reflexivity.
  - vm_compute. reflexivity.
  - intros [f l c i r] Hf. cbn [fs] in Hf. subst f. vm_compute. reflexivity.
Qed.

